(** * Motel assistant back end: the tool functions of [backend/agent.py]

    A shallow embedding of the tool functions the chat agent calls
    ([check_room_availability], [book_room], [raise_guest_request],
    [close_guest_request], [get_occupancy_rate]) together with the helpers
    [missing_param_response] and [parse_date], followed by the properties
    of the written specification that concern them.  The listing and
    reporting tools ([view_guest_requests], [get_room_details],
    [get_all_guests], [get_revenue_by_date], [get_top_booking_source],
    [list_room_types], [list_booking_sources]), the connection helpers and
    [ask_agent] follow, with properties read off the code.

    Modelling choices, all taken from the Python source:
    - an optional keyword argument ([guest_name: str = None]) is an
      [option]; Python truthiness ([if not guest_name]) is spelled out;
    - [datetime] values are records of the seven calendar and clock
      fields, compared field by field as CPython does;
    - the PostgreSQL tables are lists of rows in storage order, a query
      without [ORDER BY] scans them in that order;
    - the session memory is a finite map keyed by thread id;
    - of the [memory] object, a [MemorySaver], [get] reads the checkpoint
      of a thread; the class has no [save], so the call of [book_room] to
      it raises [AttributeError];
    - every reply is a string in the source; here it is a constructor
      carrying the values the f-string interpolates;
    - the database is taken to answer every statement: of the [except]
      branches only the [ZeroDivisionError] of the occupancy division and
      the [AttributeError] of [memory.save] are modelled;
    - date strings are those that name no weekday and no time zone, for
      which [dateutil] yields a datetime without [tzinfo]. *)

From Stdlib Require Import ZArith QArith List Ascii String Bool Lia Sorted
  Permutation.
From stdpp Require Import base option gmap strings.

Local Open Scope string_scope.
Local Open Scope Z_scope.

(* ===================================================================== *)
(** ** Python [datetime] *)
(* ===================================================================== *)

Module Py.

(** [datetime.datetime] without time zone. *)
Record datetime : Type := mk_datetime {
  year : Z; month : Z; day : Z;
  hour : Z; minute : Z; second : Z; microsecond : Z
}.

(** [datetime.date]; also the value of a PostgreSQL [DATE] column and
    of a ["%Y-%m-%d"] string handed to one. *)
Record date : Type := mk_date { d_year : Z; d_month : Z; d_day : Z }.

Definition is_leap (y : Z) : bool :=
  (y mod 4 =? 0) && (negb (y mod 100 =? 0) || (y mod 400 =? 0)).

Definition days_in_month (y m : Z) : Z :=
  if m =? 2 then (if is_leap y then 29 else 28)
  else if (m =? 4) || (m =? 6) || (m =? 9) || (m =? 11) then 30
  else 31.

(** [_days_before_year]: days before January 1st of year [y]. *)
Definition days_before_year (y : Z) : Z :=
  let p := y - 1 in p * 365 + p / 4 - p / 100 + p / 400.

(** [_days_before_month]: days in year [y] before the first of month [m]. *)
Definition days_before_month (y m : Z) : Z :=
  fold_right Z.add 0
    (map (days_in_month y) (map Z.of_nat (seq 1 (Z.to_nat (m - 1))))).

(** [_ymd2ord], the proleptic Gregorian ordinal of a day. *)
Definition ymd2ord (y m d : Z) : Z :=
  days_before_year y + days_before_month y m + d.

Definition toordinal (d : date) : Z := ymd2ord (d_year d) (d_month d) (d_day d).

(** [datetime.date()] *)
Definition date_of (t : datetime) : date :=
  mk_date (year t) (month t) (day t).

Definition check_date_fields (y m d : Z) : bool :=
  (1 <=? y) && (y <=? 9999) && (1 <=? m) && (m <=? 12) &&
  (1 <=? d) && (d <=? days_in_month y m).

Definition check_time_fields (h mi s us : Z) : bool :=
  (0 <=? h) && (h <=? 23) && (0 <=? mi) && (mi <=? 59) &&
  (0 <=? s) && (s <=? 59) && (0 <=? us) && (us <=? 999999).

Definition valid_datetime (t : datetime) : bool :=
  check_date_fields (year t) (month t) (day t) &&
  check_time_fields (hour t) (minute t) (second t) (microsecond t).

(** The constructor [datetime(...)], which raises [ValueError] ([None])
    on fields out of range; [datetime.replace] goes through it. *)
Definition new_datetime (y m d h mi s us : Z) : option datetime :=
  if check_date_fields y m d && check_time_fields h mi s us
  then Some (mk_datetime y m d h mi s us) else None.

(** [t.replace(year=y)] *)
Definition replace_year (t : datetime) (y : Z) : option datetime :=
  new_datetime y (month t) (day t) (hour t) (minute t) (second t) (microsecond t).

(** Comparison of dates: lexicographic on (year, month, day). *)
Definition date_compare (a b : date) : comparison :=
  match d_year a ?= d_year b with
  | Eq => match d_month a ?= d_month b with
          | Eq => d_day a ?= d_day b
          | c => c
          end
  | c => c
  end.

Definition date_ltb (a b : date) : bool :=
  match date_compare a b with Lt => true | _ => false end.
Definition date_leb (a b : date) : bool :=
  match date_compare a b with Gt => false | _ => true end.

(** Microseconds since midnight. *)
Definition time_us (t : datetime) : Z :=
  ((hour t * 60 + minute t) * 60 + second t) * 1000000 + microsecond t.

(** Lexicographic comparison of two tuples of integers. *)
Fixpoint tuple_compare (a b : list Z) : comparison :=
  match a, b with
  | x :: a', y :: b' =>
      match x ?= y with Eq => tuple_compare a' b' | c => c end
  | [], [] => Eq
  | [], _ :: _ => Lt
  | _ :: _, [] => Gt
  end.

(** [datetime._cmp]: the seven fields, compared as a tuple. *)
Definition datetime_compare (a b : datetime) : comparison :=
  tuple_compare
    [year a; month a; day a; hour a; minute a; second a; microsecond a]
    [year b; month b; day b; hour b; minute b; second b; microsecond b].

Definition datetime_leb (a b : datetime) : bool :=
  match datetime_compare a b with Gt => false | _ => true end.

Definition us_per_day : Z := 86400 * 1000000.

(** [(a - b).days]: a [timedelta] is normalised so that its seconds and
    microseconds are non-negative, hence [days] is the floor of the
    difference measured in days. *)
Definition sub_days (a b : datetime) : Z :=
  ((toordinal (date_of a) - toordinal (date_of b)) * us_per_day
   + (time_us a - time_us b)) / us_per_day.

End Py.

(* ===================================================================== *)
(** ** [dateutil.parser.parse] *)
(* ===================================================================== *)

(** [dateutil] is a third-party library.  Its [parse] has two stages: the
    tokeniser and grammar ([parser._parse]) decide which fields the string
    gives, and [parser._build_naive] puts those fields into a default
    datetime, today at midnight.  The first stage is a parameter of this
    development; the second is the definition [build_naive] below. *)
Module Dateutil.

(** [parser._result]: the fields a string gives; [None] where it gives
    none. *)
Record result : Type := mk_result {
  res_year : option Z; res_month : option Z; res_day : option Z;
  res_hour : option Z; res_minute : option Z; res_second : option Z;
  res_microsecond : option Z
}.

(** A bare date: no time of day. *)
Definition ymd (y m d : option Z) : result :=
  mk_result y m d None None None None.

(** [datetime.now().replace(hour=0, minute=0, second=0, microsecond=0)] *)
Definition default_of (now : Py.datetime) : Py.datetime :=
  Py.mk_datetime (Py.year now) (Py.month now) (Py.day now) 0 0 0 0.

(** [_build_naive]: each field the string gives replaces the default's;
    when the string gives no day and the default's day does not exist in
    the resulting month, the last day of that month is taken.  [None] is
    the [ValueError] of [datetime.replace]. *)
Definition build_naive (res : result) (dflt : Py.datetime)
  : option Py.datetime :=
  let y := default (Py.year dflt) (res_year res) in
  let m := default (Py.month dflt) (res_month res) in
  let d := match res_day res with
           | Some d => d
           | None => Z.min (Py.day dflt) (Py.days_in_month y m)
           end in
  Py.new_datetime y m d
    (default (Py.hour dflt) (res_hour res))
    (default (Py.minute dflt) (res_minute res))
    (default (Py.second dflt) (res_second res))
    (default (Py.microsecond dflt) (res_microsecond res)).

End Dateutil.

(* ===================================================================== *)
(** ** Python values: truthiness, strings, division *)
(* ===================================================================== *)

(** [if not x] for an optional string argument: [None] and the empty
    string are both false.  [truthy x] is the string when it counts as
    given. *)
Definition truthy (x : option string) : option string :=
  match x with
  | Some s => if String.eqb s "" then None else Some s
  | None => None
  end.

(** The same test for an optional integer: [None] and [0] are false. *)
Definition truthy_int (x : option Z) : option Z :=
  match x with
  | Some n => if n =? 0 then None else Some n
  | None => None
  end.

Definition ascii_upper (c : ascii) : ascii :=
  let n := N_of_ascii c in
  if ((97 <=? n) && (n <=? 122))%N then ascii_of_N (n - 32) else c.

Definition ascii_lower (c : ascii) : ascii :=
  let n := N_of_ascii c in
  if ((65 <=? n) && (n <=? 90))%N then ascii_of_N (n + 32) else c.

Fixpoint string_map (f : ascii -> ascii) (s : string) : string :=
  match s with
  | EmptyString => EmptyString
  | String c s' => String (f c) (string_map f s')
  end.

(** [s.replace("_", " ")] *)
Definition replace_underscores (s : string) : string :=
  string_map (fun c => if Ascii.eqb c "_" then " "%char else c) s.

(** [s.capitalize()] on ASCII text: first character upper case, the rest
    lower case. *)
Definition capitalize (s : string) : string :=
  match s with
  | EmptyString => EmptyString
  | String c s' => String (ascii_upper c) (string_map ascii_lower s')
  end.

(** The exceptions the model tracks. *)
Inductive exn : Type := ZeroDivisionError | AttributeError.

(** [a / b] on Python integers: true division, which raises on a zero
    divisor.  The quotient is kept exact. *)
Definition truediv (a b : Z) : exn + Q :=
  if b =? 0 then inl ZeroDivisionError else inr (inject_Z a / inject_Z b)%Q.

(** [missing_param_response] *)
Definition missing_param_response (param : string) : string :=
  let param_natural := capitalize (replace_underscores param) in
  param_natural ++ " is missing. Could you please provide it?".

(* ===================================================================== *)
(** ** The schema store and the session memory *)
(* ===================================================================== *)

(** A row of [public.dh_rooms]. *)
Record room : Type := mk_room {
  r_room_number : string; r_room_type : string; r_status : string
}.

(** A row of [public.dh_roomtypes].  The rate is an exact decimal, held
    as a whole number of the currency's smallest unit. *)
Record roomtype : Type := mk_roomtype {
  rt_room_type : string; rate_per_night : Z
}.

(** A row of [public.dh_bookings]. *)
Record booking : Type := mk_booking {
  guest_name : string;
  b_room_number : string;
  check_in_date : Py.date;
  check_out_date : Py.date;
  total_amount : Z;
  booking_date : Py.datetime;
  booking_source : option string
}.

(** A row of [public.dh_tickets]. *)
Record ticket : Type := mk_ticket {
  id : Z;
  t_room_number : string;
  request_description : string;
  status : string;
  assigned_to_department : string;
  created_at : Py.datetime
}.

(** The four tables, each in storage order, and the sequence behind the
    generated ticket ids. *)
Record store : Type := mk_store {
  dh_rooms : list room;
  dh_roomtypes : list roomtype;
  dh_bookings : list booking;
  dh_tickets : list ticket;
  dh_tickets_id_seq : Z
}.

(** What a checkpoint holds under the key ['user_config'], if anything:
    a dictionary from slot names to strings. *)
Record checkpoint : Type := mk_checkpoint {
  user_config : option (gmap string string)
}.

(** The database and the [memory] object, keyed by thread id. *)
Record state : Type := mk_state {
  db : store;
  memory : gmap string checkpoint
}.

(** Every textual reply of the tools, as the data it is formatted from. *)
Inductive response : Type :=
| MissingParameter (text : string)
| InvalidDateFormat
| PastDate (check_in : Py.datetime)
| InvalidRange
| NoRoomsAvailable (check_in check_out : Py.datetime)
| AvailableRooms (check_in check_out : Py.datetime)
    (rooms : list (string * string))
| RoomNotFound (room_number : string)
| RateNotFound (room_type : string)
| Booked (room_number guest : string) (check_in check_out : Py.datetime)
    (amount : Z)
| TicketRaised (ticket_id : Z) (room_number description : string)
| TicketNotFound (ticket_id : Z)
| TicketClosed (ticket_id : Z)
| NoRoomsRegistered
| OccupancyRate (on : Py.datetime) (percent : Q)
| OccupancyError (on : Py.datetime) (e : exn)
| BookingError (room_number : string) (e : exn).

(* ===================================================================== *)
(** ** The tools *)
(* ===================================================================== *)

Section Tools.

(** [parser._parse]: the fields a string gives, [None] when the string
    is not recognised as a date ([ValueError]).  Strings that name a
    weekday or a time zone, and numbers that overflow, are outside it. *)
Variable lex : string -> option Dateutil.result.

(** The clock, [datetime.now()]; a call reads it as one instant. *)
Variable now : Py.datetime.

(** [date.today()] *)
Definition today : Py.date := Py.date_of now.

(** [date_parser.parse(date_str, dayfirst=False)] *)
Definition date_parser_parse (date_str : string) : option Py.datetime :=
  match lex date_str with
  | Some res => Dateutil.build_naive res (Dateutil.default_of now)
  | None => None
  end.

(** [parse_date]; both [ValueError]s (of the parser and of [replace])
    end in [None]. *)
Definition parse_date (date_str : string) : option Py.datetime :=
  match date_parser_parse date_str with
  | Some parsed =>
      let current_year := Py.year now in
      if Py.year parsed <? current_year then
        Py.replace_year parsed
          (if Py.date_leb today (Py.date_of parsed)
           then current_year else current_year + 1)
      else Some parsed
  | None => None
  end.

(** The subquery of [check_room_availability]: the bookings with
    [check_in_date <= %s AND check_out_date >= %s], the parameters being
    the check-out and the check-in day. *)
Definition conflicting (check_in check_out : Py.date) (b : booking) : bool :=
  Py.date_leb (check_in_date b) check_out &&
  Py.date_leb check_in (check_out_date b).

(** [room_number NOT IN (SELECT room_number FROM dh_bookings WHERE ...)] *)
Definition not_in_conflict (bookings : list booking)
    (check_in check_out : Py.date) (r : room) : bool :=
  negb (existsb
          (fun b => conflicting check_in check_out b &&
                    String.eqb (b_room_number b) (r_room_number r))
          bookings).

(** The [SELECT room_number, room_type FROM dh_rooms WHERE ...] of
    [check_room_availability]; it has no [ORDER BY]. *)
Definition select_available (s : store) (check_in check_out : Py.date)
  : list (string * string) :=
  map (fun r => (r_room_number r, r_room_type r))
      (List.filter (not_in_conflict (dh_bookings s) check_in check_out)
              (dh_rooms s)).

Definition check_room_availability
    (check_in_date check_out_date : option string) (s : store) : response :=
  match truthy check_in_date with
  | None => MissingParameter (missing_param_response "check_in_date")
  | Some check_in_date =>
  match truthy check_out_date with
  | None => MissingParameter (missing_param_response "check_out_date")
  | Some check_out_date =>
  match parse_date check_in_date, parse_date check_out_date with
  | Some check_in, Some check_out =>
      if Py.date_ltb (Py.date_of check_in) today then PastDate check_in
      else if Py.datetime_leb check_out check_in then InvalidRange
      else
        let rooms :=
          select_available s (Py.date_of check_in) (Py.date_of check_out) in
        match rooms with
        | [] => NoRoomsAvailable check_in check_out
        | _ :: _ => AvailableRooms check_in check_out rooms
        end
  | _, _ => InvalidDateFormat
  end end end.

(** The guest name under ['customer_name'] in the ['user_config'] of a
    thread's checkpoint, if there is one. *)
Definition stored_guest_name (mem : gmap string checkpoint)
    (session_id : string) : option string :=
  match mem !! session_id with
  | Some cp =>
      match user_config cp with
      | Some uc => uc !! "customer_name"
      | None => None
      end
  | None => None
  end.

(** The [INSERT INTO public.dh_bookings]; [booking_source] is not among
    the columns given. *)
Definition insert_booking (s : store) (b : booking) : store :=
  mk_store (dh_rooms s) (dh_roomtypes s) (dh_bookings s ++ [b])
           (dh_tickets s) (dh_tickets_id_seq s).

(** The first block of [book_room]: without a guest name but with a
    session id, the name stored for the thread, if any, becomes the
    guest name. *)
Definition resolve_guest_name (mem : gmap string checkpoint)
    (guest_name session_id : option string) : option string :=
  match truthy guest_name, truthy session_id with
  | None, Some sid =>
      match stored_guest_name mem sid with
      | Some name => Some name
      | None => guest_name
      end
  | _, _ => guest_name
  end.

(** [book_room].  After [conn.commit()], with a session id, the code
    reads the checkpoint again and calls [memory.save], which raises
    [AttributeError]; the handler rolls back, to no effect after the
    commit, and answers with the error text.  The memory is only read. *)
Definition book_room
    (guest_name room_number check_in_date check_out_date session_id
       : option string) (st : state) : response * state :=
  let guest_name := resolve_guest_name (memory st) guest_name session_id in
  match truthy guest_name with
  | None => (MissingParameter (missing_param_response "guest_name"), st)
  | Some guest_name =>
  match truthy room_number with
  | None => (MissingParameter (missing_param_response "room_number"), st)
  | Some room_number =>
  match truthy check_in_date with
  | None => (MissingParameter (missing_param_response "check_in_date"), st)
  | Some check_in_date =>
  match truthy check_out_date with
  | None => (MissingParameter (missing_param_response "check_out_date"), st)
  | Some check_out_date =>
  match parse_date check_in_date, parse_date check_out_date with
  | Some check_in, Some check_out =>
      if Py.date_ltb (Py.date_of check_in) today then (PastDate check_in, st)
      else if Py.datetime_leb check_out check_in then (InvalidRange, st)
      else
        let nights := Py.sub_days check_out check_in in
        match find (fun r => String.eqb (r_room_number r) room_number)
                   (dh_rooms (db st)) with
        | None => (RoomNotFound room_number, st)
        | Some room =>
            let room_type := r_room_type room in
            match find (fun t => String.eqb (rt_room_type t) room_type)
                       (dh_roomtypes (db st)) with
            | None => (RateNotFound room_type, st)
            | Some rate =>
                let total_amount := rate_per_night rate * nights in
                let row :=
                  mk_booking guest_name room_number
                    (Py.date_of check_in) (Py.date_of check_out)
                    total_amount now None in
                let committed :=
                  mk_state (insert_booking (db st) row) (memory st) in
                match truthy session_id with
                | Some _ => (BookingError room_number AttributeError, committed)
                | None =>
                    (Booked room_number guest_name check_in check_out
                            total_amount,
                     committed)
                end
            end
        end
  | _, _ => (InvalidDateFormat, st)
  end end end end end.

(** [raise_guest_request]; the id comes from the table's sequence. *)
Definition raise_guest_request (room_number : option string)
    (request_description : string) (s : store) : response * store :=
  match truthy room_number with
  | None => (MissingParameter (missing_param_response "room_number"), s)
  | Some room_number =>
      let ticket_id := dh_tickets_id_seq s in
      let row := mk_ticket ticket_id room_number request_description
                   "open" "housekeeping" now in
      (TicketRaised ticket_id room_number request_description,
       mk_store (dh_rooms s) (dh_roomtypes s) (dh_bookings s)
                (dh_tickets s ++ [row]) (ticket_id + 1))
  end.

(** [UPDATE public.dh_tickets SET status = 'closed' WHERE id = %s] *)
Definition update_closed (ticket_id : Z) (tickets : list ticket)
  : list ticket :=
  map (fun t =>
         if id t =? ticket_id
         then mk_ticket (id t) (t_room_number t) (request_description t)
                "closed" (assigned_to_department t) (created_at t)
         else t)
      tickets.

Definition close_guest_request (ticket_id : option Z) (s : store)
  : response * store :=
  match truthy_int ticket_id with
  | None => (MissingParameter (missing_param_response "ticket_id"), s)
  | Some ticket_id =>
      match find (fun t => id t =? ticket_id) (dh_tickets s) with
      | None => (TicketNotFound ticket_id, s)
      | Some _ =>
          (TicketClosed ticket_id,
           mk_store (dh_rooms s) (dh_roomtypes s) (dh_bookings s)
                    (update_closed ticket_id (dh_tickets s))
                    (dh_tickets_id_seq s))
      end
  end.

(** [%s BETWEEN check_in_date AND check_out_date] *)
Definition between (d : Py.date) (b : booking) : bool :=
  Py.date_leb (check_in_date b) d && Py.date_leb d (check_out_date b).

Definition get_occupancy_rate (date : option string) (s : store) : response :=
  match truthy date with
  | None => MissingParameter (missing_param_response "date")
  | Some date =>
  match parse_date date with
  | None => InvalidDateFormat
  | Some parsed_date =>
      let total_rooms := Z.of_nat (length (dh_rooms s)) in
      let occupied_rooms :=
        Z.of_nat (length (List.filter (between (Py.date_of parsed_date))
                                 (dh_bookings s))) in
      if total_rooms =? 0 then NoRoomsRegistered
      else
        match truediv occupied_rooms total_rooms with
        | inr q => OccupancyRate parsed_date (q * 100)%Q
        | inl e => OccupancyError parsed_date e
        end
  end end.

End Tools.

(* ===================================================================== *)
(** ** The listing and reporting tools *)
(* ===================================================================== *)

(** [ORDER BY]: a stable insertion sort by the given order.  Rows the
    order does not tell apart stay in storage order, which is one of the
    orders the database may return them in. *)
Fixpoint insert_by {A : Type} (leb : A -> A -> bool) (x : A) (l : list A)
  : list A :=
  match l with
  | [] => [x]
  | y :: l' => if leb x y then x :: l else y :: insert_by leb x l'
  end.

Definition order_by {A : Type} (leb : A -> A -> bool) (l : list A) : list A :=
  fold_right (insert_by leb) [] l.

(** Equality of two nullable strings, as [GROUP BY] takes it: [NULL]
    groups with [NULL]. *)
Definition source_eqb (a b : option string) : bool :=
  match a, b with
  | Some x, Some y => String.eqb x y
  | None, None => true
  | _, _ => false
  end.

(** [GROUP BY booking_source] with [SUM(total_amount)]: the amount joins
    the group of its source, or opens a new group after the others.  The
    database is free in the order of the groups; this is one such order. *)
Fixpoint add_to_group (k : option string) (v : Z)
    (groups : list (option string * Z)) : list (option string * Z) :=
  match groups with
  | [] => [(k, v)]
  | (k', v') :: rest =>
      if source_eqb k k' then (k', v' + v) :: rest
      else (k', v') :: add_to_group k v rest
  end.

Definition group_sums (bookings : list booking) : list (option string * Z) :=
  fold_left (fun groups b =>
               add_to_group (booking_source b) (total_amount b) groups)
            bookings [].

(** [max(rest, key=lambda x: x[1])] started from [best]: a later row
    replaces the best one only when its sum is strictly larger. *)
Fixpoint max_by_sum (best : option string * Z)
    (rest : list (option string * Z)) : option string * Z :=
  match rest with
  | [] => best
  | x :: rest' => max_by_sum (if snd best <? snd x then x else best) rest'
  end.

(** ["\n".join(...)] over a column that may hold [NULL]: the list of the
    strings, or [None] for the [TypeError] on a row that is not a string. *)
Fixpoint join_rows (rows : list (option string)) : option (list string) :=
  match rows with
  | [] => Some []
  | Some s :: rows' =>
      match join_rows rows' with
      | Some l => Some (s :: l)
      | None => None
      end
  | None :: _ => None
  end.

(** Every textual reply of the listing and reporting tools, as the data
    it is formatted from. *)
Inductive report : Type :=
| ReportMissingParameter (text : string)
| ReportInvalidDateFormat
| NoOpenRequests
| OpenRequests (tickets : list ticket)
| RoomDetails (room_number room_type room_status : string)
| NoRoomDetails (room_number : string)
| NoGuestData
| Guests (names : list string)
| NoRevenue (on : Py.datetime)
| TotalRevenue (on : Py.datetime) (amounts : list Z)
| NoBookingData
| TopBookingSource (source : option string) (revenue : Z)
| NoRoomTypes
| RoomTypes (rows : list roomtype)
| NoBookingSources
| BookingSources (sources : list string)
| BookingSourcesTypeError.

(** [view_guest_requests]: the open tickets, newest first. *)
Definition view_guest_requests (s : store) : report :=
  let tickets :=
    order_by (fun a b => Py.datetime_leb (created_at b) (created_at a))
      (List.filter (fun t => String.eqb (status t) "open") (dh_tickets s)) in
  match tickets with
  | [] => NoOpenRequests
  | _ :: _ => OpenRequests tickets
  end.

(** [get_room_details]; [fetchone] takes the first matching row. *)
Definition get_room_details (room_number : option string) (s : store)
  : report :=
  match truthy room_number with
  | None => ReportMissingParameter (missing_param_response "room_number")
  | Some room_number =>
      match find (fun r => String.eqb (r_room_number r) room_number)
                 (dh_rooms s) with
      | Some room =>
          RoomDetails (r_room_number room) (r_room_type room) (r_status room)
      | None => NoRoomDetails room_number
      end
  end.

(** [get_all_guests]: [SELECT DISTINCT guest_name], each name once, in
    one of the orders the database may choose. *)
Definition get_all_guests (s : store) : report :=
  match nodup String.string_dec (map guest_name (dh_bookings s)) with
  | [] => NoGuestData
  | guests => Guests guests
  end.

(** [get_top_booking_source] *)
Definition get_top_booking_source (s : store) : report :=
  match group_sums (dh_bookings s) with
  | [] => NoBookingData
  | first :: rest =>
      let top_source := max_by_sum first rest in
      TopBookingSource (fst top_source) (snd top_source)
  end.

(** [list_booking_sources]; a [NULL] source makes [join] raise, and the
    handler answers with the error text. *)
Definition list_booking_sources (s : store) : report :=
  match map booking_source (dh_bookings s) with
  | [] => NoBookingSources
  | rows =>
      match join_rows rows with
      | Some sources => BookingSources sources
      | None => BookingSourcesTypeError
      end
  end.

Section Reports.

(** [parser._parse] and the clock, as for the other tools. *)
Variable lex : string -> option Dateutil.result.
Variable now : Py.datetime.

(** [booking_date = %s] against a ["%Y-%m-%d"] string: what it holds for
    depends on the type of the column, which the source does not show. *)
Variable booking_date_is : Py.datetime -> Py.date -> bool.

(** The order of [ORDER BY room_type], the collation of the database. *)
Variable collate_leb : string -> string -> bool.

(** [get_revenue_by_date]; the reply carries the amounts whose sum, taken
    in floating point, is printed. *)
Definition get_revenue_by_date (date : option string) (s : store) : report :=
  match truthy date with
  | None => ReportMissingParameter (missing_param_response "date")
  | Some date =>
  match parse_date lex now date with
  | None => ReportInvalidDateFormat
  | Some parsed_date =>
      let rows :=
        map total_amount
            (List.filter
               (fun b => booking_date_is (booking_date b)
                                         (Py.date_of parsed_date))
               (dh_bookings s)) in
      match rows with
      | [] => NoRevenue parsed_date
      | _ :: _ => TotalRevenue parsed_date rows
      end
  end end.

(** [list_room_types] *)
Definition list_room_types (s : store) : report :=
  let room_types :=
    order_by (fun a b => collate_leb (rt_room_type a) (rt_room_type b))
             (dh_roomtypes s) in
  match room_types with
  | [] => NoRoomTypes
  | _ :: _ => RoomTypes room_types
  end.

End Reports.

(* ===================================================================== *)
(** ** The database connection and the chat entry point *)
(* ===================================================================== *)

(** The result of a call that may raise the [ValueError] of
    [get_db_connection], which its [except] clause does not catch. *)
Inductive raising (A : Type) : Type :=
| Returned (a : A)
| RaisedValueError.
Arguments Returned {A} a.
Arguments RaisedValueError {A}.

Section Connection.

(** The connections of [psycopg2]. *)
Variable conn : Type.

(** [get_db_connection].  [connect] is [psycopg2.connect], [None] standing
    for its [OperationalError]; [database_url] is the value of the
    environment variable [DATABASE_URL]. *)
Definition get_db_connection (connect : string -> option conn)
    (database_url : option string) : raising (option conn) :=
  match truthy database_url with
  | None => RaisedValueError
  | Some connection_string => Returned (connect connection_string)
  end.

(** [get_db_connection_safe]: the value returned and the global
    [connection] afterwards. *)
Definition get_db_connection_safe (connection : option conn)
    (connect : string -> option conn) (database_url : option string)
  : raising (option conn) * option conn :=
  match connection with
  | Some c => (Returned (Some c), connection)
  | None =>
      match get_db_connection connect database_url with
      | Returned c => (Returned c, c)
      | RaisedValueError => (RaisedValueError, connection)
      end
  end.

(** A run of calls to [get_db_connection_safe], each under its own
    environment, threading the global [connection]. *)
Fixpoint connection_calls (connection : option conn)
    (calls : list ((string -> option conn) * option string))
  : list (raising (option conn)) :=
  match calls with
  | [] => []
  | (connect, database_url) :: calls' =>
      let r := get_db_connection_safe connection connect database_url in
      fst r :: connection_calls (snd r) calls'
  end.

End Connection.

(** The value of [ask_agent]. *)
Record chat_reply : Type := mk_chat_reply {
  text : string;
  video_url : option string
}.

(** [s.replace("*", "")] *)
Fixpoint remove_asterisks (s : string) : string :=
  match s with
  | EmptyString => EmptyString
  | String c s' =>
      if Ascii.eqb c "*" then remove_asterisks s'
      else String c (remove_asterisks s')
  end.

(** The values of [tool_descriptions], in the order of the dictionary. *)
Definition tool_descriptions : list string :=
  [ "check room availability for specific dates";
    "book rooms for guests";
    "raise guest requests like extra towels";
    "view open guest requests";
    "close guest request tickets";
    "get details about a specific room";
    "list all current guests";
    "check revenue for a specific date";
    "calculate occupancy rate for a date";
    "find the top booking source by revenue";
    "list all room types and their rates" ].

Definition welcome_message : string :=
  "Hello! I'm here to help you manage the motel. I can "
  ++ String.concat ", " tool_descriptions
  ++ ". Just tell me what you need, like 'Check availability for next week' or 'List room types.' How can I help you today?".

Section Agent.

(** [user_input.lower().strip()], Python's own. *)
Variable lower_strip : string -> string.

(** [agent_executor.invoke] on the message and the thread: the content of
    the last message as a string, or the text of the exception raised. *)
Variable invoke : string -> string -> string + string.

Definition ask_agent (user_input session_id : string) : chat_reply :=
  if String.eqb (lower_strip user_input) "hi" then
    mk_chat_reply welcome_message None
  else
    match invoke user_input session_id with
    | inr content => mk_chat_reply (remove_asterisks content) None
    | inl e => mk_chat_reply ("Something went wrong: " ++ e) None
    end.

End Agent.


(* ===================================================================== *)
(** ** Vocabulary of the specification *)
(* ===================================================================== *)

(** [a <= b] on days. *)
Definition date_le (a b : Py.date) : Prop := Py.date_leb a b = true.

(** The rooms a reply of [check_room_availability] lists. *)
Definition listed (r : response) : list (string * string) :=
  match r with
  | AvailableRooms _ _ rooms => rooms
  | _ => []
  end.

(** A request passes every check on its two dates: both strings are given,
    both parse, the check-in day is not before today, and the check-out is
    after the check-in.  [t_in] and [t_out] are the parsed values. *)
Definition valid_stay (lex : string -> option Dateutil.result)
    (now : Py.datetime) (check_in_date check_out_date : option string)
    (t_in t_out : Py.datetime) : Prop :=
  exists a b,
    truthy check_in_date = Some a /\ truthy check_out_date = Some b /\
    parse_date lex now a = Some t_in /\ parse_date lex now b = Some t_out /\
    Py.date_ltb (Py.date_of t_in) (today now) = false /\
    Py.datetime_leb t_out t_in = false.

(** The specification's overlap test on the half-open range
    [[check_in, check_out)]:
    [existing.check_in < checkOut AND existing.check_out > checkIn]. *)
Definition spec_overlaps (check_in check_out : Py.date) (b : booking) : bool :=
  Py.date_ltb (check_in_date b) check_out &&
  Py.date_ltb check_in (check_out_date b).

(** The specification's availability rule, as it is worded: the rooms
    listed are exactly the rooms without a booking that overlaps the
    half-open range. *)
Definition spec_find_available (lex : string -> option Dateutil.result)
    (now : Py.datetime) : Prop :=
  forall cin cout s t_in t_out,
    valid_stay lex now cin cout t_in t_out ->
    forall n ty,
      In (n, ty) (listed (check_room_availability lex now cin cout s)) <->
      (exists r, In r (dh_rooms s) /\ r_room_number r = n /\ r_room_type r = ty) /\
      (forall b, In b (dh_bookings s) -> b_room_number b = n ->
                 spec_overlaps (Py.date_of t_in) (Py.date_of t_out) b = false).

(** A booking request passes every check of [book_room] up to the insert:
    a guest name is given or found in the session, the room number is
    given, the dates are valid, the room exists and its type has a rate. *)
Definition bookable (lex : string -> option Dateutil.result)
    (now : Py.datetime) (guest rn cin cout session : option string)
    (st : state) (g r : string) (t_in t_out : Py.datetime)
    (rm : room) (rate : roomtype) : Prop :=
  truthy (resolve_guest_name (memory st) guest session) = Some g /\
  truthy rn = Some r /\
  valid_stay lex now cin cout t_in t_out /\
  find (fun x => String.eqb (r_room_number x) r) (dh_rooms (db st)) = Some rm /\
  find (fun t => String.eqb (rt_room_type t) (r_room_type rm))
       (dh_roomtypes (db st)) = Some rate.

(** The reply confirms a booking. *)
Definition is_booked (r : response) : bool :=
  match r with Booked _ _ _ _ _ => true | _ => false end.

(** The specification's rule for a conflicting request, as it is worded:
    when an existing booking on the room overlaps the requested half-open
    range, the request fails and no row is inserted. *)
Definition spec_book_rejects_overlap (lex : string -> option Dateutil.result)
    (now : Py.datetime) : Prop :=
  forall guest rn cin cout session st g r t_in t_out rm rate,
    bookable lex now guest rn cin cout session st g r t_in t_out rm rate ->
    (exists b, In b (dh_bookings (db st)) /\ b_room_number b = r /\
               spec_overlaps (Py.date_of t_in) (Py.date_of t_out) b = true) ->
    let res := book_room lex now guest rn cin cout session st in
    is_booked (fst res) = false /\
    dh_bookings (db (snd res)) = dh_bookings (db st).

(** The guest name a session supplies: the name stored for its thread,
    when a session id is given and the stored name is not empty. *)
Definition session_guest (mem : gmap string checkpoint)
    (session : option string) : option string :=
  match truthy session with
  | Some sid => truthy (stored_guest_name mem sid)
  | None => None
  end.

(** The specification's rule for [close], as it is worded: an id that no
    ticket has is answered with [TicketNotFound] and changes nothing; an
    id that a ticket has is answered with a confirmation, after which
    every ticket of that id is closed. *)
Definition spec_close : Prop :=
  forall (t : Z) (s : store),
    ((forall tk, In tk (dh_tickets s) -> id tk <> t) ->
     close_guest_request (Some t) s = (TicketNotFound t, s)) /\
    ((exists tk, In tk (dh_tickets s) /\ id tk = t) ->
     fst (close_guest_request (Some t) s) = TicketClosed t /\
     forall tk, In tk (dh_tickets (snd (close_guest_request (Some t) s))) ->
                id tk = t -> status tk = "closed").

(** The reply asks for a parameter. *)
Definition is_missing_parameter (r : response) : bool :=
  match r with MissingParameter _ => true | _ => false end.

(** No thread of the session memory holds a guest name: the condition of
    every memory the program reaches, [book_room] only reading it. *)
Definition no_guest_stored (mem : gmap string checkpoint) : Prop :=
  forall sid, stored_guest_name mem sid = None.

(** The reply of [book_room] once the row is committed: the confirmation
    without a session id, the error text of [memory.save] with one. *)
Definition booking_reply (session : option string) (r g : string)
    (t_in t_out : Py.datetime) (amount : Z) : response :=
  match truthy session with
  | Some _ => BookingError r AttributeError
  | None => Booked r g t_in t_out amount
  end.

(** The reply is one [book_room] gives after the commit. *)
Definition after_commit (r : response) : bool :=
  match r with
  | Booked _ _ _ _ _ | BookingError _ _ => true
  | _ => false
  end.

(** The row the [UPDATE] leaves for a ticket of the given id. *)
Definition closed (t : ticket) : ticket :=
  mk_ticket (id t) (t_room_number t) (request_description t)
            "closed" (assigned_to_department t) (created_at t).

(** The extra day of a leap year. *)
Definition leap_day (y : Z) : Z := if Py.is_leap y then 1 else 0.

(** A datetime with no time of day, as a string that names only a day
    parses to. *)
Definition at_midnight (t : Py.datetime) : Prop :=
  Py.hour t = 0 /\ Py.minute t = 0 /\ Py.second t = 0 /\ Py.microsecond t = 0.

(** The string gives no time of day. *)
Definition date_only (res : Dateutil.result) : Prop :=
  Dateutil.res_hour res = None /\ Dateutil.res_minute res = None /\
  Dateutil.res_second res = None /\ Dateutil.res_microsecond res = None.

(** Ascending order of room numbers, as strings. *)
Definition room_number_le (a b : string) : Prop := String.leb a b = true.

(** The specification's ordering rule, as it is worded. *)
Definition spec_sorted_by_room_number (lex : string -> option Dateutil.result)
    (now : Py.datetime) : Prop :=
  forall cin cout s t_in t_out,
    valid_stay lex now cin cout t_in t_out ->
    StronglySorted room_number_le
      (map fst (listed (check_room_availability lex now cin cout s))).

(** The specification's count of occupied rooms on a day: the rooms for
    which the day lies within some booking's [check_in_date] and
    [check_out_date], both included. *)
Definition spec_occupied_rooms (d : Py.date) (s : store) : Z :=
  Z.of_nat
    (length
       (List.filter
          (fun r => existsb
                      (fun b => String.eqb (b_room_number b) (r_room_number r)
                                && between d b)
                      (dh_bookings s))
          (dh_rooms s))).

(** The total of a booking source: the amounts of the bookings that bear
    it. *)
Definition source_total (k : option string) (bookings : list booking) : Z :=
  fold_right Z.add 0
    (map total_amount
         (List.filter (fun b => source_eqb (booking_source b) k) bookings)).

(** The tickets table is as the sequence leaves it: every id is positive
    and below the next value of the sequence, and no two tickets share an
    id. *)
Definition tickets_ok (s : store) : Prop :=
  0 < dh_tickets_id_seq s /\
  (forall t, In t (dh_tickets s) -> 0 < id t < dh_tickets_id_seq s) /\
  List.NoDup (map id (dh_tickets s)).

(** The ticket [raise_guest_request] inserts. *)
Definition new_ticket (now : Py.datetime) (s : store)
    (room_number description : string) : ticket :=
  mk_ticket (dh_tickets_id_seq s) room_number description
            "open" "housekeeping" now.

(** The tickets a reply of [view_guest_requests] lists. *)
Definition listed_tickets (r : report) : list ticket :=
  match r with
  | OpenRequests tickets => tickets
  | _ => []
  end.

(** The guests a reply of [get_all_guests] lists. *)
Definition listed_guests (r : report) : list string :=
  match r with
  | Guests names => names
  | _ => []
  end.

(** The rows a reply of [list_room_types] lists. *)
Definition listed_room_types (r : report) : list roomtype :=
  match r with
  | RoomTypes rows => rows
  | _ => []
  end.

(** The character occurs in the string. *)
Fixpoint has_char (c : ascii) (s : string) : bool :=
  match s with
  | EmptyString => false
  | String c' s' => Ascii.eqb c' c || has_char c s'
  end.

(** A total order test. *)
Definition total_leb {A : Type} (leb : A -> A -> bool) : Prop :=
  forall a b, leb a b = true \/ leb b a = true.

(** A transitive order test. *)
Definition transitive_leb {A : Type} (leb : A -> A -> bool) : Prop :=
  forall a b c, leb a b = true -> leb b c = true -> leb a c = true.

(** [a <= b] on datetimes. *)
Definition datetime_le (a b : Py.datetime) : Prop := Py.datetime_leb a b = true.

(** The groups formed from the bookings read so far: one group for each
    source met, holding the total of that source. *)
Definition groups_of (G : list (option string * Z)) (P : list booking)
  : Prop :=
  List.NoDup (map fst G) /\
  (forall k v, In (k, v) G ->
     v = source_total k P /\ exists b, In b P /\ booking_source b = k) /\
  (forall b, In b P -> In (booking_source b) (map fst G)).

(** The reply refuses the dates of a request. *)
Definition refuses_dates (r : response) : bool :=
  match r with
  | MissingParameter _ | InvalidDateFormat | PastDate _ | InvalidRange => true
  | _ => false
  end.

(** Every character of the string is an ASCII one. *)
Fixpoint is_ascii (s : string) : bool :=
  match s with
  | EmptyString => true
  | String c s' => Nat.ltb (nat_of_ascii c) 128 && is_ascii s'
  end.

(** The arguments of one call of [book_room]: guest name, room number,
    check-in and check-out strings, session id. *)
Definition book_room_call : Type :=
  option string * option string * option string * option string
  * option string.

(** A run of calls of [book_room], each on the state the one before it
    left: the replies in order, and the state at the end. *)
Fixpoint book_room_calls (lex : string -> option Dateutil.result)
    (now : Py.datetime) (calls : list book_room_call) (st : state)
  : list response * state :=
  match calls with
  | [] => ([], st)
  | (guest, rn, cin, cout, session) :: calls' =>
      let r := book_room lex now guest rn cin cout session st in
      let rest := book_room_calls lex now calls' (snd r) in
      (fst r :: fst rest, snd rest)
  end.

(* ===================================================================== *)
(** ** A small motel, for the examples *)
(* ===================================================================== *)

Module Sample.

(** The clock: 1st August 2025, noon. *)
Definition now : Py.datetime := Py.mk_datetime 2025 8 1 12 0 0 0.

(** What [dateutil] makes of the strings the examples use. *)
Definition lex_table : list (string * Dateutil.result) :=
  [ ("2025-08-16", Dateutil.ymd (Some 2025) (Some 8) (Some 16));
    ("2025-08-18", Dateutil.ymd (Some 2025) (Some 8) (Some 18));
    ("2025-08-19", Dateutil.ymd (Some 2025) (Some 8) (Some 19));
    ("2025-08-20", Dateutil.ymd (Some 2025) (Some 8) (Some 20));
    ("2025-08-21", Dateutil.ymd (Some 2025) (Some 8) (Some 21));
    ("2025-08-18 10:00",
     Dateutil.mk_result (Some 2025) (Some 8) (Some 18)
                        (Some 10) (Some 0) None None);
    ("2025-08-18 20:00",
     Dateutil.mk_result (Some 2025) (Some 8) (Some 18)
                        (Some 20) (Some 0) None None);
    ("18 August", Dateutil.ymd None (Some 8) (Some 18));
    ("5 January", Dateutil.ymd None (Some 1) (Some 5)) ].

Definition lex (s : string) : option Dateutil.result :=
  match find (fun p => String.eqb (fst p) s) lex_table with
  | Some p => Some (snd p)
  | None => None
  end.

Definition midnight (y m d : Z) : Py.datetime := Py.mk_datetime y m d 0 0 0 0.

Definition rooms : list room :=
  [ mk_room "101" "Standard" "available";
    mk_room "102" "Deluxe" "available" ].

(** Rates in cents: $80 and $120 a night. *)
Definition roomtypes : list roomtype :=
  [ mk_roomtype "Standard" 8000; mk_roomtype "Deluxe" 12000 ].

Definition stay (guest room_number : string) (d_in d_out : Z) (amount : Z)
  : booking :=
  mk_booking guest room_number (Py.mk_date 2025 8 d_in)
             (Py.mk_date 2025 8 d_out) amount now None.

Definition empty_motel : store := mk_store rooms roomtypes [] [] 1.

Definition st0 : state := mk_state empty_motel ∅.

(** Room 101 is taken from the 16th to the 18th. *)
Definition one_stay : store :=
  mk_store rooms roomtypes [stay "Carol" "101" 16 18 16000] [] 1.

(** The rooms table stored with 102 before 101. *)
Definition unordered : store :=
  mk_store (rev rooms) roomtypes [] [] 1.

(** One room, two stays on it that meet on the 18th. *)
Definition back_to_back : store :=
  mk_store [mk_room "101" "Standard" "available"] roomtypes
           [stay "Carol" "101" 16 18 16000; stay "Dave" "101" 18 20 16000]
           [] 1.

(** A memory whose thread t1 holds a [customer_name]: the entry the first
    block of [book_room] reads.  [book_room] itself writes none. *)
Definition st_alice : state :=
  mk_state empty_motel
    {[ "t1" := mk_checkpoint (Some {[ "customer_name" := "Alice" ]}) ]}.

(** A store with ticket 7, open, for room 101. *)
Definition ticket7 : ticket :=
  mk_ticket 7 "101" "Extra towels" "open" "housekeeping" now.

Definition with_ticket : store :=
  mk_store rooms roomtypes [] [ticket7] 8.

End Sample.

(** More strings for the examples, as [dateutil] reads them. *)
Module Fixtures.

Definition lex_table : list (string * Dateutil.result) :=
  [ ("2020-03-05", Dateutil.ymd (Some 2020) (Some 3) (Some 5));
    ("2024-02-29", Dateutil.ymd (Some 2024) (Some 2) (Some 29));
    ("2025-08-17", Dateutil.ymd (Some 2025) (Some 8) (Some 17));
    ("2025-08-22", Dateutil.ymd (Some 2025) (Some 8) (Some 22)) ].

Definition lex (s : string) : option Dateutil.result :=
  match find (fun p => String.eqb (fst p) s) lex_table with
  | Some p => Some (snd p)
  | None => Sample.lex s
  end.

(** Bookings that bear a source. *)
Definition with_sources : store :=
  mk_store Sample.rooms Sample.roomtypes
    [ mk_booking "Alice" "101" (Py.mk_date 2025 8 18) (Py.mk_date 2025 8 20)
        16000 Sample.now (Some "web");
      mk_booking "Bob" "102" (Py.mk_date 2025 8 18) (Py.mk_date 2025 8 20)
        24000 Sample.now (Some "phone");
      mk_booking "Carol" "101" (Py.mk_date 2025 8 22) (Py.mk_date 2025 8 24)
        16000 Sample.now (Some "web") ]
    [] 1.

End Fixtures.

(* ===================================================================== *)
(** ** Availability *)
(* ===================================================================== *)

Example missing_guest_name_text :
  missing_param_response "guest_name"
  = "Guest name is missing. Could you please provide it?".
Proof. reflexivity. Qed.

Example sample_parse_iso :
  parse_date Sample.lex Sample.now "2025-08-18" = Some (Sample.midnight 2025 8 18).
Proof. reflexivity. Qed.

Example sample_availability :
  check_room_availability Sample.lex Sample.now
    (Some "2025-08-18") (Some "2025-08-20") Sample.empty_motel
  = AvailableRooms (Sample.midnight 2025 8 18) (Sample.midnight 2025 8 20)
      [("101", "Standard"); ("102", "Deluxe")].
Proof. reflexivity. Qed.

Lemma date_ltb_leb (a b : Py.date) :
  Py.date_ltb a b = true -> Py.date_leb a b = true.
Proof.
  unfold Py.date_ltb, Py.date_leb.
  destruct (Py.date_compare a b); congruence.
Qed.

(** Once the dates pass the checks, the reply lists the rows of the
    query, in the order the query yields them. *)
Lemma listed_valid lex now cin cout s t_in t_out :
  valid_stay lex now cin cout t_in t_out ->
  listed (check_room_availability lex now cin cout s)
  = select_available s (Py.date_of t_in) (Py.date_of t_out).
Proof.
  intros (a & b & Ha & Hb & Pa & Pb & Hpast & Hord).
  unfold check_room_availability.
  rewrite Ha, Hb, Pa, Pb, Hpast, Hord.
  destruct (select_available s _ _); reflexivity.
Qed.

(** The [NOT IN] filter, read as a statement about the bookings table. *)
Lemma not_in_conflict_spec bookings d_in d_out r :
  not_in_conflict bookings d_in d_out r = true <->
  forall b, In b bookings -> b_room_number b = r_room_number r ->
            ~ (date_le (check_in_date b) d_out /\ date_le d_in (check_out_date b)).
Proof.
  unfold not_in_conflict, date_le. rewrite negb_true_iff. split.
  - intros Hex b Hin Hroom [H1 H2].
    assert (existsb
              (fun b => conflicting d_in d_out b &&
                        String.eqb (b_room_number b) (r_room_number r))
              bookings = true) as Habs.
    { apply existsb_exists. exists b. split; [assumption|].
      unfold conflicting. rewrite H1, H2, Hroom, String.eqb_refl. reflexivity. }
    congruence.
  - intros Hall.
    destruct (existsb _ bookings) eqn:E; [|reflexivity].
    apply existsb_exists in E. destruct E as (b & Hin & Hb).
    apply andb_prop in Hb. destruct Hb as [Hc He].
    apply String.eqb_eq in He.
    apply andb_prop in Hc. destruct Hc as [H1 H2].
    exfalso. apply (Hall b Hin He). split; assumption.
Qed.

Lemma select_available_In s d_in d_out n ty :
  In (n, ty) (select_available s d_in d_out) <->
  exists r, In r (dh_rooms s) /\ r_room_number r = n /\ r_room_type r = ty /\
            not_in_conflict (dh_bookings s) d_in d_out r = true.
Proof.
  unfold select_available. rewrite in_map_iff. split.
  - intros (r & Heq & Hin). apply filter_In in Hin. destruct Hin as [Hin Hf].
    inversion Heq; subst. exists r. auto.
  - intros (r & Hin & Hn & Hty & Hf). exists r. split.
    + subst. reflexivity.
    + apply filter_In. auto.
Qed.

(** Filtering keeps a strongly sorted list strongly sorted. *)
Lemma StronglySorted_filter {A} (R : A -> A -> Prop) (f : A -> bool) l :
  StronglySorted R l -> StronglySorted R (List.filter f l).
Proof.
  induction 1 as [|a l Hs IH Hall]; simpl; [constructor|].
  destruct (f a); [|assumption].
  constructor; [assumption|].
  apply List.Forall_forall. intros x Hx. apply filter_In in Hx.
  rewrite List.Forall_forall in Hall. apply Hall. tauto.
Qed.

Lemma StronglySorted_map_filter {A B} (R : B -> B -> Prop) (g : A -> B)
    (f : A -> bool) l :
  StronglySorted R (map g l) -> StronglySorted R (map g (List.filter f l)).
Proof.
  induction l as [|a l IH]; simpl; intros Hs; [constructor|].
  apply StronglySorted_inv in Hs. destruct Hs as [Hs Hall].
  destruct (f a); simpl; [|auto].
  constructor; [auto|].
  apply List.Forall_forall. intros x Hx. apply in_map_iff in Hx.
  destruct Hx as (y & <- & Hy). apply filter_In in Hy.
  rewrite List.Forall_forall in Hall. apply Hall. apply in_map. tauto.
Qed.

Lemma select_available_room_numbers s d_in d_out :
  map fst (select_available s d_in d_out)
  = map r_room_number
      (List.filter (not_in_conflict (dh_bookings s) d_in d_out) (dh_rooms s)).
Proof.
  unfold select_available. rewrite map_map. reflexivity.
Qed.

(** C2, as amended.  For a request whose dates pass the checks,
    [check_room_availability] lists exactly the rooms without a booking
    that has [check_in_date <= checkOut] and [check_out_date >= checkIn]:
    the comparison is on closed intervals.  In consequence no listed room
    has a booking that overlaps the half-open range either. *)
Theorem check_room_availability_closed_intervals
    lex now cin cout s t_in t_out :
  valid_stay lex now cin cout t_in t_out ->
  (forall n ty,
      In (n, ty) (listed (check_room_availability lex now cin cout s)) <->
      exists r, In r (dh_rooms s) /\ r_room_number r = n /\ r_room_type r = ty /\
        forall b, In b (dh_bookings s) -> b_room_number b = n ->
                  ~ (date_le (check_in_date b) (Py.date_of t_out) /\
                     date_le (Py.date_of t_in) (check_out_date b))) /\
  (forall n ty b,
      In (n, ty) (listed (check_room_availability lex now cin cout s)) ->
      In b (dh_bookings s) -> b_room_number b = n ->
      spec_overlaps (Py.date_of t_in) (Py.date_of t_out) b = false).
Proof.
  intros Hv. rewrite (listed_valid _ _ _ _ s _ _ Hv).
  assert (forall n ty,
      In (n, ty) (select_available s (Py.date_of t_in) (Py.date_of t_out)) <->
      exists r, In r (dh_rooms s) /\ r_room_number r = n /\ r_room_type r = ty /\
        forall b, In b (dh_bookings s) -> b_room_number b = n ->
                  ~ (date_le (check_in_date b) (Py.date_of t_out) /\
                     date_le (Py.date_of t_in) (check_out_date b))) as Hiff.
  { intros n ty. rewrite select_available_In. split.
    - intros (r & Hin & Hn & Hty & Hf). exists r. repeat split; try assumption.
      rewrite not_in_conflict_spec in Hf. rewrite <- Hn. exact Hf.
    - intros (r & Hin & Hn & Hty & Hf). exists r. repeat split; try assumption.
      apply not_in_conflict_spec. rewrite Hn. exact Hf. }
  split; [exact Hiff|].
  intros n ty b Hl Hb Hroom.
  apply Hiff in Hl. destruct Hl as (r & _ & _ & _ & Hfree).
  unfold spec_overlaps.
  destruct (Py.date_ltb (check_in_date b) (Py.date_of t_out)) eqn:E1;
    [|reflexivity].
  destruct (Py.date_ltb (Py.date_of t_in) (check_out_date b)) eqn:E2;
    [|reflexivity].
  exfalso. apply (Hfree b Hb Hroom).
  split; apply date_ltb_leb; assumption.
Qed.

Lemma sample_valid_18_20 :
  valid_stay Sample.lex Sample.now (Some "2025-08-18") (Some "2025-08-20")
    (Sample.midnight 2025 8 18) (Sample.midnight 2025 8 20).
Proof.
  exists "2025-08-18", "2025-08-20". repeat split; reflexivity.
Defined.

(** The closed-interval rule at work: with room 101 taken from the 16th to
    the 18th, a stay from the 18th to the 20th is offered room 102 only. *)
Lemma check_room_availability_closed_intervals_witness :
  valid_stay Sample.lex Sample.now (Some "2025-08-18") (Some "2025-08-20")
    (Sample.midnight 2025 8 18) (Sample.midnight 2025 8 20) /\
  forall n ty b,
    In (n, ty)
       (listed (check_room_availability Sample.lex Sample.now
                  (Some "2025-08-18") (Some "2025-08-20") Sample.one_stay)) ->
    In b (dh_bookings Sample.one_stay) -> b_room_number b = n ->
    spec_overlaps (Py.date_of (Sample.midnight 2025 8 18))
                  (Py.date_of (Sample.midnight 2025 8 20)) b = false.
Proof.
  split; [exact sample_valid_18_20|].
  exact (proj2 (check_room_availability_closed_intervals
                  Sample.lex Sample.now (Some "2025-08-18") (Some "2025-08-20")
                  Sample.one_stay _ _ sample_valid_18_20)).
Defined.

(** C2, as worded, fails: room 101, whose only booking checks out on the
    18th, has no booking overlapping the half-open range from the 18th to
    the 20th, and yet is not listed. *)
Lemma spec_find_available_fails :
  ~ spec_find_available Sample.lex Sample.now.
Proof.
  intros Hspec.
  pose proof (Hspec (Some "2025-08-18") (Some "2025-08-20") Sample.one_stay
                _ _ sample_valid_18_20 "101" "Standard") as [_ Hback].
  assert (In ("101", "Standard")
             (listed (check_room_availability Sample.lex Sample.now
                        (Some "2025-08-18") (Some "2025-08-20")
                        Sample.one_stay))) as Hin.
  { apply Hback. split.
    - exists (mk_room "101" "Standard" "available").
      split; [left; reflexivity | split; reflexivity].
    - intros b [<- | []] _. reflexivity. }
  vm_compute in Hin. destruct Hin as [Heq | []]. discriminate Heq.
Qed.

Lemma sublist_map_filter {A B} (g : A -> B) (f : A -> bool) (l : list A) :
  sublist (map g (List.filter f l)) (map g l).
Proof.
  induction l as [|a l IH]; simpl; [constructor|].
  destruct (f a); simpl; [apply sublist_skip | apply sublist_cons]; exact IH.
Qed.

(** C3, as amended.  For a request whose dates pass the checks:
    the room numbers listed are a subsequence of the rooms table in its
    storage order (the query has no [ORDER BY]), so they are ascending
    whenever the table is stored ascending, for any order relation; and
    the reply is a function of the two tables read, [dh_rooms] and
    [dh_bookings]. *)
Theorem check_room_availability_storage_order
    lex now cin cout s t_in t_out :
  valid_stay lex now cin cout t_in t_out ->
  sublist (map fst (listed (check_room_availability lex now cin cout s)))
          (map r_room_number (dh_rooms s)) /\
  (forall R : string -> string -> Prop,
      StronglySorted R (map r_room_number (dh_rooms s)) ->
      StronglySorted R
        (map fst (listed (check_room_availability lex now cin cout s)))) /\
  (forall s',
      dh_rooms s' = dh_rooms s -> dh_bookings s' = dh_bookings s ->
      check_room_availability lex now cin cout s'
      = check_room_availability lex now cin cout s).
Proof.
  intros Hv. rewrite (listed_valid _ _ _ _ s _ _ Hv).
  rewrite select_available_room_numbers.
  split; [apply sublist_map_filter|].
  split; [intros R; apply StronglySorted_map_filter|].
  intros s' Hr Hb.
  unfold check_room_availability, select_available.
  rewrite Hr, Hb. reflexivity.
Qed.

(** With the rooms table stored ascending, the listing is ascending. *)
Lemma check_room_availability_storage_order_witness :
  valid_stay Sample.lex Sample.now (Some "2025-08-18") (Some "2025-08-20")
    (Sample.midnight 2025 8 18) (Sample.midnight 2025 8 20) /\
  sublist
    (map fst (listed (check_room_availability Sample.lex Sample.now
                        (Some "2025-08-18") (Some "2025-08-20")
                        Sample.one_stay)))
    (map r_room_number (dh_rooms Sample.one_stay)).
Proof.
  split; [exact sample_valid_18_20|].
  exact (proj1 (check_room_availability_storage_order
                  Sample.lex Sample.now (Some "2025-08-18") (Some "2025-08-20")
                  Sample.one_stay _ _ sample_valid_18_20)).
Defined.

(** C3, as worded, fails: with room 102 stored before room 101 the reply
    lists 102 first. *)
Lemma spec_sorted_by_room_number_fails :
  ~ spec_sorted_by_room_number Sample.lex Sample.now.
Proof.
  intros Hspec.
  pose proof (Hspec (Some "2025-08-18") (Some "2025-08-20") Sample.unordered
                _ _ sample_valid_18_20) as Hs.
  change (StronglySorted room_number_le ["102"; "101"]) in Hs.
  apply StronglySorted_inv in Hs. destruct Hs as [_ Hall].
  apply Forall_inv in Hall. unfold room_number_le in Hall.
  vm_compute in Hall. discriminate Hall.
Qed.

(* ===================================================================== *)
(** ** Booking *)
(* ===================================================================== *)

(** A request that passes every check is committed: the reply and the
    state that [book_room] returns. *)
Lemma book_room_commits lex now guest rn cin cout session st g r t_in t_out
    rm rate :
  bookable lex now guest rn cin cout session st g r t_in t_out rm rate ->
  book_room lex now guest rn cin cout session st
  = (booking_reply session r g t_in t_out
       (rate_per_night rate * Py.sub_days t_out t_in),
     mk_state
       (insert_booking (db st)
          (mk_booking g r (Py.date_of t_in) (Py.date_of t_out)
             (rate_per_night rate * Py.sub_days t_out t_in) now None))
       (memory st)).
Proof.
  intros (Hg & Hr & (a & b & Ha & Hb & Pa & Pb & Hpast & Hord) & Hroom & Hrate).
  unfold book_room, booking_reply.
  rewrite Hg, Hr, Ha, Hb, Pa, Pb, Hpast, Hord, Hroom, Hrate.
  destruct (truthy session); reflexivity.
Qed.

(** C1, as amended.  [book_room] makes no overlap check: a request with
    the fields present, valid dates, a known room and a known rate appends
    exactly one row to [dh_bookings], for that guest, room and days,
    whatever bookings the room already has; called without a session id
    it answers with the confirmation. *)
Theorem book_room_inserts_without_overlap_check
    lex now guest rn cin cout session st g r t_in t_out rm rate :
  bookable lex now guest rn cin cout session st g r t_in t_out rm rate ->
  (exists b,
      dh_bookings (db (snd (book_room lex now guest rn cin cout session st)))
      = (dh_bookings (db st) ++ [b])%list /\
      guest_name b = g /\ b_room_number b = r /\
      check_in_date b = Py.date_of t_in /\
      check_out_date b = Py.date_of t_out) /\
  (truthy session = None ->
   is_booked (fst (book_room lex now guest rn cin cout session st)) = true).
Proof.
  intros Hb. rewrite (book_room_commits _ _ _ _ _ _ _ _ _ _ _ _ _ _ Hb).
  split.
  - eexists. split; [reflexivity|]. repeat split.
  - intros Hs. cbn [fst]. unfold booking_reply. rewrite Hs. reflexivity.
Qed.

(** The state after Alice has booked room 101 from the 18th to the 20th. *)
Lemma sample_alice_booked :
  book_room Sample.lex Sample.now (Some "Alice") (Some "101")
    (Some "2025-08-18") (Some "2025-08-20") None Sample.st0
  = (Booked "101" "Alice" (Sample.midnight 2025 8 18)
       (Sample.midnight 2025 8 20) 16000,
     mk_state
       (mk_store Sample.rooms Sample.roomtypes
          [Sample.stay "Alice" "101" 18 20 16000] [] 1)
       ∅).
Proof. reflexivity. Qed.

(** Bob's request for room 101 from the 19th to the 21st, made after
    Alice's booking, passes every check of [book_room]. *)
Lemma sample_bob_bookable :
  bookable Sample.lex Sample.now (Some "Bob") (Some "101")
    (Some "2025-08-19") (Some "2025-08-21") None
    (snd (book_room Sample.lex Sample.now (Some "Alice") (Some "101")
            (Some "2025-08-18") (Some "2025-08-20") None Sample.st0))
    "Bob" "101" (Sample.midnight 2025 8 19) (Sample.midnight 2025 8 21)
    (mk_room "101" "Standard" "available") (mk_roomtype "Standard" 8000).
Proof.
  repeat split.
  exists "2025-08-19", "2025-08-21". repeat split; reflexivity.
Defined.

(** Bob's overlapping request is confirmed and adds a second row. *)
Lemma book_room_inserts_without_overlap_check_witness :
  bookable Sample.lex Sample.now (Some "Bob") (Some "101")
    (Some "2025-08-19") (Some "2025-08-21") None
    (snd (book_room Sample.lex Sample.now (Some "Alice") (Some "101")
            (Some "2025-08-18") (Some "2025-08-20") None Sample.st0))
    "Bob" "101" (Sample.midnight 2025 8 19) (Sample.midnight 2025 8 21)
    (mk_room "101" "Standard" "available") (mk_roomtype "Standard" 8000) /\
  is_booked
    (fst (book_room Sample.lex Sample.now (Some "Bob") (Some "101")
            (Some "2025-08-19") (Some "2025-08-21") None
            (snd (book_room Sample.lex Sample.now (Some "Alice") (Some "101")
                    (Some "2025-08-18") (Some "2025-08-20") None Sample.st0))))
  = true.
Proof.
  split; [exact sample_bob_bookable|].
  exact (proj2 (book_room_inserts_without_overlap_check
                  _ _ _ _ _ _ _ _ _ _ _ _ _ _ sample_bob_bookable)
           eq_refl).
Defined.

(** C1, as worded, fails: after Alice's booking of room 101 from the 18th
    to the 20th, Bob's request for the same room from the 19th to the 21st
    overlaps it, and is booked all the same; both rows are committed. *)
Lemma spec_book_rejects_overlap_fails :
  ~ spec_book_rejects_overlap Sample.lex Sample.now.
Proof.
  intros Hspec.
  pose proof (Hspec _ _ _ _ _ _ _ _ _ _ _ _ sample_bob_bookable) as H.
  assert (is_booked
            (fst (book_room Sample.lex Sample.now (Some "Bob") (Some "101")
                    (Some "2025-08-19") (Some "2025-08-21") None
                    (snd (book_room Sample.lex Sample.now (Some "Alice")
                            (Some "101") (Some "2025-08-18")
                            (Some "2025-08-20") None Sample.st0))))
          = false) as Habs.
  { apply H. exists (Sample.stay "Alice" "101" 18 20 16000).
    split; [left; reflexivity | split; reflexivity]. }
  vm_compute in Habs. discriminate Habs.
Qed.

(** The amount of every committed booking is the rate of the room's type
    times [(check_out - check_in).days]. *)
Lemma book_room_total_amount
    lex now guest rn cin cout session st g r t_in t_out rm rate :
  bookable lex now guest rn cin cout session st g r t_in t_out rm rate ->
  exists b,
    dh_bookings (db (snd (book_room lex now guest rn cin cout session st)))
    = (dh_bookings (db st) ++ [b])%list /\
    total_amount b = rate_per_night rate * Py.sub_days t_out t_in /\
    (truthy session = None ->
     fst (book_room lex now guest rn cin cout session st)
     = Booked r g t_in t_out (total_amount b)).
Proof.
  intros Hb. rewrite (book_room_commits _ _ _ _ _ _ _ _ _ _ _ _ _ _ Hb).
  eexists. split; [reflexivity|]. split; [reflexivity|].
  intros Hs. cbn [fst total_amount]. unfold booking_reply. rewrite Hs.
  reflexivity.
Qed.

(** C4.  A stay from 10:00 to 20:00 on the same day passes the check
    [check_out <= check_in], which compares the times as well as the days;
    [(check_out - check_in).days] is then 0, and a booking with equal
    check-in and check-out days and amount 0 is committed. *)
Theorem book_room_zero_nights :
  book_room Sample.lex Sample.now (Some "Alice") (Some "101")
    (Some "2025-08-18 10:00") (Some "2025-08-18 20:00") None Sample.st0
  = (Booked "101" "Alice"
       (Py.mk_datetime 2025 8 18 10 0 0 0) (Py.mk_datetime 2025 8 18 20 0 0 0) 0,
     mk_state
       (mk_store Sample.rooms Sample.roomtypes
          [Sample.stay "Alice" "101" 18 18 0] [] 1)
       ∅)
  /\ Py.sub_days (Py.mk_datetime 2025 8 18 20 0 0 0)
                 (Py.mk_datetime 2025 8 18 10 0 0 0) = 0.
Proof. split; reflexivity. Qed.

(* ===================================================================== *)
(** ** Tickets *)
(* ===================================================================== *)

Lemma update_closed_ids t l : map id (update_closed t l) = map id l.
Proof.
  unfold update_closed. rewrite map_map. apply map_ext.
  intros tk. destruct (id tk =? t); reflexivity.
Qed.

Lemma update_closed_status t l tk :
  In tk (update_closed t l) -> id tk = t -> status tk = "closed".
Proof.
  unfold update_closed. rewrite in_map_iff.
  intros (tk0 & Heq & _) Hid.
  destruct (id tk0 =? t) eqn:E.
  - subst tk. reflexivity.
  - subst tk. apply Z.eqb_neq in E. contradiction.
Qed.

Lemma update_closed_others t l :
  List.filter (fun tk => negb (id tk =? t)) (update_closed t l)
  = List.filter (fun tk => negb (id tk =? t)) l.
Proof.
  induction l as [|tk l IH]; [reflexivity|].
  simpl. destruct (id tk =? t) eqn:E; simpl.
  - rewrite E. simpl. exact IH.
  - rewrite E. simpl. f_equal. exact IH.
Qed.

Lemma update_closed_idempotent t l :
  update_closed t (update_closed t l) = update_closed t l.
Proof.
  unfold update_closed. rewrite map_map. apply map_ext.
  intros tk. destruct (id tk =? t) eqn:E; simpl; rewrite E; reflexivity.
Qed.

Lemma find_absent t l :
  (forall tk, In tk l -> id tk <> t) ->
  find (fun tk => id tk =? t) l = None.
Proof.
  intros Habs. destruct (find _ l) as [tk|] eqn:E; [|reflexivity].
  apply find_some in E. destruct E as [Hin Hid].
  apply Z.eqb_eq in Hid. exfalso. exact (Habs tk Hin Hid).
Qed.

Lemma find_present t l :
  (exists tk, In tk l /\ id tk = t) ->
  exists tk, find (fun tk => id tk =? t) l = Some tk.
Proof.
  intros (tk & Hin & Hid).
  destruct (find _ l) as [tk'|] eqn:E; [eauto|].
  pose proof (find_none _ _ E tk Hin) as Hf. simpl in Hf.
  apply Z.eqb_neq in Hf. contradiction.
Qed.

(** C5, as amended.  For a ticket id other than 0: when no ticket has the
    id, [close_guest_request] answers [TicketNotFound] and returns the
    store as it was; when a ticket has it, the answer is the confirmation
    whatever the ticket's status was, every ticket of that id is closed
    afterwards, no id changes, the other tickets are untouched, and
    closing the same id again is confirmed again and changes nothing. *)
Theorem close_guest_request_nonzero (t : Z) (s : store) :
  t <> 0 ->
  ((forall tk, In tk (dh_tickets s) -> id tk <> t) ->
   close_guest_request (Some t) s = (TicketNotFound t, s)) /\
  ((exists tk, In tk (dh_tickets s) /\ id tk = t) ->
   let s' := snd (close_guest_request (Some t) s) in
   fst (close_guest_request (Some t) s) = TicketClosed t /\
   dh_tickets s' = update_closed t (dh_tickets s) /\
   (forall tk, In tk (dh_tickets s') -> id tk = t -> status tk = "closed") /\
   map id (dh_tickets s') = map id (dh_tickets s) /\
   List.filter (fun tk => negb (id tk =? t)) (dh_tickets s')
   = List.filter (fun tk => negb (id tk =? t)) (dh_tickets s) /\
   dh_rooms s' = dh_rooms s /\ dh_roomtypes s' = dh_roomtypes s /\
   dh_bookings s' = dh_bookings s /\
   close_guest_request (Some t) s' = (TicketClosed t, s')).
Proof.
  intros Hnz.
  assert (truthy_int (Some t) = Some t) as Ht.
  { simpl. apply Z.eqb_neq in Hnz. rewrite Hnz. reflexivity. }
  split.
  - intros Habs. unfold close_guest_request.
    rewrite Ht, (find_absent _ _ Habs). reflexivity.
  - intros Hex. destruct (find_present _ _ Hex) as (tk0 & Hfind).
    assert (close_guest_request (Some t) s
            = (TicketClosed t,
               mk_store (dh_rooms s) (dh_roomtypes s) (dh_bookings s)
                        (update_closed t (dh_tickets s))
                        (dh_tickets_id_seq s))) as Hclose.
    { unfold close_guest_request. rewrite Ht, Hfind. reflexivity. }
    rewrite Hclose. cbn [fst snd dh_tickets dh_rooms dh_roomtypes dh_bookings].
    repeat split.
    + apply update_closed_status.
    + apply update_closed_ids.
    + apply update_closed_others.
    + destruct Hex as (tk & Hin & Hid).
      destruct (find_present t (update_closed t (dh_tickets s))) as (tk1 & Hf1).
      { exists (closed tk). split; [|exact Hid].
        unfold update_closed. apply in_map_iff. exists tk.
        split; [|exact Hin].
        apply Z.eqb_eq in Hid. rewrite Hid. reflexivity. }
      unfold close_guest_request.
      cbn [dh_tickets dh_rooms dh_roomtypes dh_bookings dh_tickets_id_seq].
      rewrite Ht, Hf1, update_closed_idempotent. reflexivity.
Qed.

Lemma close_guest_request_nonzero_witness :
  7 <> 0 /\
  close_guest_request (Some 7)
    (snd (close_guest_request (Some 7) Sample.with_ticket))
  = (TicketClosed 7, snd (close_guest_request (Some 7) Sample.with_ticket)).
Proof.
  split; [discriminate|].
  refine (proj2 (proj2 (proj2 (proj2 (proj2 (proj2 (proj2 (proj2
            (proj2 (close_guest_request_nonzero 7 Sample.with_ticket _) _))))))))).
  - discriminate.
  - exists Sample.ticket7. split; [left; reflexivity | reflexivity].
Defined.

(** C5, as worded, fails at the id 0: no ticket of the empty table has it,
    and the answer is the missing-parameter reply, not [TicketNotFound]. *)
Lemma spec_close_fails : ~ spec_close.
Proof.
  intros Hspec.
  destruct (Hspec 0 Sample.empty_motel) as [Habs _].
  assert (close_guest_request (Some 0) Sample.empty_motel
          = (TicketNotFound 0, Sample.empty_motel)) as H.
  { apply Habs. intros tk []. }
  vm_compute in H. discriminate H.
Qed.

(* ===================================================================== *)
(** ** Required parameters and the session's guest name *)
(* ===================================================================== *)

Lemma resolve_guest_name_given mem guest session g :
  truthy guest = Some g -> resolve_guest_name mem guest session = guest.
Proof. unfold resolve_guest_name. intros ->. reflexivity. Qed.

Lemma resolve_guest_name_stored mem guest session sid name :
  truthy guest = None -> truthy session = Some sid ->
  stored_guest_name mem sid = Some name ->
  resolve_guest_name mem guest session = Some name.
Proof. unfold resolve_guest_name. intros -> -> ->. reflexivity. Qed.

(** No guest name comes out of the first block of [book_room] exactly when
    none is given and the session supplies none. *)
Lemma resolve_guest_name_none mem guest session :
  truthy (resolve_guest_name mem guest session) = None <->
  truthy guest = None /\ session_guest mem session = None.
Proof.
  unfold resolve_guest_name, session_guest.
  destruct (truthy guest) as [g|] eqn:Hg.
  - rewrite Hg. split; [discriminate | intros [H _]; discriminate H].
  - destruct (truthy session) as [sid|].
    + destruct (stored_guest_name mem sid) as [name|].
      * tauto.
      * rewrite Hg. tauto.
    + rewrite Hg. tauto.
Qed.

Lemma book_room_missing_guest lex now guest rn cin cout session st :
  truthy (resolve_guest_name (memory st) guest session) = None ->
  book_room lex now guest rn cin cout session st
  = (MissingParameter (missing_param_response "guest_name"), st).
Proof. unfold book_room. intros ->. reflexivity. Qed.

Lemma missing_text_room_number :
  missing_param_response "room_number" <> missing_param_response "guest_name".
Proof. vm_compute. discriminate. Qed.

Lemma missing_text_check_in_date :
  missing_param_response "check_in_date" <> missing_param_response "guest_name".
Proof. vm_compute. discriminate. Qed.

Lemma missing_text_check_out_date :
  missing_param_response "check_out_date" <> missing_param_response "guest_name".
Proof. vm_compute. discriminate. Qed.

(** The text of a missing-parameter reply. *)
Ltac other_field lem :=
  let H := fresh "H" in
  cbn [fst]; intros H; apply lem;
  exact (f_equal (fun r => match r with
                           | MissingParameter t => t
                           | _ => EmptyString
                           end) H).

(** With a guest name in hand, whatever [book_room] answers, it does not
    ask for the guest name. *)
Lemma book_room_guest_known lex now guest rn cin cout session st g :
  truthy (resolve_guest_name (memory st) guest session) = Some g ->
  fst (book_room lex now guest rn cin cout session st)
  <> MissingParameter (missing_param_response "guest_name").
Proof.
  unfold book_room. intros ->.
  destruct (truthy rn);
    [|other_field missing_text_room_number].
  destruct (truthy cin);
    [|other_field missing_text_check_in_date].
  destruct (truthy cout);
    [|other_field missing_text_check_out_date].
  destruct (parse_date lex now _) as [t_in|]; [|discriminate].
  destruct (parse_date lex now _) as [t_out|]; [|discriminate].
  destruct (Py.date_ltb _ _); [discriminate|].
  destruct (Py.datetime_leb _ _); [discriminate|].
  destruct (find _ (dh_rooms _)); [|discriminate].
  destruct (find _ (dh_roomtypes _)); [|discriminate].
  destruct (truthy session); discriminate.
Qed.

(** C9.  (1) When [book_room] is called without a guest name and with a
    session id, and a guest name is stored for that thread, the stored
    name is the guest: the call does what it does with that name given as
    [guest_name], and when the name is not empty and the request passes
    the remaining checks, the row it commits bears the stored name (the
    reply, a session id being given, is the error text of [memory.save]).
    (2) The reply asks for the guest name exactly when none is given and
    the session supplies none (no session id, nothing stored for the
    thread, or an empty stored name); the state is then unchanged. *)
Theorem book_room_guest_from_session lex now guest rn cin cout session st :
  (forall sid name,
      truthy guest = None -> truthy session = Some sid ->
      stored_guest_name (memory st) sid = Some name ->
      book_room lex now guest rn cin cout session st
      = book_room lex now (Some name) rn cin cout session st /\
      (forall r t_in t_out rm rate,
          name <> "" -> truthy rn = Some r ->
          valid_stay lex now cin cout t_in t_out ->
          find (fun x => String.eqb (r_room_number x) r) (dh_rooms (db st))
          = Some rm ->
          find (fun t => String.eqb (rt_room_type t) (r_room_type rm))
               (dh_roomtypes (db st)) = Some rate ->
          fst (book_room lex now guest rn cin cout session st)
          = BookingError r AttributeError /\
          exists b,
            dh_bookings
              (db (snd (book_room lex now guest rn cin cout session st)))
            = (dh_bookings (db st) ++ [b])%list /\
            guest_name b = name /\ b_room_number b = r /\
            check_in_date b = Py.date_of t_in /\
            check_out_date b = Py.date_of t_out)) /\
  (fst (book_room lex now guest rn cin cout session st)
   = MissingParameter (missing_param_response "guest_name") <->
   truthy guest = None /\ session_guest (memory st) session = None) /\
  (truthy guest = None -> session_guest (memory st) session = None ->
   snd (book_room lex now guest rn cin cout session st) = st).
Proof.
  split; [|split].
  - intros sid name Hg Hs Hn.
    pose proof (resolve_guest_name_stored _ _ _ sid name Hg Hs Hn) as Hres.
    split.
    + assert (resolve_guest_name (memory st) (Some name) session = Some name)
        as Hres'.
      { destruct (truthy (Some name)) as [n|] eqn:E.
        - apply (resolve_guest_name_given _ _ _ n E).
        - apply (resolve_guest_name_stored _ _ _ sid); assumption. }
      unfold book_room. rewrite Hres, Hres'. reflexivity.
    + intros r t_in t_out rm rate Hne Hr Hv Hroom Hrate.
      assert (bookable lex now guest rn cin cout session st
                name r t_in t_out rm rate) as Hb.
      { split; [|tauto]. rewrite Hres. simpl.
        apply String.eqb_neq in Hne. rewrite Hne. reflexivity. }
      rewrite (book_room_commits _ _ _ _ _ _ _ _ _ _ _ _ _ _ Hb).
      split.
      * cbn [fst]. unfold booking_reply. rewrite Hs. reflexivity.
      * eexists. split; [reflexivity|]. repeat split.
  - rewrite <- resolve_guest_name_none. split.
    + intros Hm.
      destruct (truthy (resolve_guest_name (memory st) guest session))
        as [g|] eqn:E; [|reflexivity].
      exfalso. exact (book_room_guest_known _ _ _ rn cin cout _ _ _ E Hm).
    + intros Hn. rewrite (book_room_missing_guest _ _ _ _ _ _ _ _ Hn).
      reflexivity.
  - intros Hg Hs.
    rewrite book_room_missing_guest; [reflexivity|].
    apply resolve_guest_name_none. split; assumption.
Qed.

(** On a thread whose stored guest is Alice, a request made without a
    guest name commits a row for Alice. *)
Lemma book_room_guest_from_session_witness :
  stored_guest_name (memory Sample.st_alice) "t1" = Some "Alice" /\
  fst (book_room Sample.lex Sample.now None (Some "101")
         (Some "2025-08-18") (Some "2025-08-20") (Some "t1") Sample.st_alice)
  = BookingError "101" AttributeError /\
  exists b,
    dh_bookings
      (db (snd (book_room Sample.lex Sample.now None (Some "101")
                  (Some "2025-08-18") (Some "2025-08-20") (Some "t1")
                  Sample.st_alice)))
    = (dh_bookings (db Sample.st_alice) ++ [b])%list /\
    guest_name b = "Alice" /\ b_room_number b = "101" /\
    check_in_date b = Py.date_of (Sample.midnight 2025 8 18) /\
    check_out_date b = Py.date_of (Sample.midnight 2025 8 20).
Proof.
  split; [reflexivity|].
  apply (proj2 (proj1 (book_room_guest_from_session Sample.lex Sample.now
                         None (Some "101") (Some "2025-08-18")
                         (Some "2025-08-20") (Some "t1") Sample.st_alice)
                  "t1" "Alice" eq_refl eq_refl eq_refl)
           "101" (Sample.midnight 2025 8 18) (Sample.midnight 2025 8 20)
           (mk_room "101" "Standard" "available")
           (mk_roomtype "Standard" 8000)).
  - discriminate.
  - reflexivity.
  - exact sample_valid_18_20.
  - reflexivity.
  - reflexivity.
Defined.

Example sample_stored_guest_row :
  dh_bookings
    (db (snd (book_room Sample.lex Sample.now None (Some "101")
                (Some "2025-08-18") (Some "2025-08-20") (Some "t1")
                Sample.st_alice)))
  = [Sample.stay "Alice" "101" 18 20 16000].
Proof. reflexivity. Qed.

Lemma no_guest_stored_session mem session :
  no_guest_stored mem -> session_guest mem session = None.
Proof.
  intros Hmem. unfold session_guest.
  destruct (truthy session) as [sid|]; [|reflexivity].
  rewrite (Hmem sid). reflexivity.
Qed.

Lemma no_guest_stored_empty : no_guest_stored ∅.
Proof.
  intros sid. unfold stored_guest_name. rewrite lookup_empty. reflexivity.
Defined.

Lemma truthy_empty : truthy (Some "") = None.
Proof. reflexivity. Qed.

(** C10.  The checks on required parameters test truthiness: a ticket
    id of 0 and an empty room number are answered with the
    missing-parameter reply and leave the store as it was, in
    [close_guest_request], [raise_guest_request] and [book_room]; an empty
    guest name is in [book_room] the same as no guest name, and on a
    session memory that holds no guest name, as every memory is that the
    program reaches, it is answered with the missing-parameter reply, the
    state being left as it was. *)
Theorem empty_arguments_count_as_missing lex now :
  (forall s,
      close_guest_request (Some 0) s
      = (MissingParameter (missing_param_response "ticket_id"), s)) /\
  (forall description s,
      raise_guest_request now (Some "") description s
      = (MissingParameter (missing_param_response "room_number"), s)) /\
  (forall guest cin cout session st,
      exists field, (field = "guest_name" \/ field = "room_number") /\
        book_room lex now guest (Some "") cin cout session st
        = (MissingParameter (missing_param_response field), st)) /\
  (forall rn cin cout session st,
      book_room lex now (Some "") rn cin cout session st
      = book_room lex now None rn cin cout session st) /\
  (forall rn cin cout session st,
      no_guest_stored (memory st) ->
      book_room lex now (Some "") rn cin cout session st
      = (MissingParameter (missing_param_response "guest_name"), st)).
Proof.
  split; [reflexivity|]. split; [reflexivity|]. split; [|split].
  - intros guest cin cout session st.
    destruct (truthy (resolve_guest_name (memory st) guest session))
      as [g|] eqn:E.
    + exists "room_number". split; [right; reflexivity|].
      unfold book_room. rewrite E, truthy_empty. reflexivity.
    + exists "guest_name". split; [left; reflexivity|].
      apply book_room_missing_guest. exact E.
  - intros rn cin cout session st.
    unfold book_room, resolve_guest_name. rewrite truthy_empty.
    change (truthy None) with (@None string).
    destruct (truthy session) as [sid|]; [|reflexivity].
    destruct (stored_guest_name (memory st) sid); reflexivity.
  - intros rn cin cout session st Hs.
    apply book_room_missing_guest.
    apply resolve_guest_name_none. split; [reflexivity|].
    apply no_guest_stored_session. exact Hs.
Qed.

(** With a session id and nothing stored, an empty guest name is asked
    for again. *)
Lemma empty_arguments_count_as_missing_witness :
  no_guest_stored (memory Sample.st0) /\
  book_room Sample.lex Sample.now (Some "") (Some "101")
    (Some "2025-08-18") (Some "2025-08-20") (Some "t1") Sample.st0
  = (MissingParameter (missing_param_response "guest_name"), Sample.st0).
Proof.
  split; [exact no_guest_stored_empty|].
  apply (proj2 (proj2 (proj2 (proj2
           (empty_arguments_count_as_missing Sample.lex Sample.now))))).
  exact no_guest_stored_empty.
Defined.

(* ===================================================================== *)
(** ** Occupancy *)
(* ===================================================================== *)

(** What [get_occupancy_rate] computes when rooms are registered: the
    number of bookings whose dates include the day, over the number of
    rooms, as a percentage. *)
Lemma get_occupancy_rate_value lex now date s d pd :
  truthy date = Some d -> parse_date lex now d = Some pd ->
  dh_rooms s <> [] ->
  get_occupancy_rate lex now date s
  = OccupancyRate pd
      (inject_Z (Z.of_nat (length (List.filter (between (Py.date_of pd))
                                               (dh_bookings s))))
       / inject_Z (Z.of_nat (length (dh_rooms s))) * 100)%Q.
Proof.
  intros Hd Hp Hne. unfold get_occupancy_rate, truediv. rewrite Hd, Hp.
  destruct (dh_rooms s) as [|r rs]; [contradiction|].
  reflexivity.
Qed.

(** C7.  With no room registered, [get_occupancy_rate] answers
    [NoRoomsRegistered] for every date it accepts; and for no store and no
    argument does its division raise [ZeroDivisionError]. *)
Theorem get_occupancy_rate_no_rooms lex now date s d pd :
  truthy date = Some d -> parse_date lex now d = Some pd ->
  dh_rooms s = [] ->
  get_occupancy_rate lex now date s = NoRoomsRegistered /\
  (forall date' s' on e,
      get_occupancy_rate lex now date' s' <> OccupancyError on e).
Proof.
  intros Hd Hp Hr. split.
  - unfold get_occupancy_rate. rewrite Hd, Hp, Hr. reflexivity.
  - intros date' s' on e. unfold get_occupancy_rate.
    destruct (truthy date') as [d'|]; [|discriminate].
    destruct (parse_date lex now d') as [pd'|]; [|discriminate].
    cbv zeta.
    destruct (Z.of_nat (length (dh_rooms s')) =? 0) eqn:E; [discriminate|].
    unfold truediv. rewrite E. discriminate.
Qed.

Lemma get_occupancy_rate_no_rooms_witness :
  truthy (Some "2025-08-18") = Some "2025-08-18" /\
  parse_date Sample.lex Sample.now "2025-08-18"
  = Some (Sample.midnight 2025 8 18) /\
  dh_rooms (mk_store [] Sample.roomtypes [] [] 1) = [] /\
  get_occupancy_rate Sample.lex Sample.now (Some "2025-08-18")
    (mk_store [] Sample.roomtypes [] [] 1) = NoRoomsRegistered.
Proof.
  split; [reflexivity|]. split; [reflexivity|]. split; [reflexivity|].
  apply (proj1 (get_occupancy_rate_no_rooms Sample.lex Sample.now
                  (Some "2025-08-18") (mk_store [] Sample.roomtypes [] [] 1)
                  "2025-08-18" (Sample.midnight 2025 8 18)
                  eq_refl eq_refl eq_refl)).
Defined.

(** C6.  One room with two stays that meet on the 18th: on that day the
    specification counts one occupied room out of one, and
    [get_occupancy_rate], which counts the bookings, reports 200%. *)
Theorem get_occupancy_rate_counts_bookings :
  (exists q,
      get_occupancy_rate Sample.lex Sample.now (Some "2025-08-18")
        Sample.back_to_back
      = OccupancyRate (Sample.midnight 2025 8 18) q /\ (q == 200)%Q) /\
  spec_occupied_rooms (Py.mk_date 2025 8 18) Sample.back_to_back = 1 /\
  Z.of_nat (length (dh_rooms Sample.back_to_back)) = 1.
Proof.
  split; [|split; reflexivity].
  eexists. split; [reflexivity|]. reflexivity.
Qed.

(* ===================================================================== *)
(** ** Dates without a year *)
(* ===================================================================== *)

Lemma new_datetime_year y m d h mi s us t :
  Py.new_datetime y m d h mi s us = Some t -> Py.year t = y.
Proof.
  unfold Py.new_datetime.
  destruct (Py.check_date_fields y m d && Py.check_time_fields h mi s us);
    [|discriminate].
  intros [= <-]. reflexivity.
Qed.

(** A string that gives no year is resolved by [parse_date] to the
    current year, whether or not that day is already past: the parser has
    filled in the current year, so the test [parsed.year < current_year]
    is false. *)
Lemma parse_date_without_year lex now s res :
  lex s = Some res -> Dateutil.res_year res = None ->
  parse_date lex now s = Dateutil.build_naive res (Dateutil.default_of now) /\
  (forall t, parse_date lex now s = Some t -> Py.year t = Py.year now).
Proof.
  intros Hlex Hy.
  assert (forall t,
             Dateutil.build_naive res (Dateutil.default_of now) = Some t ->
             Py.year t = Py.year now) as Hyear.
  { intros t Ht. unfold Dateutil.build_naive in Ht. rewrite Hy in Ht.
    apply new_datetime_year in Ht. exact Ht. }
  assert (parse_date lex now s
          = Dateutil.build_naive res (Dateutil.default_of now)) as Heq.
  { unfold parse_date, date_parser_parse. rewrite Hlex.
    destruct (Dateutil.build_naive res _) as [t|] eqn:E; [|reflexivity].
    rewrite (Hyear t eq_refl), Z.ltb_irrefl. reflexivity. }
  split; [exact Heq|].
  intros t Ht. rewrite Heq in Ht. apply Hyear. exact Ht.
Qed.

(** C8.  On 1st August 2025 the string "5 January", which gives no year,
    is parsed as 5th January 2025, a day before today, and not as 5th
    January 2026. *)
Theorem parse_date_bare_day_in_the_past :
  Sample.lex "5 January" = Some (Dateutil.ymd None (Some 1) (Some 5)) /\
  parse_date Sample.lex Sample.now "5 January"
  = Some (Sample.midnight 2025 1 5) /\
  Py.date_ltb (Py.date_of (Sample.midnight 2025 1 5)) (today Sample.now)
  = true.
Proof. repeat split. Qed.

Example sample_bare_day_ahead :
  parse_date Sample.lex Sample.now "18 August"
  = Some (Sample.midnight 2025 8 18).
Proof. reflexivity. Qed.

(* ===================================================================== *)
(** ** Nights *)
(* ===================================================================== *)

Lemma dbm_table y m :
  1 <= m <= 12 ->
  (m = 1 /\ Py.days_before_month y m = 0 /\ Py.days_in_month y m = 31) \/
  (m = 2 /\ Py.days_before_month y m = 31 /\ Py.days_in_month y m = 28 + leap_day y) \/
  (m = 3 /\ Py.days_before_month y m = 59 + leap_day y /\ Py.days_in_month y m = 31) \/
  (m = 4 /\ Py.days_before_month y m = 90 + leap_day y /\ Py.days_in_month y m = 30) \/
  (m = 5 /\ Py.days_before_month y m = 120 + leap_day y /\ Py.days_in_month y m = 31) \/
  (m = 6 /\ Py.days_before_month y m = 151 + leap_day y /\ Py.days_in_month y m = 30) \/
  (m = 7 /\ Py.days_before_month y m = 181 + leap_day y /\ Py.days_in_month y m = 31) \/
  (m = 8 /\ Py.days_before_month y m = 212 + leap_day y /\ Py.days_in_month y m = 31) \/
  (m = 9 /\ Py.days_before_month y m = 243 + leap_day y /\ Py.days_in_month y m = 30) \/
  (m = 10 /\ Py.days_before_month y m = 273 + leap_day y /\ Py.days_in_month y m = 31) \/
  (m = 11 /\ Py.days_before_month y m = 304 + leap_day y /\ Py.days_in_month y m = 30) \/
  (m = 12 /\ Py.days_before_month y m = 334 + leap_day y /\ Py.days_in_month y m = 31).
Proof.
  intros Hm.
  assert (m = 1 \/ m = 2 \/ m = 3 \/ m = 4 \/ m = 5 \/ m = 6 \/ m = 7 \/ m = 8
          \/ m = 9 \/ m = 10 \/ m = 11 \/ m = 12) as Hc by lia.
  unfold leap_day, Py.days_before_month, Py.days_in_month.
  repeat (destruct Hc as [-> | Hc]); try subst m;
  cbn -[Py.is_leap]; destruct (Py.is_leap y); cbn; tauto.
Qed.

Lemma dby_succ y : Py.days_before_year (y + 1) = Py.days_before_year y + 365 + leap_day y.
Proof.
  unfold Py.days_before_year, leap_day, Py.is_leap.
  replace (y + 1 - 1) with y by lia.
  destruct (y mod 4 =? 0) eqn:E4; destruct (y mod 100 =? 0) eqn:E100; destruct (y mod 400 =? 0) eqn:E400; cbn [andb orb negb];
  rewrite ?Z.eqb_eq, ?Z.eqb_neq in *; Z.div_mod_to_equations; lia.
Qed.

Lemma dby_mono y1 y2 : y1 <= y2 -> Py.days_before_year y1 <= Py.days_before_year y2.
Proof.
  unfold Py.days_before_year. intros H. Z.div_mod_to_equations. lia.
Qed.

Lemma check_date_fields_bounds y m d :
  Py.check_date_fields y m d = true ->
  1 <= m <= 12 /\ 1 <= d <= Py.days_in_month y m.
Proof.
  unfold Py.check_date_fields. rewrite !andb_true_iff, !Z.leb_le. lia.
Qed.

Lemma leap_day_bounds y : 0 <= leap_day y <= 1.
Proof. unfold leap_day. destruct (Py.is_leap y); lia. Qed.

Lemma toordinal_lt (a b : Py.date) :
  Py.check_date_fields (Py.d_year a) (Py.d_month a) (Py.d_day a) = true ->
  Py.check_date_fields (Py.d_year b) (Py.d_month b) (Py.d_day b) = true ->
  Py.date_compare a b = Lt ->
  Py.toordinal a < Py.toordinal b.
Proof.
  destruct a as [ya ma da], b as [yb mb db]. cbn [Py.d_year Py.d_month Py.d_day].
  intros Ha Hb Hlt.
  apply check_date_fields_bounds in Ha, Hb.
  destruct Ha as [Hma Hda], Hb as [Hmb Hdb].
  unfold Py.toordinal, Py.ymd2ord. cbn [Py.d_year Py.d_month Py.d_day].
  unfold Py.date_compare in Hlt. cbn [Py.d_year Py.d_month Py.d_day] in Hlt.
  pose proof (leap_day_bounds ya) as Hla.
  pose proof (leap_day_bounds yb) as Hlb.
  destruct (ya ?= yb) eqn:Ey; try discriminate.
  - apply Z.compare_eq in Ey. subst yb.
    destruct (ma ?= mb) eqn:Em; try discriminate.
    + apply Z.compare_eq in Em. subst mb.
      change (da < db) in Hlt. lia.
    + change (ma < mb) in Em.
      destruct (dbm_table ya ma Hma) as
        [H|[H|[H|[H|[H|[H|[H|[H|[H|[H|[H|H]]]]]]]]]]];
      destruct (dbm_table ya mb Hmb) as
        [K|[K|[K|[K|[K|[K|[K|[K|[K|[K|[K|K]]]]]]]]]]];
      lia.
  - change (ya < yb) in Ey.
    pose proof (dby_mono (ya + 1) yb ltac:(lia)) as Hmono.
    rewrite dby_succ in Hmono.
    destruct (dbm_table ya ma Hma) as
      [H|[H|[H|[H|[H|[H|[H|[H|[H|[H|[H|H]]]]]]]]]]];
    destruct (dbm_table yb mb Hmb) as
      [K|[K|[K|[K|[K|[K|[K|[K|[K|[K|[K|K]]]]]]]]]]];
    lia.
Qed.

Lemma datetime_compare_midnight a b :
  at_midnight a -> at_midnight b ->
  Py.datetime_compare a b = Py.date_compare (Py.date_of a) (Py.date_of b).
Proof.
  intros (h1 & m1 & s1 & u1) (h2 & m2 & s2 & u2).
  unfold Py.datetime_compare, Py.date_compare, Py.date_of.
  cbn [Py.tuple_compare Py.d_year Py.d_month Py.d_day].
  rewrite h1, m1, s1, u1, h2, m2, s2, u2. cbn.
  destruct (Py.year a ?= Py.year b); [|reflexivity..].
  destruct (Py.month a ?= Py.month b); [|reflexivity..].
  destruct (Py.day a ?= Py.day b); reflexivity.
Qed.

Lemma sub_days_midnight a b :
  at_midnight a -> at_midnight b ->
  Py.sub_days a b = Py.toordinal (Py.date_of a) - Py.toordinal (Py.date_of b).
Proof.
  intros (h1 & m1 & s1 & u1) (h2 & m2 & s2 & u2).
  unfold Py.sub_days, Py.time_us.
  rewrite h1, m1, s1, u1, h2, m2, s2, u2.
  replace ((0 * 60 + 0) * 60 + 0) with 0 by reflexivity.
  rewrite Z.sub_diag, Z.add_0_r.
  apply Z.div_mul. unfold Py.us_per_day. lia.
Qed.

Lemma new_datetime_valid y m d h mi s us t :
  Py.new_datetime y m d h mi s us = Some t -> Py.valid_datetime t = true.
Proof.
  unfold Py.new_datetime, Py.valid_datetime.
  destruct (Py.check_date_fields y m d && Py.check_time_fields h mi s us)
    eqn:E; [|discriminate].
  intros [= <-]. exact E.
Qed.

(** Every datetime [parse_date] returns went through the constructor's
    range checks. *)
Lemma parse_date_valid lex now s t :
  parse_date lex now s = Some t -> Py.valid_datetime t = true.
Proof.
  unfold parse_date, date_parser_parse.
  destruct (lex s) as [res|]; [|discriminate].
  destruct (Dateutil.build_naive res _) as [parsed|] eqn:E; [|discriminate].
  destruct (Py.year parsed <? Py.year now).
  - apply new_datetime_valid.
  - intros [= <-]. exact (new_datetime_valid _ _ _ _ _ _ _ _ E).
Qed.

Lemma new_datetime_time y m d h mi s us t :
  Py.new_datetime y m d h mi s us = Some t ->
  Py.hour t = h /\ Py.minute t = mi /\ Py.second t = s /\ Py.microsecond t = us.
Proof.
  unfold Py.new_datetime.
  destruct (Py.check_date_fields y m d && Py.check_time_fields h mi s us);
    [|discriminate].
  intros [= <-]. repeat split.
Qed.

(** A string that names only a day parses to that day at midnight. *)
Lemma parse_date_date_only lex now s res t :
  lex s = Some res -> date_only res ->
  parse_date lex now s = Some t -> at_midnight t.
Proof.
  intros Hlex (Hh & Hm & Hs & Hu).
  unfold parse_date, date_parser_parse. rewrite Hlex.
  destruct (Dateutil.build_naive res _) as [parsed|] eqn:E; [|discriminate].
  unfold Dateutil.build_naive in E. rewrite Hh, Hm, Hs, Hu in E.
  apply new_datetime_time in E. cbn in E.
  destruct (Py.year parsed <? Py.year now).
  - intros H. unfold Py.replace_year in H. apply new_datetime_time in H.
    destruct E as (e1 & e2 & e3 & e4), H as (h1 & h2 & h3 & h4).
    unfold at_midnight. rewrite h1, h2, h3, h4. auto.
  - intros [= <-]. exact E.
Qed.

Lemma valid_datetime_date t :
  Py.valid_datetime t = true ->
  Py.check_date_fields (Py.d_year (Py.date_of t)) (Py.d_month (Py.date_of t))
                       (Py.d_day (Py.date_of t)) = true.
Proof.
  unfold Py.valid_datetime. intros H. apply andb_prop in H.
  destruct H as [H _]. exact H.
Qed.

(** For requests that name days only, the guard against an empty stay
    does its work: every committed booking has at least one night, and
    the nights are the difference of the two days. *)
Lemma book_room_nights_date_only
    lex now guest rn cin cout session st g r t_in t_out rm rate :
  bookable lex now guest rn cin cout session st g r t_in t_out rm rate ->
  at_midnight t_in -> at_midnight t_out ->
  1 <= Py.sub_days t_out t_in /\
  Py.sub_days t_out t_in
  = Py.toordinal (Py.date_of t_out) - Py.toordinal (Py.date_of t_in).
Proof.
  intros (_ & _ & (a & b & _ & _ & Pa & Pb & _ & Hord) & _) Hin Hout.
  rewrite (sub_days_midnight _ _ Hout Hin).
  split; [|reflexivity].
  unfold Py.datetime_leb in Hord.
  rewrite (datetime_compare_midnight _ _ Hout Hin) in Hord.
  assert (Py.date_compare (Py.date_of t_in) (Py.date_of t_out) = Lt) as Hlt.
  { unfold Py.date_compare in *.
    cbn [Py.date_of Py.d_year Py.d_month Py.d_day] in *.
    rewrite (Z.compare_antisym (Py.year t_out)),
            (Z.compare_antisym (Py.month t_out)),
            (Z.compare_antisym (Py.day t_out)).
    destruct (Py.year t_out ?= Py.year t_in); cbn; try congruence.
    destruct (Py.month t_out ?= Py.month t_in); cbn; try congruence.
    destruct (Py.day t_out ?= Py.day t_in); cbn; congruence. }
  pose proof (toordinal_lt _ _
                (valid_datetime_date _ (parse_date_valid _ _ _ _ Pa))
                (valid_datetime_date _ (parse_date_valid _ _ _ _ Pb))
                Hlt).
  lia.
Qed.

(* ===================================================================== *)
(** ** Supplements: the state after a booking and the occupancy count *)
(* ===================================================================== *)


(** [book_room] either leaves the state as it was or appends a row to
    [dh_bookings]; the session memory it only reads. *)
Lemma book_room_state lex now guest rn cin cout session st :
  snd (book_room lex now guest rn cin cout session st) = st \/
  exists b,
    snd (book_room lex now guest rn cin cout session st)
    = mk_state (insert_booking (db st) b) (memory st).
Proof.
  unfold book_room.
  destruct (truthy (resolve_guest_name (memory st) guest session))
    as [g|] eqn:Hg; [|left; reflexivity].
  destruct (truthy rn); [|left; reflexivity].
  destruct (truthy cin) as [a|]; [|left; reflexivity].
  destruct (truthy cout) as [b|]; [|left; reflexivity].
  destruct (parse_date lex now a); [|left; reflexivity].
  destruct (parse_date lex now b); [|left; reflexivity].
  destruct (Py.date_ltb _ _); [left; reflexivity|].
  destruct (Py.datetime_leb _ _); [left; reflexivity|].
  destruct (find _ (dh_rooms _)); [|left; reflexivity].
  destruct (find _ (dh_roomtypes _)); [|left; reflexivity].
  right. eexists. destruct (truthy session); reflexivity.
Qed.

Lemma book_room_memory lex now guest rn cin cout session st :
  memory (snd (book_room lex now guest rn cin cout session st)) = memory st.
Proof.
  destruct (book_room_state lex now guest rn cin cout session st)
    as [-> | (b & ->)]; reflexivity.
Qed.

Lemma NoDup_map_filter {A B} (g : A -> B) (f : A -> bool) l :
  List.NoDup (map g l) -> List.NoDup (map g (List.filter f l)).
Proof.
  induction l as [|a l IH]; simpl; intros Hnd; [constructor|].
  apply List.NoDup_cons_iff in Hnd. destruct Hnd as [Hnotin Hnd].
  destruct (f a); simpl; [|auto].
  constructor; [|auto].
  intros Hin. apply Hnotin. apply in_map_iff in Hin.
  destruct Hin as (x & Hx & Hin). apply filter_In in Hin.
  apply in_map_iff. exists x. tauto.
Qed.

(** When the bookings that include the day are for distinct rooms, all of
    them registered under distinct numbers, the count of
    [get_occupancy_rate] is the specification's count of occupied rooms. *)
Lemma occupied_rooms_agree d s :
  List.NoDup (map r_room_number (dh_rooms s)) ->
  List.NoDup (map b_room_number (List.filter (between d) (dh_bookings s))) ->
  (forall b, In b (dh_bookings s) -> between d b = true ->
             In (b_room_number b) (map r_room_number (dh_rooms s))) ->
  spec_occupied_rooms d s
  = Z.of_nat (length (List.filter (between d) (dh_bookings s))).
Proof.
  intros Hrooms Hbookings Hreg. unfold spec_occupied_rooms. f_equal.
  set (occ := fun r => existsb
                (fun b => String.eqb (b_room_number b) (r_room_number r)
                          && between d b) (dh_bookings s)).
  rewrite <- (length_map r_room_number (List.filter occ (dh_rooms s))).
  rewrite <- (length_map b_room_number (List.filter (between d) (dh_bookings s))).
  apply Permutation.Permutation_length.
  apply Permutation.NoDup_Permutation;
    [apply NoDup_map_filter; exact Hrooms | exact Hbookings |].
  intros n. rewrite !in_map_iff. split.
  - intros (r & Hn & Hin). apply filter_In in Hin. destruct Hin as [Hin Hocc].
    unfold occ in Hocc. apply existsb_exists in Hocc.
    destruct Hocc as (b & Hb & Hc). apply andb_prop in Hc.
    destruct Hc as [He Hbt]. apply String.eqb_eq in He.
    exists b. split; [congruence|]. apply filter_In. tauto.
  - intros (b & Hn & Hin). apply filter_In in Hin. destruct Hin as [Hin Hbt].
    pose proof (Hreg b Hin Hbt) as Hr. apply in_map_iff in Hr.
    destruct Hr as (r & Hrn & Hrin).
    exists r. split; [congruence|]. apply filter_In. split; [exact Hrin|].
    unfold occ. apply existsb_exists. exists b. split; [exact Hin|].
    rewrite Hbt, andb_true_r. apply String.eqb_eq. congruence.
Qed.

(* ===================================================================== *)
(** ** Ordered listings *)
(* ===================================================================== *)

Lemma insert_by_perm {A} (leb : A -> A -> bool) x l :
  Permutation (insert_by leb x l) (x :: l).
Proof.
  induction l as [|y l IH]; simpl; [reflexivity|].
  destruct (leb x y); [reflexivity|].
  rewrite IH. apply perm_swap.
Qed.

Lemma order_by_perm {A} (leb : A -> A -> bool) l :
  Permutation (order_by leb l) l.
Proof.
  induction l as [|x l IH]; simpl; [reflexivity|].
  rewrite insert_by_perm. apply perm_skip. exact IH.
Qed.

Lemma insert_by_sorted {A} (leb : A -> A -> bool) x l :
  total_leb leb ->
  Sorted (fun a b => leb a b = true) l ->
  Sorted (fun a b => leb a b = true) (insert_by leb x l).
Proof.
  intros Htot. induction 1 as [|y l Hs IH Hhd]; simpl.
  - repeat constructor.
  - destruct (leb x y) eqn:E.
    + constructor; [constructor; assumption|]. constructor. exact E.
    + constructor; [exact IH|].
      destruct (Htot x y) as [Hxy | Hyx]; [congruence|].
      destruct l as [|z l]; simpl.
      * constructor. exact Hyx.
      * destruct (leb x z); constructor; [exact Hyx|].
        inversion Hhd; assumption.
Qed.

Lemma order_by_sorted {A} (leb : A -> A -> bool) l :
  total_leb leb -> Sorted (fun a b => leb a b = true) (order_by leb l).
Proof.
  intros Htot. induction l as [|x l IH]; simpl; [constructor|].
  apply insert_by_sorted; assumption.
Qed.

Lemma order_by_nil {A} (leb : A -> A -> bool) l :
  order_by leb l = [] <-> l = [].
Proof.
  split; [|intros ->; reflexivity].
  intros H. pose proof (order_by_perm leb l) as Hp. rewrite H in Hp.
  apply Permutation_nil. exact Hp.
Qed.

Lemma tuple_compare_antisym a b :
  length a = length b ->
  Py.tuple_compare b a = CompOpp (Py.tuple_compare a b).
Proof.
  revert b. induction a as [|x a IH]; intros [|y b] Hlen;
    try discriminate; [reflexivity|].
  simpl. rewrite (Z.compare_antisym x y).
  destruct (x ?= y); simpl; [|reflexivity..].
  apply IH. simpl in Hlen. congruence.
Qed.

(** Of two datetimes one is at or before the other. *)
Lemma datetime_leb_total : total_leb Py.datetime_leb.
Proof.
  intros a b. unfold Py.datetime_leb, Py.datetime_compare.
  rewrite (tuple_compare_antisym
             [Py.year a; Py.month a; Py.day a; Py.hour a; Py.minute a;
              Py.second a; Py.microsecond a]
             [Py.year b; Py.month b; Py.day b; Py.hour b; Py.minute b;
              Py.second b; Py.microsecond b] eq_refl).
  destruct (Py.tuple_compare _ _); simpl; auto.
Qed.


(* ===================================================================== *)
(** ** Order of days and of datetimes *)
(* ===================================================================== *)

Lemma date_leb_spec a b :
  Py.date_leb a b = true <->
  Py.d_year a < Py.d_year b \/
  (Py.d_year a = Py.d_year b /\
   (Py.d_month a < Py.d_month b \/
    (Py.d_month a = Py.d_month b /\ Py.d_day a <= Py.d_day b))).
Proof.
  unfold Py.date_leb, Py.date_compare.
  destruct (Z.compare_spec (Py.d_year a) (Py.d_year b));
    [|split; [lia | reflexivity] | split; [discriminate | lia]].
  destruct (Z.compare_spec (Py.d_month a) (Py.d_month b));
    [|split; [lia | reflexivity] | split; [discriminate | lia]].
  destruct (Z.compare_spec (Py.d_day a) (Py.d_day b));
    split; try reflexivity; try discriminate; lia.
Qed.

Lemma date_le_refl a : date_le a a.
Proof. apply date_leb_spec. lia. Qed.

Lemma date_le_trans a b c : date_le a b -> date_le b c -> date_le a c.
Proof. unfold date_le. rewrite !date_leb_spec. lia. Qed.

(** The fields of two datetimes of which the first is the later one. *)
Lemma datetime_gt_fields a b :
  Py.datetime_leb a b = false ->
  Py.year b < Py.year a \/
  (Py.year b = Py.year a /\
   (Py.month b < Py.month a \/
    (Py.month b = Py.month a /\
     (Py.day b < Py.day a \/
      (Py.day b = Py.day a /\
       (Py.hour b < Py.hour a \/
        (Py.hour b = Py.hour a /\
         (Py.minute b < Py.minute a \/
          (Py.minute b = Py.minute a /\
           (Py.second b < Py.second a \/
            (Py.second b = Py.second a /\
             Py.microsecond b < Py.microsecond a))))))))))).
Proof.
  unfold Py.datetime_leb, Py.datetime_compare. cbn [Py.tuple_compare].
  destruct (Z.compare_spec (Py.year a) (Py.year b)); [|discriminate|lia].
  destruct (Z.compare_spec (Py.month a) (Py.month b)); [|discriminate|lia].
  destruct (Z.compare_spec (Py.day a) (Py.day b)); [|discriminate|lia].
  destruct (Z.compare_spec (Py.hour a) (Py.hour b)); [|discriminate|lia].
  destruct (Z.compare_spec (Py.minute a) (Py.minute b)); [|discriminate|lia].
  destruct (Z.compare_spec (Py.second a) (Py.second b)); [|discriminate|lia].
  destruct (Z.compare_spec (Py.microsecond a) (Py.microsecond b));
    [discriminate|discriminate|lia].
Qed.

(** A later datetime is not on an earlier day. *)
Lemma datetime_gt_date a b :
  Py.datetime_leb a b = false -> date_le (Py.date_of b) (Py.date_of a).
Proof.
  intros H. apply datetime_gt_fields in H.
  apply date_leb_spec. cbn [Py.date_of Py.d_year Py.d_month Py.d_day]. lia.
Qed.

Lemma valid_datetime_time t :
  Py.valid_datetime t = true ->
  0 <= Py.hour t <= 23 /\ 0 <= Py.minute t <= 59 /\
  0 <= Py.second t <= 59 /\ 0 <= Py.microsecond t <= 999999.
Proof.
  unfold Py.valid_datetime, Py.check_time_fields.
  rewrite !andb_true_iff, !Z.leb_le. lia.
Qed.

Lemma toordinal_eq a b :
  Py.d_year a = Py.d_year b -> Py.d_month a = Py.d_month b ->
  Py.d_day a = Py.d_day b -> Py.toordinal a = Py.toordinal b.
Proof. unfold Py.toordinal. intros -> -> ->. reflexivity. Qed.

(** The day count between two valid datetimes, the first being the later
    one, is not negative. *)
Lemma sub_days_nonneg a b :
  Py.valid_datetime a = true -> Py.valid_datetime b = true ->
  Py.datetime_leb a b = false -> 0 <= Py.sub_days a b.
Proof.
  intros Va Vb Hgt.
  pose proof (valid_datetime_time _ Va) as Ta.
  pose proof (valid_datetime_time _ Vb) as Tb.
  pose proof (datetime_gt_fields _ _ Hgt) as Hf.
  unfold Py.sub_days. apply Z.div_pos; [|unfold Py.us_per_day; lia].
  unfold Py.time_us, Py.us_per_day.
  destruct (Py.date_compare (Py.date_of b) (Py.date_of a)) eqn:Ec.
  - assert (Py.toordinal (Py.date_of b) = Py.toordinal (Py.date_of a)) as ->.
    { unfold Py.date_compare in Ec.
      cbn [Py.date_of Py.d_year Py.d_month Py.d_day] in Ec.
      destruct (Z.compare_spec (Py.year b) (Py.year a)); try discriminate.
      destruct (Z.compare_spec (Py.month b) (Py.month a)); try discriminate.
      destruct (Z.compare_spec (Py.day b) (Py.day a)); try discriminate.
      apply toordinal_eq; assumption. }
    assert (Py.year b = Py.year a /\ Py.month b = Py.month a
            /\ Py.day b = Py.day a) as (Ey & Em & Ed).
    { unfold Py.date_compare in Ec.
      cbn [Py.date_of Py.d_year Py.d_month Py.d_day] in Ec.
      destruct (Z.compare_spec (Py.year b) (Py.year a)); try discriminate.
      destruct (Z.compare_spec (Py.month b) (Py.month a)); try discriminate.
      destruct (Z.compare_spec (Py.day b) (Py.day a)); try discriminate.
      auto. }
    lia.
  - pose proof (toordinal_lt _ _ (valid_datetime_date _ Vb)
                  (valid_datetime_date _ Va) Ec).
    lia.
  - exfalso. unfold Py.date_compare in Ec.
    cbn [Py.date_of Py.d_year Py.d_month Py.d_day] in Ec.
    destruct (Z.compare_spec (Py.year b) (Py.year a)); try discriminate;
      [|lia].
    destruct (Z.compare_spec (Py.month b) (Py.month a)); try discriminate;
      [|lia].
    destruct (Z.compare_spec (Py.day b) (Py.day a)); try discriminate; lia.
Qed.

Lemma ascii_compare_trans_lt a b c :
  Ascii.compare a b = Lt -> Ascii.compare b c = Lt -> Ascii.compare a c = Lt.
Proof.
  unfold Ascii.compare. rewrite !N.compare_lt_iff. lia.
Qed.

(** The byte order of strings is transitive. *)
Lemma string_leb_trans : transitive_leb String.leb.
Proof.
  unfold transitive_leb, String.leb. intros a.
  induction a as [|x a IH]; intros [|y b] [|z c]; simpl; try congruence.
  destruct (Ascii.compare x y) eqn:Exy; try congruence.
  - apply Ascii.compare_eq_iff in Exy. subst y.
    destruct (Ascii.compare x z); try congruence. apply IH.
  - destruct (Ascii.compare y z) eqn:Eyz; try congruence.
    + apply Ascii.compare_eq_iff in Eyz. subst z. rewrite Exy. congruence.
    + rewrite (ascii_compare_trans_lt _ _ _ Exy Eyz). congruence.
Qed.

Lemma datetime_leb_fields a b :
  Py.datetime_leb a b = true ->
  Py.year a < Py.year b \/
  (Py.year a = Py.year b /\
   (Py.month a < Py.month b \/
    (Py.month a = Py.month b /\
     (Py.day a < Py.day b \/
      (Py.day a = Py.day b /\
       (Py.hour a < Py.hour b \/
        (Py.hour a = Py.hour b /\
         (Py.minute a < Py.minute b \/
          (Py.minute a = Py.minute b /\
           (Py.second a < Py.second b \/
            (Py.second a = Py.second b /\
             Py.microsecond a <= Py.microsecond b))))))))))).
Proof.
  unfold Py.datetime_leb, Py.datetime_compare. cbn [Py.tuple_compare].
  destruct (Z.compare_spec (Py.year a) (Py.year b)); [|lia|discriminate].
  destruct (Z.compare_spec (Py.month a) (Py.month b)); [|lia|discriminate].
  destruct (Z.compare_spec (Py.day a) (Py.day b)); [|lia|discriminate].
  destruct (Z.compare_spec (Py.hour a) (Py.hour b)); [|lia|discriminate].
  destruct (Z.compare_spec (Py.minute a) (Py.minute b)); [|lia|discriminate].
  destruct (Z.compare_spec (Py.second a) (Py.second b)); [|lia|discriminate].
  destruct (Z.compare_spec (Py.microsecond a) (Py.microsecond b));
    [lia|lia|discriminate].
Qed.

Lemma datetime_le_trans a b c :
  datetime_le a b -> datetime_le b c -> datetime_le a c.
Proof.
  unfold datetime_le. intros Hab Hbc.
  apply datetime_leb_fields in Hab, Hbc.
  destruct (Py.datetime_leb a c) eqn:E; [reflexivity|].
  apply datetime_gt_fields in E. lia.
Qed.

Lemma order_by_strongly_sorted {A} (leb : A -> A -> bool) l :
  total_leb leb -> transitive_leb leb ->
  StronglySorted (fun a b => leb a b = true) (order_by leb l).
Proof.
  intros Htot Htrans. apply Sorted_StronglySorted.
  - intros a b c. apply Htrans.
  - apply order_by_sorted. exact Htot.
Qed.

Lemma listed_tickets_view s :
  listed_tickets (view_guest_requests s)
  = order_by (fun a b => Py.datetime_leb (created_at b) (created_at a))
      (List.filter (fun t => String.eqb (status t) "open") (dh_tickets s)).
Proof.
  unfold view_guest_requests. destruct (order_by _ _); reflexivity.
Qed.

(** X1.  [view_guest_requests] lists every ticket whose status is open,
    each as often as the table holds it, and no other; a ticket is never
    listed before one created later; and the reply is [NoOpenRequests]
    exactly when no ticket is open. *)
Theorem view_guest_requests_open_newest_first s :
  Permutation (listed_tickets (view_guest_requests s))
    (List.filter (fun t => String.eqb (status t) "open") (dh_tickets s)) /\
  StronglySorted (fun a b => datetime_le (created_at b) (created_at a))
    (listed_tickets (view_guest_requests s)) /\
  (view_guest_requests s = NoOpenRequests <->
   forall t, In t (dh_tickets s) -> status t <> "open").
Proof.
  rewrite listed_tickets_view. split; [apply order_by_perm|]. split.
  - apply (order_by_strongly_sorted
             (fun a b => Py.datetime_leb (created_at b) (created_at a))).
    + intros a b.
      destruct (datetime_leb_total (created_at a) (created_at b)); auto.
    + intros a b c Hab Hbc.
      exact (datetime_le_trans _ _ _ Hbc Hab).
  - unfold view_guest_requests.
    destruct (order_by _ _) as [|t0 l] eqn:E.
    + apply order_by_nil in E. split; [|reflexivity]. intros _ t Hin Hopen.
      assert (In t (List.filter (fun t => String.eqb (status t) "open")
                                (dh_tickets s))) as Hf.
      { apply filter_In. split; [exact Hin|]. apply String.eqb_eq. exact Hopen. }
      rewrite E in Hf. exact Hf.
    + split; [discriminate|]. intros Hnone. exfalso.
      assert (In t0 (List.filter (fun t => String.eqb (status t) "open")
                                 (dh_tickets s))) as Hf.
      { eapply Permutation_in; [apply order_by_perm|].
        rewrite E. left. reflexivity. }
      apply filter_In in Hf. destruct Hf as [Hin Hopen].
      apply String.eqb_eq in Hopen. exact (Hnone t0 Hin Hopen).
Qed.

Lemma listed_room_types_list leb s :
  listed_room_types (list_room_types leb s)
  = order_by (fun a b => leb (rt_room_type a) (rt_room_type b))
             (dh_roomtypes s).
Proof.
  unfold list_room_types. destruct (order_by _ _); reflexivity.
Qed.

(** X2.  Under a collation that orders any two strings and is
    transitive, [list_room_types] lists every row of [dh_roomtypes] once,
    in ascending order of [room_type]; the reply is [NoRoomTypes] exactly
    when the table is empty. *)
Theorem list_room_types_sorted leb s :
  total_leb leb -> transitive_leb leb ->
  Permutation (listed_room_types (list_room_types leb s)) (dh_roomtypes s) /\
  StronglySorted (fun a b => leb (rt_room_type a) (rt_room_type b) = true)
    (listed_room_types (list_room_types leb s)) /\
  (list_room_types leb s = NoRoomTypes <-> dh_roomtypes s = []).
Proof.
  intros Htot Htrans. rewrite listed_room_types_list.
  split; [apply order_by_perm|]. split.
  - apply (order_by_strongly_sorted
             (fun a b => leb (rt_room_type a) (rt_room_type b))).
    + intros a b. apply Htot.
    + intros a b c. apply Htrans.
  - unfold list_room_types.
    destruct (order_by _ _) as [|t0 l] eqn:E.
    + apply order_by_nil in E. tauto.
    + split; [discriminate|]. intros Hnil. rewrite Hnil in E. discriminate E.
Qed.

Lemma list_room_types_sorted_witness :
  total_leb String.leb /\ transitive_leb String.leb /\
  StronglySorted
    (fun a b => String.leb (rt_room_type a) (rt_room_type b) = true)
    (listed_room_types (list_room_types String.leb Sample.empty_motel)).
Proof.
  split; [exact String.leb_total|]. split; [exact string_leb_trans|].
  exact (proj1 (proj2 (list_room_types_sorted String.leb Sample.empty_motel
                         String.leb_total string_leb_trans))).
Defined.

Example sample_room_types :
  list_room_types String.leb Sample.empty_motel
  = RoomTypes [mk_roomtype "Deluxe" 12000; mk_roomtype "Standard" 8000].
Proof. reflexivity. Qed.

(* ===================================================================== *)
(** ** The life of a ticket *)
(* ===================================================================== *)

Lemma raise_guest_request_given now rn description s r :
  truthy rn = Some r ->
  raise_guest_request now rn description s
  = (TicketRaised (dh_tickets_id_seq s) r description,
     mk_store (dh_rooms s) (dh_roomtypes s) (dh_bookings s)
       (dh_tickets s ++ [new_ticket now s r description])
       (dh_tickets_id_seq s + 1)).
Proof. unfold raise_guest_request. intros ->. reflexivity. Qed.

Lemma close_guest_request_tickets ticket_id s :
  dh_tickets (snd (close_guest_request ticket_id s)) = dh_tickets s \/
  exists t, dh_tickets (snd (close_guest_request ticket_id s))
            = update_closed t (dh_tickets s).
Proof.
  unfold close_guest_request.
  destruct (truthy_int ticket_id) as [t|]; [|left; reflexivity].
  destruct (find _ _); [|left; reflexivity].
  right. exists t. reflexivity.
Qed.

Lemma close_guest_request_seq ticket_id s :
  dh_tickets_id_seq (snd (close_guest_request ticket_id s))
  = dh_tickets_id_seq s.
Proof.
  unfold close_guest_request.
  destruct (truthy_int ticket_id) as [t|]; [|reflexivity].
  destruct (find _ _); reflexivity.
Qed.

Lemma update_closed_In t l tk :
  In tk (update_closed t l) ->
  exists tk0, In tk0 l /\ id tk = id tk0.
Proof.
  unfold update_closed. rewrite in_map_iff. intros (tk0 & <- & Hin).
  exists tk0. split; [exact Hin|]. destruct (id tk0 =? t); reflexivity.
Qed.

Lemma update_closed_absent t l :
  (forall tk, In tk l -> id tk <> t) -> update_closed t l = l.
Proof.
  intros Habs. unfold update_closed.
  rewrite <- (map_id l) at 2. apply map_ext_in.
  intros tk Hin. apply Habs in Hin. apply Z.eqb_neq in Hin.
  rewrite Hin. reflexivity.
Qed.

(** X3.  The tickets table stays as the sequence leaves it through every
    call of [raise_guest_request] and of [close_guest_request]; and on
    such a table the id that [raise_guest_request] returns is the id of no
    earlier ticket.  A request is raised for any room number that is not
    empty, registered or not. *)
Theorem tickets_ok_preserved now rn description ticket_id s :
  tickets_ok s ->
  tickets_ok (snd (raise_guest_request now rn description s)) /\
  tickets_ok (snd (close_guest_request ticket_id s)) /\
  (forall r, truthy rn = Some r ->
     fst (raise_guest_request now rn description s)
     = TicketRaised (dh_tickets_id_seq s) r description /\
     forall t, In t (dh_tickets s) -> id t <> dh_tickets_id_seq s).
Proof.
  intros (Hseq & Hids & Hnd). split; [|split].
  - unfold raise_guest_request.
    destruct (truthy rn) as [r|];
      [|exact (conj Hseq (conj Hids Hnd))].
    cbn [snd]. unfold tickets_ok.
    cbn [dh_tickets dh_tickets_id_seq]. split; [lia|]. split.
    + intros t Hin. apply in_app_or in Hin. destruct Hin as [Hin | [<- | []]].
      * apply Hids in Hin. lia.
      * cbn [id]. lia.
    + rewrite map_app. cbn [map id].
      apply List.NoDup_app; [exact Hnd | repeat constructor; intros [] |].
      intros a Hin [<- | []]. apply in_map_iff in Hin.
      destruct Hin as (t & Hid & Hin). apply Hids in Hin. lia.
  - unfold tickets_ok. rewrite close_guest_request_seq.
    split; [exact Hseq|].
    destruct (close_guest_request_tickets ticket_id s) as [-> | (t & ->)];
      [split; assumption|].
    split.
    + intros tk Hin. apply update_closed_In in Hin.
      destruct Hin as (tk0 & Hin & ->). apply Hids. exact Hin.
    + rewrite update_closed_ids. exact Hnd.
  - intros r Hr. rewrite (raise_guest_request_given _ _ _ _ _ Hr).
    split; [reflexivity|]. intros t Hin. apply Hids in Hin. lia.
Qed.

Lemma sample_tickets_ok : tickets_ok Sample.with_ticket.
Proof.
  split; [reflexivity|]. split.
  - intros t [<- | []]. split; reflexivity.
  - repeat constructor. intros [].
Defined.

Lemma tickets_ok_preserved_witness :
  tickets_ok Sample.with_ticket /\
  tickets_ok (snd (raise_guest_request Sample.now (Some "102")
                     "Extra towels" Sample.with_ticket)).
Proof.
  split; [exact sample_tickets_ok|].
  exact (proj1 (tickets_ok_preserved Sample.now (Some "102") "Extra towels"
                  None Sample.with_ticket sample_tickets_ok)).
Defined.

Lemma In_listed_tickets s tk :
  In tk (listed_tickets (view_guest_requests s)) <->
  In tk (dh_tickets s) /\ status tk = "open".
Proof.
  rewrite listed_tickets_view. split.
  - intros Hin. apply (Permutation_in tk (order_by_perm _ _)) in Hin.
    apply filter_In in Hin. rewrite String.eqb_eq in Hin. exact Hin.
  - intros [Hin Hopen].
    apply (Permutation_in tk (Permutation_sym (order_by_perm _ _))).
    apply filter_In. rewrite String.eqb_eq. tauto.
Qed.

(** X4.  On a tickets table as the sequence leaves it, closing the id
    that [raise_guest_request] has just returned is confirmed, closes the
    new ticket, and leaves every earlier ticket as it was. *)
Theorem raise_then_close now rn description s r :
  tickets_ok s -> truthy rn = Some r ->
  close_guest_request (Some (dh_tickets_id_seq s))
    (snd (raise_guest_request now rn description s))
  = (TicketClosed (dh_tickets_id_seq s),
     mk_store (dh_rooms s) (dh_roomtypes s) (dh_bookings s)
       (dh_tickets s ++ [closed (new_ticket now s r description)])
       (dh_tickets_id_seq s + 1)).
Proof.
  intros (Hseq & Hids & _) Hr.
  rewrite (raise_guest_request_given _ _ _ _ _ Hr). cbn [snd].
  assert (forall tk, In tk (dh_tickets s) -> id tk <> dh_tickets_id_seq s)
    as Hfresh.
  { intros tk Hin. apply Hids in Hin. lia. }
  unfold close_guest_request. cbn [truthy_int].
  destruct (dh_tickets_id_seq s =? 0) eqn:E0;
    [apply Z.eqb_eq in E0; lia|].
  cbn [dh_tickets dh_rooms dh_roomtypes dh_bookings dh_tickets_id_seq].
  destruct (find_present (dh_tickets_id_seq s)
              (dh_tickets s ++ [new_ticket now s r description]))
    as (tk & ->).
  { exists (new_ticket now s r description). split; [|reflexivity].
    apply in_or_app. right. left. reflexivity. }
  f_equal. f_equal.
  unfold update_closed. rewrite map_app.
  fold (update_closed (dh_tickets_id_seq s) (dh_tickets s)).
  rewrite (update_closed_absent _ _ Hfresh).
  cbn [map new_ticket id]. rewrite Z.eqb_refl. reflexivity.
Qed.

Lemma raise_then_close_witness :
  tickets_ok Sample.with_ticket /\
  truthy (Some "102") = Some "102" /\
  fst (close_guest_request (Some 8)
         (snd (raise_guest_request Sample.now (Some "102") "Extra towels"
                 Sample.with_ticket)))
  = TicketClosed 8.
Proof.
  split; [exact sample_tickets_ok|]. split; [reflexivity|].
  exact (f_equal fst
           (raise_then_close Sample.now (Some "102") "Extra towels"
              Sample.with_ticket "102" sample_tickets_ok eq_refl)).
Defined.

(** X5.  A ticket raised for a room number that is not empty is among
    the tickets [view_guest_requests] lists next, open and assigned to
    housekeeping, and every ticket listed before is still listed. *)
Theorem raise_then_view now rn description s r :
  truthy rn = Some r ->
  let s' := snd (raise_guest_request now rn description s) in
  In (mk_ticket (dh_tickets_id_seq s) r description "open" "housekeeping" now)
     (listed_tickets (view_guest_requests s')) /\
  (forall tk, In tk (listed_tickets (view_guest_requests s)) ->
              In tk (listed_tickets (view_guest_requests s'))).
Proof.
  intros Hr. rewrite (raise_guest_request_given _ _ _ _ _ Hr). cbn [snd].
  split.
  - apply In_listed_tickets. cbn [dh_tickets]. split; [|reflexivity].
    apply in_or_app. right. left. reflexivity.
  - intros tk Hin. apply In_listed_tickets in Hin.
    apply In_listed_tickets. cbn [dh_tickets].
    split; [apply in_or_app; left|]; tauto.
Qed.

Lemma raise_then_view_witness :
  truthy (Some "102") = Some "102" /\
  In (mk_ticket 8 "102" "Extra towels" "open" "housekeeping" Sample.now)
     (listed_tickets
        (view_guest_requests
           (snd (raise_guest_request Sample.now (Some "102") "Extra towels"
                   Sample.with_ticket)))).
Proof.
  split; [reflexivity|].
  exact (proj1 (raise_then_view Sample.now (Some "102") "Extra towels"
                  Sample.with_ticket "102" eq_refl)).
Defined.

(** X6.  After [close_guest_request] has confirmed the closing of an id,
    [view_guest_requests] lists no ticket of that id, and lists a ticket
    of another id exactly when it listed it before. *)
Theorem close_then_view ticket_id s t :
  fst (close_guest_request ticket_id s) = TicketClosed t ->
  forall tk,
    In tk (listed_tickets
             (view_guest_requests (snd (close_guest_request ticket_id s)))) <->
    In tk (listed_tickets (view_guest_requests s)) /\ id tk <> t.
Proof.
  unfold close_guest_request.
  destruct (truthy_int ticket_id) as [t'|]; [|discriminate].
  destruct (find _ _); [|discriminate].
  cbn [fst snd]. intros [= ->] tk.
  rewrite !In_listed_tickets. cbn [dh_tickets].
  unfold update_closed. rewrite in_map_iff. split.
  - intros ((tk0 & Heq & Hin) & Hopen).
    destruct (id tk0 =? t) eqn:E.
    + subst tk. discriminate Hopen.
    + subst tk. apply Z.eqb_neq in E. tauto.
  - intros ((Hin & Hopen) & Hid). split; [|exact Hopen].
    exists tk. split; [|exact Hin].
    apply Z.eqb_neq in Hid. rewrite Hid. reflexivity.
Qed.

Lemma close_then_view_witness :
  fst (close_guest_request (Some 7) Sample.with_ticket) = TicketClosed 7 /\
  forall tk,
    In tk (listed_tickets
             (view_guest_requests
                (snd (close_guest_request (Some 7) Sample.with_ticket)))) <->
    In tk (listed_tickets (view_guest_requests Sample.with_ticket)) /\
    id tk <> 7.
Proof.
  split; [reflexivity|].
  exact (close_then_view (Some 7) Sample.with_ticket 7 eq_refl).
Defined.

(* ===================================================================== *)
(** ** Guests and booking sources *)
(* ===================================================================== *)

Lemma listed_guests_eq s :
  listed_guests (get_all_guests s)
  = nodup String.string_dec (map guest_name (dh_bookings s)).
Proof. unfold get_all_guests. destruct (nodup _ _); reflexivity. Qed.

(** X7.  [get_all_guests] lists each guest name of [dh_bookings] once and
    no other name; the reply is [NoGuestData] exactly when there is no
    booking. *)
Theorem get_all_guests_distinct s :
  List.NoDup (listed_guests (get_all_guests s)) /\
  (forall g, In g (listed_guests (get_all_guests s)) <->
             exists b, In b (dh_bookings s) /\ guest_name b = g) /\
  (get_all_guests s = NoGuestData <-> dh_bookings s = []).
Proof.
  rewrite listed_guests_eq. split; [apply List.NoDup_nodup|]. split.
  - intros g. rewrite nodup_In, in_map_iff. split.
    + intros (b & Hg & Hin). exists b. tauto.
    + intros (b & Hin & Hg). exists b. tauto.
  - unfold get_all_guests.
    destruct (nodup _ _) as [|g l] eqn:E.
    + split; [|reflexivity]. intros _.
      destruct (dh_bookings s) as [|b bs]; [reflexivity|].
      assert (In (guest_name b)
                 (nodup String.string_dec (map guest_name (b :: bs)))) as Hin.
      { apply nodup_In. left. reflexivity. }
      rewrite E in Hin. destruct Hin.
    + split; [discriminate|]. intros Hnil. rewrite Hnil in E. discriminate E.
Qed.

(** X8.  After [book_room] has committed a booking, [get_all_guests]
    lists its guest, and every guest listed before. *)
Theorem book_then_guest_listed
    lex now guest rn cin cout session st g r t_in t_out rm rate :
  bookable lex now guest rn cin cout session st g r t_in t_out rm rate ->
  let st' := snd (book_room lex now guest rn cin cout session st) in
  In g (listed_guests (get_all_guests (db st'))) /\
  (forall g', In g' (listed_guests (get_all_guests (db st))) ->
              In g' (listed_guests (get_all_guests (db st')))).
Proof.
  intros Hb. rewrite (book_room_commits _ _ _ _ _ _ _ _ _ _ _ _ _ _ Hb).
  cbn [snd db]. rewrite !listed_guests_eq. unfold insert_booking.
  cbn [dh_bookings]. rewrite map_app. split.
  - apply nodup_In. apply in_or_app. right. left. reflexivity.
  - intros g' Hin. apply nodup_In in Hin. apply nodup_In.
    apply in_or_app. left. exact Hin.
Qed.

Lemma book_then_guest_listed_witness :
  bookable Sample.lex Sample.now (Some "Bob") (Some "101")
    (Some "2025-08-19") (Some "2025-08-21") None
    (snd (book_room Sample.lex Sample.now (Some "Alice") (Some "101")
            (Some "2025-08-18") (Some "2025-08-20") None Sample.st0))
    "Bob" "101" (Sample.midnight 2025 8 19) (Sample.midnight 2025 8 21)
    (mk_room "101" "Standard" "available") (mk_roomtype "Standard" 8000) /\
  In "Bob"
     (listed_guests
        (get_all_guests
           (db (snd (book_room Sample.lex Sample.now (Some "Bob") (Some "101")
                       (Some "2025-08-19") (Some "2025-08-21") None
                       (snd (book_room Sample.lex Sample.now (Some "Alice")
                               (Some "101") (Some "2025-08-18")
                               (Some "2025-08-20") None Sample.st0))))))).
Proof.
  split; [exact sample_bob_bookable|].
  exact (proj1 (book_then_guest_listed _ _ _ _ _ _ _ _ _ _ _ _ _ _
                  sample_bob_bookable)).
Defined.

Lemma join_rows_some rows sources :
  join_rows rows = Some sources <-> rows = map Some sources.
Proof.
  revert sources. induction rows as [|[x|] rows IH]; intros sources; simpl.
  - split.
    + intros [= <-]. reflexivity.
    + destruct sources; [reflexivity | discriminate].
  - destruct (join_rows rows) as [l|].
    + split.
      * intros [= <-]. simpl. f_equal. apply IH. reflexivity.
      * destruct sources as [|y sources]; [discriminate|].
        simpl. intros [= -> Hrows]. apply IH in Hrows.
        injection Hrows as ->. reflexivity.
    + split; [discriminate|].
      destruct sources as [|y sources]; [discriminate|].
      simpl. intros [= -> Hrows]. apply IH in Hrows. discriminate Hrows.
  - split; [discriminate|]. destruct sources; discriminate.
Qed.

Lemma join_rows_none rows :
  join_rows rows = None <-> In None rows.
Proof.
  induction rows as [|[x|] rows IH]; simpl.
  - split; [discriminate | intros []].
  - destruct (join_rows rows).
    + split; [discriminate|]. intros [H | H]; [discriminate H|].
      apply IH in H. discriminate H.
    + split; [|reflexivity]. intros _. right. apply IH. reflexivity.
  - split; [|reflexivity]. intros _. left. reflexivity.
Qed.

(** X9.  [list_booking_sources] answers with the list of sources exactly
    when there are bookings and each has a source; the list then gives
    the source of every booking, in storage order and with repetitions.
    It answers with the [TypeError] text exactly when some booking has no
    source. *)
Theorem list_booking_sources_replies s :
  (forall sources,
      list_booking_sources s = BookingSources sources <->
      dh_bookings s <> [] /\
      map booking_source (dh_bookings s) = map Some sources) /\
  (list_booking_sources s = BookingSourcesTypeError <->
   exists b, In b (dh_bookings s) /\ booking_source b = None).
Proof.
  unfold list_booking_sources.
  destruct (dh_bookings s) as [|b bs]; cbn [map].
  - split.
    + intros sources. split; [discriminate | intros [H _]; contradiction].
    + split; [discriminate | intros (b & [] & _)].
  - destruct (join_rows (booking_source b :: map booking_source bs))
      as [l|] eqn:E.
    + split.
      * intros sources. split.
        -- intros [= <-]. split; [discriminate|].
           apply join_rows_some. exact E.
        -- intros [_ Hmap]. apply join_rows_some in Hmap.
           rewrite E in Hmap. injection Hmap as ->. reflexivity.
      * split; [discriminate|]. intros (b' & Hin & Hnone).
        assert (In None (booking_source b :: map booking_source bs)) as Hn.
        { rewrite <- Hnone. change (In (booking_source b')
                                      (map booking_source (b :: bs))).
          apply in_map. exact Hin. }
        apply join_rows_none in Hn. congruence.
    + split.
      * intros sources. split; [discriminate|]. intros [_ Hmap].
        apply join_rows_some in Hmap. congruence.
      * split; [|reflexivity]. intros _.
        apply join_rows_none in E.
        change (In None (map booking_source (b :: bs))) in E.
        apply in_map_iff in E. destruct E as (b' & Hnone & Hin).
        exists b'. tauto.
Qed.

(** X10.  [book_room] inserts a booking without a source, so after it
    has committed a booking [list_booking_sources] answers with the
    [TypeError] text, whatever the table held before. *)
Theorem book_then_sources_fail
    lex now guest rn cin cout session st g r t_in t_out rm rate :
  bookable lex now guest rn cin cout session st g r t_in t_out rm rate ->
  list_booking_sources
    (db (snd (book_room lex now guest rn cin cout session st)))
  = BookingSourcesTypeError.
Proof.
  intros Hb. rewrite (book_room_commits _ _ _ _ _ _ _ _ _ _ _ _ _ _ Hb).
  unfold list_booking_sources, insert_booking. cbn [snd db dh_bookings].
  rewrite map_app. cbn [map booking_source].
  assert (join_rows (map booking_source (dh_bookings (db st)) ++ [None])
          = None) as Hjoin.
  { apply join_rows_none. apply in_or_app. right. left. reflexivity. }
  destruct (map booking_source (dh_bookings (db st)) ++ [None])%list eqn:E.
  - apply app_eq_nil in E. destruct E as [_ E]. discriminate E.
  - rewrite Hjoin. reflexivity.
Qed.

Lemma book_then_sources_fail_witness :
  bookable Sample.lex Sample.now (Some "Bob") (Some "101")
    (Some "2025-08-19") (Some "2025-08-21") None
    (snd (book_room Sample.lex Sample.now (Some "Alice") (Some "101")
            (Some "2025-08-18") (Some "2025-08-20") None Sample.st0))
    "Bob" "101" (Sample.midnight 2025 8 19) (Sample.midnight 2025 8 21)
    (mk_room "101" "Standard" "available") (mk_roomtype "Standard" 8000) /\
  list_booking_sources
    (db (snd (book_room Sample.lex Sample.now (Some "Bob") (Some "101")
                (Some "2025-08-19") (Some "2025-08-21") None
                (snd (book_room Sample.lex Sample.now (Some "Alice")
                        (Some "101") (Some "2025-08-18")
                        (Some "2025-08-20") None Sample.st0)))))
  = BookingSourcesTypeError.
Proof.
  split; [exact sample_bob_bookable|].
  exact (book_then_sources_fail _ _ _ _ _ _ _ _ _ _ _ _ _ _
           sample_bob_bookable).
Defined.

(* ===================================================================== *)
(** ** The top booking source *)
(* ===================================================================== *)

Lemma source_eqb_eq a b : source_eqb a b = true <-> a = b.
Proof.
  destruct a as [x|], b as [y|]; simpl; try (split; congruence).
  rewrite String.eqb_eq. split; congruence.
Qed.

Lemma source_eqb_neq a b : source_eqb a b = false <-> a <> b.
Proof.
  rewrite <- source_eqb_eq. destruct (source_eqb a b); split; congruence.
Qed.

Lemma sum_app l1 l2 :
  fold_right Z.add 0 (l1 ++ l2)
  = fold_right Z.add 0 l1 + fold_right Z.add 0 l2.
Proof. induction l1 as [|x l1 IH]; simpl; lia. Qed.

Lemma source_total_snoc k P b :
  source_total k (P ++ [b])
  = source_total k P
    + (if source_eqb (booking_source b) k then total_amount b else 0).
Proof.
  unfold source_total. rewrite List.filter_app, map_app, sum_app. f_equal.
  simpl. destruct (source_eqb (booking_source b) k); simpl; lia.
Qed.

Lemma source_total_absent k P :
  (forall b, In b P -> booking_source b <> k) -> source_total k P = 0.
Proof.
  intros Habs. unfold source_total.
  induction P as [|b P IH]; [reflexivity|]. simpl.
  assert (source_eqb (booking_source b) k = false) as ->.
  { apply source_eqb_neq. apply Habs. left. reflexivity. }
  apply IH. intros b' Hin. apply Habs. right. exact Hin.
Qed.

Lemma add_to_group_keys k v G k' :
  In k' (map fst (add_to_group k v G)) <-> k' = k \/ In k' (map fst G).
Proof.
  induction G as [|[k1 v1] G IH]; simpl.
  - intuition.
  - destruct (source_eqb k k1) eqn:E; simpl.
    + apply source_eqb_eq in E. subst k1. intuition.
    + rewrite IH. intuition.
Qed.

Lemma add_to_group_NoDup k v G :
  List.NoDup (map fst G) -> List.NoDup (map fst (add_to_group k v G)).
Proof.
  induction G as [|[k1 v1] G IH]; simpl; intros Hnd.
  - repeat constructor. intros [].
  - apply List.NoDup_cons_iff in Hnd. destruct Hnd as [Hnotin Hnd].
    destruct (source_eqb k k1) eqn:E; simpl.
    + constructor; assumption.
    + constructor; [|auto]. rewrite add_to_group_keys.
      apply source_eqb_neq in E. intros [-> | H]; [congruence | contradiction].
Qed.

Lemma add_to_group_In k v G k' v' :
  List.NoDup (map fst G) ->
  In (k', v') (add_to_group k v G) ->
  (k' <> k /\ In (k', v') G) \/
  (k' = k /\ ((exists v0, In (k, v0) G /\ v' = v0 + v) \/
              (~ In k (map fst G) /\ v' = v))).
Proof.
  induction G as [|[k1 v1] G IH]; simpl; intros Hnd Hin.
  - destruct Hin as [[= <- <-] | []]. right. split; [reflexivity|].
    right. tauto.
  - apply List.NoDup_cons_iff in Hnd. destruct Hnd as [Hnotin Hnd].
    destruct (source_eqb k k1) eqn:E.
    + apply source_eqb_eq in E. subst k1.
      destruct Hin as [[= <- <-] | Hin].
      * right. split; [reflexivity|]. left. exists v1. auto.
      * left. split; [|right; exact Hin]. intros ->. apply Hnotin.
        apply in_map_iff. exists (k, v'). auto.
    + apply source_eqb_neq in E.
      destruct Hin as [[= <- <-] | Hin].
      * left. split; [congruence | left; reflexivity].
      * destruct (IH Hnd Hin) as [[Hne H] | [-> [(v0 & H0 & Hv) | [Hno Hv]]]].
        -- left. auto.
        -- right. split; [reflexivity|]. left. exists v0. auto.
        -- right. split; [reflexivity|]. right. split; [|exact Hv].
           intros [H | H]; [congruence | contradiction].
Qed.

Lemma groups_of_step G P b :
  groups_of G P ->
  groups_of (add_to_group (booking_source b) (total_amount b) G) (P ++ [b]).
Proof.
  intros (Hnd & Hsum & Hkeys). split; [|split].
  - apply add_to_group_NoDup. exact Hnd.
  - intros k v Hin. rewrite source_total_snoc.
    destruct (add_to_group_In _ _ _ _ _ Hnd Hin)
      as [[Hne H] | [-> [(v0 & H0 & ->) | [Hno ->]]]].
    + destruct (Hsum k v H) as (-> & b0 & Hb0 & Hk).
      assert (source_eqb (booking_source b) k = false) as ->.
      { apply source_eqb_neq. congruence. }
      split; [lia|]. exists b0. split; [apply in_or_app; left|]; assumption.
    + destruct (Hsum _ _ H0) as (-> & _).
      assert (source_eqb (booking_source b) (booking_source b) = true) as ->.
      { apply source_eqb_eq. reflexivity. }
      split; [reflexivity|]. exists b.
      split; [apply in_or_app; right; left|]; reflexivity.
    + assert (source_eqb (booking_source b) (booking_source b) = true) as ->.
      { apply source_eqb_eq. reflexivity. }
      rewrite source_total_absent.
      * split; [reflexivity|]. exists b.
        split; [apply in_or_app; right; left|]; reflexivity.
      * intros b0 Hb0 Heq. apply Hno. rewrite <- Heq. apply Hkeys. exact Hb0.
  - intros b0 Hin. apply add_to_group_keys.
    apply in_app_or in Hin. destruct Hin as [Hin | [<- | []]].
    + right. apply Hkeys. exact Hin.
    + left. reflexivity.
Qed.

Lemma groups_of_fold bs : forall G P,
  groups_of G P ->
  groups_of
    (fold_left (fun groups b =>
                  add_to_group (booking_source b) (total_amount b) groups)
               bs G)
    (P ++ bs).
Proof.
  induction bs as [|b bs IH]; intros G P H; simpl.
  - rewrite app_nil_r. exact H.
  - replace (P ++ b :: bs)%list with ((P ++ [b]) ++ bs)%list
      by (rewrite <- app_assoc; reflexivity).
    apply IH. apply groups_of_step. exact H.
Qed.

Lemma groups_of_group_sums bs : groups_of (group_sums bs) bs.
Proof.
  apply (groups_of_fold bs [] []).
  split; [constructor|]. split; [intros k v [] | intros b []].
Qed.

Lemma max_by_sum_spec rest : forall best,
  In (max_by_sum best rest) (best :: rest) /\
  forall x, In x (best :: rest) -> snd x <= snd (max_by_sum best rest).
Proof.
  induction rest as [|y rest IH]; intros best; simpl.
  - split; [left; reflexivity|]. intros x [<- | []]. lia.
  - destruct (IH (if snd best <? snd y then y else best)) as [Hin Hmax].
    split.
    + destruct Hin as [Heq | Hin]; [|right; right; exact Hin].
      destruct (snd best <? snd y); [right; left | left]; exact Heq.
    + intros x Hx.
      assert (snd best <= snd (max_by_sum
                                 (if snd best <? snd y then y else best) rest)
              /\ snd y <= snd (max_by_sum
                                 (if snd best <? snd y then y else best) rest))
        as [Hb Hy].
      { pose proof (Hmax _ (or_introl eq_refl)) as H0.
        destruct (snd best <? snd y) eqn:E.
        - apply Z.ltb_lt in E. lia.
        - apply Z.ltb_ge in E. lia. }
      destruct Hx as [<- | [<- | Hx]]; [exact Hb | exact Hy |].
      apply Hmax. right. exact Hx.
Qed.

(** X11.  [get_top_booking_source] answers [NoBookingData] exactly when
    there is no booking.  When there are bookings it names a source: the
    source of some booking ([None] for bookings without one); the revenue
    it gives is the total of the amounts of the bookings of that source,
    and no source has a larger total. *)
Theorem get_top_booking_source_is_max s :
  (get_top_booking_source s = NoBookingData <-> dh_bookings s = []) /\
  (dh_bookings s <> [] ->
   exists k v,
     get_top_booking_source s = TopBookingSource k v /\
     (exists b, In b (dh_bookings s) /\ booking_source b = k) /\
     v = source_total k (dh_bookings s) /\
     forall b, In b (dh_bookings s) ->
               source_total (booking_source b) (dh_bookings s) <= v).
Proof.
  pose proof (groups_of_group_sums (dh_bookings s)) as Hg.
  unfold get_top_booking_source.
  destruct (group_sums (dh_bookings s)) as [|first rest] eqn:E;
    destruct Hg as (Hnd & Hsum & Hkeys).
  - assert (dh_bookings s = []) as Hnil.
    { destruct (dh_bookings s) as [|b bs]; [reflexivity|].
      destruct (Hkeys b (or_introl eq_refl)). }
    split; [tauto|]. intros Hne. contradiction.
  - destruct (max_by_sum_spec rest first) as [Hin Hmax].
    split.
    + split; [discriminate|]. intros Hnil. rewrite Hnil in E. discriminate E.
    + intros _.
      destruct (max_by_sum first rest) as [k v] eqn:Em. cbn [fst snd] in *.
      exists k, v. split; [reflexivity|].
      destruct (Hsum k v Hin) as (Hv & Hex).
      split; [exact Hex|]. split; [exact Hv|].
      intros b Hb. apply Hkeys in Hb. apply in_map_iff in Hb.
      destruct Hb as ([k' v'] & Hk & Hin'). cbn [fst] in Hk. subst k'.
      destruct (Hsum _ _ Hin') as (<- & _).
      apply (Hmax _ Hin').
Qed.

(** Two bookings from the web and one by phone: the web leads. *)
Lemma get_top_booking_source_is_max_witness :
  dh_bookings Fixtures.with_sources <> [] /\
  exists k v,
    get_top_booking_source Fixtures.with_sources = TopBookingSource k v /\
    (exists b, In b (dh_bookings Fixtures.with_sources)
               /\ booking_source b = k) /\
    v = source_total k (dh_bookings Fixtures.with_sources) /\
    forall b, In b (dh_bookings Fixtures.with_sources) ->
              source_total (booking_source b)
                           (dh_bookings Fixtures.with_sources) <= v.
Proof.
  assert (dh_bookings Fixtures.with_sources <> []) as Hne by discriminate.
  split; [exact Hne|].
  exact (proj2 (get_top_booking_source_is_max Fixtures.with_sources) Hne).
Defined.

Example sample_top_source :
  get_top_booking_source Fixtures.with_sources
  = TopBookingSource (Some "web") 32000.
Proof. reflexivity. Qed.

(* ===================================================================== *)
(** ** Revenue and room details *)
(* ===================================================================== *)

(** X12.  For a date it accepts, [get_revenue_by_date] answers
    [NoRevenue] exactly when no booking has that booking date; when some
    booking has, it answers with the amounts of all such bookings, in
    storage order, even if they add up to nothing. *)
Theorem get_revenue_by_date_replies lex now same_day date s d pd :
  truthy date = Some d -> parse_date lex now d = Some pd ->
  (get_revenue_by_date lex now same_day date s = NoRevenue pd <->
   forall b, In b (dh_bookings s) ->
             same_day (booking_date b) (Py.date_of pd) = false) /\
  ((exists b, In b (dh_bookings s) /\
              same_day (booking_date b) (Py.date_of pd) = true) ->
   get_revenue_by_date lex now same_day date s
   = TotalRevenue pd
       (map total_amount
          (List.filter (fun b => same_day (booking_date b) (Py.date_of pd))
                       (dh_bookings s)))).
Proof.
  intros Hd Hp. unfold get_revenue_by_date. rewrite Hd, Hp.
  destruct (List.filter _ (dh_bookings s)) as [|b0 l] eqn:E; cbn [map].
  - split.
    + split; [|reflexivity]. intros _ b Hin.
      destruct (same_day (booking_date b) (Py.date_of pd)) eqn:Eb;
        [|reflexivity].
      assert (In b (List.filter
                      (fun b => same_day (booking_date b) (Py.date_of pd))
                      (dh_bookings s))) as Hf
          by (apply filter_In; auto).
      rewrite E in Hf. destruct Hf.
    + intros (b & Hin & Hb).
      assert (In b (List.filter
                      (fun b => same_day (booking_date b) (Py.date_of pd))
                      (dh_bookings s))) as Hf
          by (apply filter_In; auto).
      rewrite E in Hf. destruct Hf.
  - split; [|reflexivity]. split; [discriminate|]. intros Hnone.
    assert (In b0 (List.filter
                     (fun b => same_day (booking_date b) (Py.date_of pd))
                     (dh_bookings s))) as Hf
        by (rewrite E; left; reflexivity).
    apply filter_In in Hf. destruct Hf as [Hin Hb].
    rewrite (Hnone b0 Hin) in Hb. discriminate Hb.
Qed.

Lemma find_room_none r rooms :
  find (fun x => String.eqb (r_room_number x) r) rooms = None <->
  forall rm, In rm rooms -> r_room_number rm <> r.
Proof.
  split.
  - intros Hf rm Hin Heq. pose proof (find_none _ _ Hf rm Hin) as H.
    simpl in H. apply String.eqb_neq in H. contradiction.
  - intros Hall. destruct (find _ rooms) as [rm|] eqn:E; [|reflexivity].
    apply find_some in E. destruct E as [Hin Heq].
    apply String.eqb_eq in Heq. exfalso. exact (Hall rm Hin Heq).
Qed.

(** X13.  For a room number that is not empty, [get_room_details]
    answers [NoRoomDetails] exactly when no room has the number; when a
    room has it, the answer gives that number with the type and status of
    a room of that number; and a booking request that passes the
    parameter and date checks is answered with [RoomNotFound] in exactly
    the case in which [get_room_details] finds no details. *)
Theorem get_room_details_agrees_with_book_room rn r :
  truthy rn = Some r ->
  (forall s,
      (get_room_details rn s = NoRoomDetails r <->
       forall rm, In rm (dh_rooms s) -> r_room_number rm <> r) /\
      ((exists rm, In rm (dh_rooms s) /\ r_room_number rm = r) ->
       exists ty status_,
         get_room_details rn s = RoomDetails r ty status_ /\
         In (mk_room r ty status_) (dh_rooms s)) /\
      (forall n ty status_,
          get_room_details rn s = RoomDetails n ty status_ ->
          n = r /\ In (mk_room n ty status_) (dh_rooms s))) /\
  (forall lex now guest cin cout session st g t_in t_out,
      truthy (resolve_guest_name (memory st) guest session) = Some g ->
      valid_stay lex now cin cout t_in t_out ->
      (fst (book_room lex now guest rn cin cout session st) = RoomNotFound r <->
       get_room_details rn (db st) = NoRoomDetails r)).
Proof.
  intros Hr. split.
  - intros s. unfold get_room_details. rewrite Hr.
    destruct (find _ (dh_rooms s)) as [rm|] eqn:E.
    + apply find_some in E as Hsome. destruct Hsome as [Hin Heq].
      apply String.eqb_eq in Heq.
      split; [|split].
      * split; [discriminate|]. intros Hall.
        apply find_room_none in Hall. congruence.
      * intros _. exists (r_room_type rm), (r_status rm).
        rewrite Heq. split; [reflexivity|].
        rewrite <- Heq. destruct rm; exact Hin.
      * intros n ty st [= <- <- <-]. split; [exact Heq|].
        destruct rm; exact Hin.
    + split; [|split].
      * split; [|reflexivity]. intros _. apply find_room_none. exact E.
      * intros (rm & Hin & Heq). exfalso.
        exact (proj1 (find_room_none _ _) E rm Hin Heq).
      * discriminate.
  - intros lex now guest cin cout session st g t_in t_out Hg
           (a & b & Ha & Hb & Pa & Pb & Hpast & Hord).
    unfold book_room, get_room_details.
    rewrite Hg, Hr, Ha, Hb, Pa, Pb, Hpast, Hord.
    destruct (find _ (dh_rooms (db st))) as [rm|]; [|tauto].
    destruct (find _ (dh_roomtypes (db st)));
      [destruct (truthy session)|]; split; discriminate.
Qed.

Lemma get_room_details_agrees_with_book_room_witness :
  truthy (Some "102") = Some "102" /\
  (exists rm, In rm (dh_rooms Sample.empty_motel) /\ r_room_number rm = "102")
  /\
  exists ty status_,
    get_room_details (Some "102") Sample.empty_motel
    = RoomDetails "102" ty status_ /\
    In (mk_room "102" ty status_) (dh_rooms Sample.empty_motel).
Proof.
  split; [reflexivity|].
  assert (exists rm, In rm (dh_rooms Sample.empty_motel)
                     /\ r_room_number rm = "102") as Hex.
  { exists (mk_room "102" "Deluxe" "available").
    split; [right; left; reflexivity | reflexivity]. }
  split; [exact Hex|].
  exact (proj1 (proj2 (proj1 (get_room_details_agrees_with_book_room
                                (Some "102") "102" eq_refl)
                         Sample.empty_motel)) Hex).
Defined.

Example sample_room_not_found :
  fst (book_room Sample.lex Sample.now (Some "Alice") (Some "103")
         (Some "2025-08-18") (Some "2025-08-20") None Sample.st0)
  = RoomNotFound "103" /\
  get_room_details (Some "103") (db Sample.st0) = NoRoomDetails "103".
Proof. split; reflexivity. Qed.

Lemma get_revenue_by_date_replies_witness :
  truthy (Some "2025-08-18") = Some "2025-08-18" /\
  parse_date Sample.lex Sample.now "2025-08-18"
  = Some (Sample.midnight 2025 8 18) /\
  get_revenue_by_date Sample.lex Sample.now
    (fun t d => Py.date_leb (Py.date_of t) d && Py.date_leb d (Py.date_of t))
    (Some "2025-08-18") Sample.one_stay
  = NoRevenue (Sample.midnight 2025 8 18).
Proof.
  split; [reflexivity|]. split; [reflexivity|].
  apply (proj1 (get_revenue_by_date_replies Sample.lex Sample.now
                  (fun t d => Py.date_leb (Py.date_of t) d
                              && Py.date_leb d (Py.date_of t))
                  (Some "2025-08-18") Sample.one_stay "2025-08-18"
                  (Sample.midnight 2025 8 18) eq_refl eq_refl)).
  intros b [<- | []]. reflexivity.
Defined.

(* ===================================================================== *)
(** ** More on [parse_date] *)
(* ===================================================================== *)

(** X14.  Whatever the string, a datetime that [parse_date] returns has
    passed the range checks of [datetime] and is not in a year before the
    current one. *)
Theorem parse_date_not_before_current_year lex now s t :
  parse_date lex now s = Some t ->
  Py.valid_datetime t = true /\ Py.year now <= Py.year t.
Proof.
  unfold parse_date, date_parser_parse.
  destruct (lex s) as [res|]; [|discriminate].
  destruct (Dateutil.build_naive res _) as [parsed|] eqn:E; [|discriminate].
  destruct (Py.year parsed <? Py.year now) eqn:Ey.
  - intros H. split; [exact (new_datetime_valid _ _ _ _ _ _ _ _ H)|].
    apply new_datetime_year in H. rewrite H.
    destruct (Py.date_leb _ _); lia.
  - intros [= <-]. split; [exact (new_datetime_valid _ _ _ _ _ _ _ _ E)|].
    apply Z.ltb_ge in Ey. exact Ey.
Qed.

Lemma parse_date_not_before_current_year_witness :
  parse_date Fixtures.lex Sample.now "2020-03-05"
  = Some (Sample.midnight 2026 3 5) /\
  Py.year Sample.now <= Py.year (Sample.midnight 2026 3 5).
Proof.
  split; [reflexivity|].
  exact (proj2 (parse_date_not_before_current_year Fixtures.lex Sample.now
                  "2020-03-05" (Sample.midnight 2026 3 5) eq_refl)).
Defined.

(** X15.  When the parser yields a year before the current one,
    [parse_date] moves the date to the year after the current one, never
    to the current year: against today a day of an earlier year is always
    past.  Month, day and time of day are kept; the result is [None] when
    that day does not exist in the new year. *)
Theorem parse_date_earlier_year lex now s parsed :
  date_parser_parse lex now s = Some parsed ->
  Py.year parsed < Py.year now ->
  parse_date lex now s = Py.replace_year parsed (Py.year now + 1) /\
  (forall t, parse_date lex now s = Some t ->
     Py.year t = Py.year now + 1 /\
     Py.month t = Py.month parsed /\ Py.day t = Py.day parsed /\
     Py.time_us t = Py.time_us parsed).
Proof.
  intros Hp Hy.
  assert (parse_date lex now s = Py.replace_year parsed (Py.year now + 1))
    as Heq.
  { unfold parse_date. rewrite Hp.
    apply Z.ltb_lt in Hy. rewrite Hy.
    assert (Py.date_leb (today now) (Py.date_of parsed) = false) as ->;
      [|reflexivity].
    unfold Py.date_leb, Py.date_compare, today, Py.date_of.
    cbn [Py.d_year Py.d_month Py.d_day].
    apply Z.ltb_lt in Hy. apply Z.lt_gt in Hy. unfold Z.gt in Hy.
    rewrite Hy. reflexivity. }
  split; [exact Heq|].
  intros t Ht. rewrite Heq in Ht. unfold Py.replace_year, Py.new_datetime in Ht.
  destruct (_ && _) in Ht; [|discriminate].
  injection Ht as <-. repeat split.
Qed.

Lemma parse_date_earlier_year_witness :
  date_parser_parse Fixtures.lex Sample.now "2024-02-29"
  = Some (Sample.midnight 2024 2 29) /\
  Py.year (Sample.midnight 2024 2 29) < Py.year Sample.now /\
  parse_date Fixtures.lex Sample.now "2024-02-29" = None.
Proof.
  split; [reflexivity|]. split; [reflexivity|].
  exact (proj1 (parse_date_earlier_year Fixtures.lex Sample.now "2024-02-29"
                  (Sample.midnight 2024 2 29) eq_refl eq_refl)).
Defined.

(* ===================================================================== *)
(** ** Bookings and availability together *)
(* ===================================================================== *)

Lemma listed_reply a b l :
  listed (match l with
          | [] => NoRoomsAvailable a b
          | _ :: _ => AvailableRooms a b l
          end) = l.
Proof. destruct l; reflexivity. Qed.

(** The listing of a reply, whether or not the dates pass the checks. *)
Lemma listed_check lex now cin cout s :
  listed (check_room_availability lex now cin cout s) = [] \/
  exists d_in d_out, forall s',
    listed (check_room_availability lex now cin cout s')
    = select_available s' d_in d_out.
Proof.
  unfold check_room_availability.
  destruct (truthy cin) as [a|]; [|left; reflexivity].
  destruct (truthy cout) as [b|]; [|left; reflexivity].
  destruct (parse_date lex now a) as [t_in|]; [|left; reflexivity].
  destruct (parse_date lex now b) as [t_out|]; [|left; reflexivity].
  destruct (Py.date_ltb _ _); [left; reflexivity|].
  destruct (Py.datetime_leb _ _); [left; reflexivity|].
  right. exists (Py.date_of t_in), (Py.date_of t_out). intros s'.
  apply listed_reply.
Qed.

Lemma not_in_conflict_more bookings bookings' d_in d_out rm :
  (forall b, In b bookings -> In b bookings') ->
  not_in_conflict bookings' d_in d_out rm = true ->
  not_in_conflict bookings d_in d_out rm = true.
Proof.
  intros Hsub. rewrite !not_in_conflict_spec. intros H b Hin. apply H.
  apply Hsub. exact Hin.
Qed.

Lemma book_room_rooms lex now guest rn cin cout session st :
  dh_rooms (db (snd (book_room lex now guest rn cin cout session st)))
  = dh_rooms (db st) /\
  forall b, In b (dh_bookings (db st)) ->
    In b (dh_bookings
            (db (snd (book_room lex now guest rn cin cout session st)))).
Proof.
  destruct (book_room_state lex now guest rn cin cout session st)
    as [-> | (b & ->)]; [tauto|].
  cbn [db insert_booking dh_rooms dh_bookings]. split; [reflexivity|].
  intros b' Hin. apply in_or_app. left. exact Hin.
Qed.

(** X16.  A call of [book_room], whatever its arguments and its reply,
    makes no room available: every room that [check_room_availability]
    lists afterwards, for any dates, it listed before. *)
Theorem book_room_never_frees_a_room
    lex now guest rn cin cout session st lex' now' cin' cout' :
  forall x,
    In x (listed (check_room_availability lex' now' cin' cout'
                    (db (snd (book_room lex now guest rn cin cout session st)))))
    -> In x (listed (check_room_availability lex' now' cin' cout' (db st))).
Proof.
  intros x.
  destruct (book_room_rooms lex now guest rn cin cout session st)
    as [Hrooms Hsub].
  destruct (listed_check lex' now' cin' cout'
              (db (snd (book_room lex now guest rn cin cout session st))))
    as [-> | (d_in & d_out & Heq)]; [intros []|].
  rewrite !Heq. destruct x as [n ty]. rewrite !select_available_In.
  intros (rm & Hin & Hn & Hty & Hfree). exists rm.
  rewrite Hrooms in Hin. repeat split; try assumption.
  exact (not_in_conflict_more _ _ _ _ _ Hsub Hfree).
Qed.

(** Room 102, listed after Alice's booking of room 101, was listed
    before it. *)
Lemma book_room_never_frees_a_room_witness :
  In ("102", "Deluxe")
     (listed (check_room_availability Sample.lex Sample.now
                (Some "2025-08-18") (Some "2025-08-20") (db Sample.st0))).
Proof.
  apply (book_room_never_frees_a_room Sample.lex Sample.now (Some "Alice")
           (Some "101") (Some "2025-08-18") (Some "2025-08-20") None
           Sample.st0 Sample.lex Sample.now
           (Some "2025-08-18") (Some "2025-08-20")).
  left. reflexivity.
Defined.

(** The row of a committed booking keeps its room out of every listing
    for days that meet its own. *)
Lemma booked_row_blocks
    lex now guest rn cin cout session st g r t_in t_out rm rate
    lex' now' cin' cout' q_in q_out ty :
  bookable lex now guest rn cin cout session st g r t_in t_out rm rate ->
  valid_stay lex' now' cin' cout' q_in q_out ->
  date_le (Py.date_of t_in) (Py.date_of q_out) ->
  date_le (Py.date_of q_in) (Py.date_of t_out) ->
  ~ In (r, ty)
       (listed (check_room_availability lex' now' cin' cout'
                  (db (snd (book_room lex now guest rn cin cout session st))))).
Proof.
  intros Hb Hv Ha Hc.
  rewrite (listed_valid _ _ _ _ _ _ _ Hv).
  rewrite (book_room_commits _ _ _ _ _ _ _ _ _ _ _ _ _ _ Hb).
  cbn [snd db]. rewrite select_available_In.
  intros (rm0 & _ & Hn & _ & Hfree).
  rewrite not_in_conflict_spec in Hfree.
  apply (Hfree (mk_booking g r (Py.date_of t_in) (Py.date_of t_out)
                  (rate_per_night rate * Py.sub_days t_out t_in) now None)).
  - cbn [insert_booking dh_bookings]. apply in_or_app. right. left.
    reflexivity.
  - cbn [b_room_number]. symmetry. exact Hn.
  - cbn [check_in_date check_out_date]. split; assumption.
Qed.

(** X17.  Once [book_room] has committed a booking of a room, that room
    is not listed by [check_room_availability] for any stay whose days,
    end days included, meet the days of the row; so it is not listed for
    the dates of the booking itself when the check-in day of the row is
    not after its check-out day. *)
Theorem booked_room_not_listed
    lex now guest rn cin cout session st g r t_in t_out rm rate :
  bookable lex now guest rn cin cout session st g r t_in t_out rm rate ->
  (forall lex' now' cin' cout' q_in q_out ty,
     valid_stay lex' now' cin' cout' q_in q_out ->
     date_le (Py.date_of t_in) (Py.date_of q_out) ->
     date_le (Py.date_of q_in) (Py.date_of t_out) ->
     ~ In (r, ty)
          (listed (check_room_availability lex' now' cin' cout'
                     (db (snd (book_room lex now guest rn cin cout
                                 session st)))))) /\
  (date_le (Py.date_of t_in) (Py.date_of t_out) ->
   forall ty,
     ~ In (r, ty)
          (listed (check_room_availability lex now cin cout
                     (db (snd (book_room lex now guest rn cin cout
                                 session st)))))).
Proof.
  intros Hb. split.
  - intros lex' now' cin' cout' q_in q_out ty Hv Ha Hc.
    exact (booked_row_blocks _ _ _ _ _ _ _ _ _ _ _ _ _ _ _ _ _ _ _ _ _
             Hb Hv Ha Hc).
  - intros Hle ty.
    pose proof Hb as (_ & _ & Hv & _).
    exact (booked_row_blocks _ _ _ _ _ _ _ _ _ _ _ _ _ _ _ _ _ _ _ _ _
             Hb Hv Hle Hle).
Qed.

Lemma sample_alice_bookable :
  bookable Sample.lex Sample.now (Some "Alice") (Some "101")
    (Some "2025-08-18") (Some "2025-08-20") None Sample.st0
    "Alice" "101" (Sample.midnight 2025 8 18) (Sample.midnight 2025 8 20)
    (mk_room "101" "Standard" "available") (mk_roomtype "Standard" 8000).
Proof.
  repeat split. exact sample_valid_18_20.
Defined.

Lemma booked_room_not_listed_witness :
  bookable Sample.lex Sample.now (Some "Alice") (Some "101")
    (Some "2025-08-18") (Some "2025-08-20") None Sample.st0
    "Alice" "101" (Sample.midnight 2025 8 18) (Sample.midnight 2025 8 20)
    (mk_room "101" "Standard" "available") (mk_roomtype "Standard" 8000) /\
  date_le (Py.date_of (Sample.midnight 2025 8 18))
          (Py.date_of (Sample.midnight 2025 8 20)) /\
  forall ty,
    ~ In ("101", ty)
         (listed (check_room_availability Sample.lex Sample.now
                    (Some "2025-08-18") (Some "2025-08-20")
                    (db (snd (book_room Sample.lex Sample.now (Some "Alice")
                                (Some "101") (Some "2025-08-18")
                                (Some "2025-08-20") None Sample.st0))))).
Proof.
  split; [exact sample_alice_bookable|]. split; [reflexivity|].
  exact (proj2 (booked_room_not_listed _ _ _ _ _ _ _ _ _ _ _ _ _ _
                  sample_alice_bookable) eq_refl).
Defined.

Example sample_only_102_left :
  check_room_availability Sample.lex Sample.now
    (Some "2025-08-18") (Some "2025-08-20")
    (db (snd (book_room Sample.lex Sample.now (Some "Alice") (Some "101")
                (Some "2025-08-18") (Some "2025-08-20") None Sample.st0)))
  = AvailableRooms (Sample.midnight 2025 8 18) (Sample.midnight 2025 8 20)
      [("102", "Deluxe")].
Proof. reflexivity. Qed.

(** X18.  Asking for a longer stay lists no new room: when the days of
    one valid request lie within the days of another, every room listed
    for the longer stay is listed for the shorter one. *)
Theorem longer_stay_lists_fewer_rooms
    lex now cin cout t_in t_out lex' now' cin' cout' q_in q_out s :
  valid_stay lex now cin cout t_in t_out ->
  valid_stay lex' now' cin' cout' q_in q_out ->
  date_le (Py.date_of t_in) (Py.date_of q_in) ->
  date_le (Py.date_of q_out) (Py.date_of t_out) ->
  forall x,
    In x (listed (check_room_availability lex now cin cout s)) ->
    In x (listed (check_room_availability lex' now' cin' cout' s)).
Proof.
  intros Hv Hq Hin Hout [n ty].
  rewrite (listed_valid _ _ _ _ _ _ _ Hv), (listed_valid _ _ _ _ _ _ _ Hq).
  rewrite !select_available_In.
  intros (rm & Hrm & Hn & Hty & Hfree). exists rm.
  repeat split; try assumption.
  rewrite not_in_conflict_spec in *.
  intros b Hb Hroom [H1 H2]. apply (Hfree b Hb Hroom). split.
  - exact (date_le_trans _ _ _ H1 Hout).
  - exact (date_le_trans _ _ _ Hin H2).
Qed.

Lemma sample_valid_19_20 :
  valid_stay Sample.lex Sample.now (Some "2025-08-19") (Some "2025-08-20")
    (Sample.midnight 2025 8 19) (Sample.midnight 2025 8 20).
Proof.
  exists "2025-08-19", "2025-08-20". repeat split; reflexivity.
Defined.

Lemma longer_stay_lists_fewer_rooms_witness :
  valid_stay Sample.lex Sample.now (Some "2025-08-18") (Some "2025-08-20")
    (Sample.midnight 2025 8 18) (Sample.midnight 2025 8 20) /\
  valid_stay Sample.lex Sample.now (Some "2025-08-19") (Some "2025-08-20")
    (Sample.midnight 2025 8 19) (Sample.midnight 2025 8 20) /\
  forall x,
    In x (listed (check_room_availability Sample.lex Sample.now
                    (Some "2025-08-18") (Some "2025-08-20") Sample.one_stay)) ->
    In x (listed (check_room_availability Sample.lex Sample.now
                    (Some "2025-08-19") (Some "2025-08-20") Sample.one_stay)).
Proof.
  split; [exact sample_valid_18_20|]. split; [exact sample_valid_19_20|].
  apply (longer_stay_lists_fewer_rooms _ _ _ _ _ _ _ _ _ _ _ _
           Sample.one_stay sample_valid_18_20 sample_valid_19_20);
    reflexivity.
Defined.

(** X19.  [book_room] writes one thing at most, a row appended to
    [dh_bookings], and it writes it exactly when its reply is one given
    after the commit: the confirmation, or the error text that follows
    the failed call of [memory.save].  With any other reply the state is
    returned as it was.  The rooms, the room types, the tickets, their
    sequence and the session memory are never touched. *)
Theorem book_room_writes_one_row_at_most
    lex now guest rn cin cout session st :
  let res := book_room lex now guest rn cin cout session st in
  (after_commit (fst res) = false -> snd res = st) /\
  (after_commit (fst res) = true ->
   exists b, dh_bookings (db (snd res)) = (dh_bookings (db st) ++ [b])%list) /\
  dh_rooms (db (snd res)) = dh_rooms (db st) /\
  dh_roomtypes (db (snd res)) = dh_roomtypes (db st) /\
  dh_tickets (db (snd res)) = dh_tickets (db st) /\
  dh_tickets_id_seq (db (snd res)) = dh_tickets_id_seq (db st) /\
  memory (snd res) = memory st.
Proof.
  unfold book_room.
  destruct (truthy (resolve_guest_name (memory st) guest session))
    as [g|]; [|cbn; intuition discriminate].
  destruct (truthy rn); [|cbn; intuition discriminate].
  destruct (truthy cin) as [a|]; [|cbn; intuition discriminate].
  destruct (truthy cout) as [b|]; [|cbn; intuition discriminate].
  destruct (parse_date lex now a); [|cbn; intuition discriminate].
  destruct (parse_date lex now b); [|cbn; intuition discriminate].
  destruct (Py.date_ltb _ _); [cbn; intuition discriminate|].
  destruct (Py.datetime_leb _ _); [cbn; intuition discriminate|].
  destruct (find _ (dh_rooms _)); [|cbn; intuition discriminate].
  destruct (find _ (dh_roomtypes _)); [|cbn; intuition discriminate].
  destruct (truthy session);
    cbn [fst snd after_commit db memory insert_booking dh_rooms dh_roomtypes
         dh_bookings dh_tickets dh_tickets_id_seq];
    (split; [discriminate|]); (split; [intros _; eexists; reflexivity|]);
    repeat split.
Qed.

(** A request under a session id: the error text, and the row all the
    same. *)
Example sample_error_reply_row_committed :
  after_commit
    (fst (book_room Sample.lex Sample.now (Some "Alice") (Some "101")
            (Some "2025-08-18") (Some "2025-08-20") (Some "t1") Sample.st0))
  = true /\
  is_booked
    (fst (book_room Sample.lex Sample.now (Some "Alice") (Some "101")
            (Some "2025-08-18") (Some "2025-08-20") (Some "t1") Sample.st0))
  = false /\
  length
    (dh_bookings
       (db (snd (book_room Sample.lex Sample.now (Some "Alice") (Some "101")
                   (Some "2025-08-18") (Some "2025-08-20") (Some "t1")
                   Sample.st0))))
  = S (length (dh_bookings (db Sample.st0))).
Proof. repeat split. Qed.

(** X20.  Every booking [book_room] commits has a number of nights that
    is not negative, and the amount of its row is the rate times that
    number; so the amount is not negative when the rate is not. *)
Theorem book_room_nights_nonnegative
    lex now guest rn cin cout session st g r t_in t_out rm rate :
  bookable lex now guest rn cin cout session st g r t_in t_out rm rate ->
  exists b,
    dh_bookings (db (snd (book_room lex now guest rn cin cout session st)))
    = (dh_bookings (db st) ++ [b])%list /\
    0 <= Py.sub_days t_out t_in /\
    total_amount b = rate_per_night rate * Py.sub_days t_out t_in /\
    (0 <= rate_per_night rate -> 0 <= total_amount b).
Proof.
  intros Hb. rewrite (book_room_commits _ _ _ _ _ _ _ _ _ _ _ _ _ _ Hb).
  destruct Hb as (_ & _ & (a & b & _ & _ & Pa & Pb & _ & Hgt) & _).
  assert (0 <= Py.sub_days t_out t_in) as Hn.
  { apply sub_days_nonneg; [| |exact Hgt]; eapply parse_date_valid; eauto. }
  eexists. split; [reflexivity|].
  cbn [total_amount].
  split; [exact Hn|]. split; [reflexivity|]. intros Hr. lia.
Qed.

Lemma book_room_nights_nonnegative_witness :
  bookable Sample.lex Sample.now (Some "Alice") (Some "101")
    (Some "2025-08-18") (Some "2025-08-20") None Sample.st0
    "Alice" "101" (Sample.midnight 2025 8 18) (Sample.midnight 2025 8 20)
    (mk_room "101" "Standard" "available") (mk_roomtype "Standard" 8000) /\
  exists b,
    dh_bookings
      (db (snd (book_room Sample.lex Sample.now (Some "Alice") (Some "101")
                  (Some "2025-08-18") (Some "2025-08-20") None Sample.st0)))
    = (dh_bookings (db Sample.st0) ++ [b])%list /\
    0 <= Py.sub_days (Sample.midnight 2025 8 20) (Sample.midnight 2025 8 18) /\
    total_amount b
    = rate_per_night (mk_roomtype "Standard" 8000)
      * Py.sub_days (Sample.midnight 2025 8 20) (Sample.midnight 2025 8 18) /\
    (0 <= rate_per_night (mk_roomtype "Standard" 8000) -> 0 <= total_amount b).
Proof.
  split; [exact sample_alice_bookable|].
  exact (book_room_nights_nonnegative _ _ _ _ _ _ _ _ _ _ _ _ _ _
           sample_alice_bookable).
Defined.

(** X21.  When both date strings of a request name days only, a booking
    [book_room] commits has at least one night, its nights are the days
    from the check-in day to the check-out day, and the amount of its row,
    which is also the amount of the reply, is the rate times those
    days. *)
Theorem book_room_date_only_request
    lex now guest rn cin cout session st g r t_in t_out rm rate
    a b res_a res_b :
  bookable lex now guest rn cin cout session st g r t_in t_out rm rate ->
  truthy cin = Some a -> lex a = Some res_a -> date_only res_a ->
  truthy cout = Some b -> lex b = Some res_b -> date_only res_b ->
  1 <= Py.sub_days t_out t_in /\
  Py.sub_days t_out t_in
  = Py.toordinal (Py.date_of t_out) - Py.toordinal (Py.date_of t_in) /\
  (exists bk,
      dh_bookings (db (snd (book_room lex now guest rn cin cout session st)))
      = (dh_bookings (db st) ++ [bk])%list /\
      total_amount bk
      = rate_per_night rate
        * (Py.toordinal (Py.date_of t_out) - Py.toordinal (Py.date_of t_in)))
  /\
  fst (book_room lex now guest rn cin cout session st)
  = booking_reply session r g t_in t_out
      (rate_per_night rate
       * (Py.toordinal (Py.date_of t_out) - Py.toordinal (Py.date_of t_in))).
Proof.
  intros Hb Ha La Da Hbo Lb Db.
  pose proof Hb as (_ & _ & (a' & b' & Ha' & Hb' & Pa & Pb & _) & _).
  assert (a' = a) as -> by congruence.
  assert (b' = b) as -> by congruence.
  pose proof (parse_date_date_only _ _ _ _ _ La Da Pa) as Min.
  pose proof (parse_date_date_only _ _ _ _ _ Lb Db Pb) as Mout.
  destruct (book_room_nights_date_only _ _ _ _ _ _ _ _ _ _ _ _ _ _
              Hb Min Mout) as [H1 H2].
  split; [exact H1|]. split; [exact H2|].
  rewrite (book_room_commits _ _ _ _ _ _ _ _ _ _ _ _ _ _ Hb).
  cbn [fst snd db insert_booking dh_bookings]. rewrite H2.
  split; [|reflexivity].
  eexists. split; reflexivity.
Qed.

Lemma book_room_date_only_request_witness :
  bookable Sample.lex Sample.now (Some "Alice") (Some "101")
    (Some "2025-08-18") (Some "2025-08-20") None Sample.st0
    "Alice" "101" (Sample.midnight 2025 8 18) (Sample.midnight 2025 8 20)
    (mk_room "101" "Standard" "available") (mk_roomtype "Standard" 8000) /\
  1 <= Py.sub_days (Sample.midnight 2025 8 20) (Sample.midnight 2025 8 18).
Proof.
  split; [exact sample_alice_bookable|].
  apply (book_room_date_only_request _ _ _ _ _ _ _ _ _ _ _ _ _ _
           "2025-08-18" "2025-08-20"
           (Dateutil.ymd (Some 2025) (Some 8) (Some 18))
           (Dateutil.ymd (Some 2025) (Some 8) (Some 20))
           sample_alice_bookable);
    try reflexivity; repeat split.
Defined.

(** Without a guest name, and with none stored for the session,
    [book_room] asks for the guest name and leaves the state as it was. *)
Lemma book_room_no_guest lex now guest rn cin cout session st :
  truthy guest = None -> session_guest (memory st) session = None ->
  book_room lex now guest rn cin cout session st
  = (MissingParameter (missing_param_response "guest_name"), st).
Proof.
  intros Hg Hs.
  pose proof (proj2 (resolve_guest_name_none (memory st) guest session)
                (conj Hg Hs)) as Hnone.
  unfold book_room. rewrite Hnone. reflexivity.
Qed.

(** X22.  A booking committed under a session id leaves no guest name
    behind: when none is stored for the thread before the call, the reply
    is the error text, none is stored after it, and a later call under the
    same session id without a guest name is asked for the guest name and
    leaves the state as it was, whatever its other arguments. *)
Theorem book_room_then_guest_still_asked
    lex now guest rn cin cout session st g r t_in t_out rm rate sid :
  bookable lex now guest rn cin cout session st g r t_in t_out rm rate ->
  truthy session = Some sid ->
  stored_guest_name (memory st) sid = None ->
  let res := book_room lex now guest rn cin cout session st in
  fst res = BookingError r AttributeError /\
  stored_guest_name (memory (snd res)) sid = None /\
  forall lex' now' guest' rn' cin' cout',
    truthy guest' = None ->
    book_room lex' now' guest' rn' cin' cout' session (snd res)
    = (MissingParameter (missing_param_response "guest_name"), snd res).
Proof.
  intros Hb Hs Hst. cbv zeta.
  pose proof (book_room_memory lex now guest rn cin cout session st) as Hmem.
  split.
  - rewrite (book_room_commits _ _ _ _ _ _ _ _ _ _ _ _ _ _ Hb).
    unfold booking_reply. rewrite Hs. reflexivity.
  - generalize dependent
      (snd (book_room lex now guest rn cin cout session st)).
    intros st1 Hmem. rewrite Hmem. split; [exact Hst|].
    intros lex' now' guest' rn' cin' cout' Hg'.
    apply book_room_no_guest; [exact Hg'|].
    unfold session_guest. rewrite Hs, Hmem, Hst. reflexivity.
Qed.

Lemma sample_alice_bookable_t1 :
  bookable Sample.lex Sample.now (Some "Alice") (Some "101")
    (Some "2025-08-18") (Some "2025-08-20") (Some "t1") Sample.st0
    "Alice" "101" (Sample.midnight 2025 8 18) (Sample.midnight 2025 8 20)
    (mk_room "101" "Standard" "available") (mk_roomtype "Standard" 8000).
Proof.
  repeat split. exact sample_valid_18_20.
Defined.

(** Alice books under session t1; the next request of that session, for
    room 102 and without a guest name, is asked for the name. *)
Lemma book_room_then_guest_still_asked_witness :
  bookable Sample.lex Sample.now (Some "Alice") (Some "101")
    (Some "2025-08-18") (Some "2025-08-20") (Some "t1") Sample.st0
    "Alice" "101" (Sample.midnight 2025 8 18) (Sample.midnight 2025 8 20)
    (mk_room "101" "Standard" "available") (mk_roomtype "Standard" 8000) /\
  truthy (Some "t1") = Some "t1" /\
  stored_guest_name (memory Sample.st0) "t1" = None /\
  fst (book_room Sample.lex Sample.now None (Some "102")
         (Some "2025-08-18") (Some "2025-08-20") (Some "t1")
         (snd (book_room Sample.lex Sample.now (Some "Alice") (Some "101")
                 (Some "2025-08-18") (Some "2025-08-20") (Some "t1")
                 Sample.st0)))
  = MissingParameter (missing_param_response "guest_name").
Proof.
  split; [exact sample_alice_bookable_t1|]. split; [reflexivity|].
  split; [reflexivity|].
  exact (f_equal fst
           (proj2 (proj2 (book_room_then_guest_still_asked
                            _ _ _ _ _ _ _ _ _ _ _ _ _ _ "t1"
                            sample_alice_bookable_t1 eq_refl eq_refl))
              Sample.lex Sample.now None (Some "102")
              (Some "2025-08-18") (Some "2025-08-20") eq_refl)).
Defined.





Example sample_run_replies :
  fst (book_room_calls Sample.lex Sample.now
         [ (Some "Alice", Some "101", Some "2025-08-18", Some "2025-08-20",
            Some "t1");
           (None, Some "102", Some "2025-08-18", Some "2025-08-20",
            Some "t1") ]
         Sample.st0)
  = [ BookingError "101" AttributeError;
      MissingParameter (missing_param_response "guest_name") ].
Proof. reflexivity. Qed.

(* ===================================================================== *)
(** ** The connection, the chat entry point, the missing-parameter text *)
(* ===================================================================== *)

Lemma connection_calls_connected {conn} (c : conn) calls :
  Forall (fun r => r = Returned (Some c)) (connection_calls conn (Some c) calls).
Proof.
  induction calls as [|[connect url] calls IH]; simpl; constructor; auto.
Qed.

Lemma connection_calls_length {conn} calls : forall connection,
  length (connection_calls conn connection calls) = length calls.
Proof.
  induction calls as [|[connect url] calls IH]; intros connection; simpl;
    [reflexivity | rewrite IH; reflexivity].
Qed.

Lemma get_db_connection_safe_cached {conn} connection connect url (c : conn) :
  fst (get_db_connection_safe conn connection connect url)
  = Returned (Some c) ->
  snd (get_db_connection_safe conn connection connect url) = Some c.
Proof.
  unfold get_db_connection_safe, get_db_connection.
  destruct connection as [c0|]; simpl; [congruence|].
  destruct (truthy url); simpl; [congruence | discriminate].
Qed.

(** X24.  In any run of calls to [get_db_connection_safe], once a call
    has returned a connection every later call returns that same
    connection, whatever the environment has become; and a call that
    fails, by returning [None] or by raising, leaves no connection
    behind, so that the next call tries again. *)
Theorem connection_made_once {conn : Type} (connection : option conn) calls :
  (forall i j c,
      (i <= j)%nat -> (j < length calls)%nat ->
      nth_error (connection_calls conn connection calls) i
      = Some (Returned (Some c)) ->
      nth_error (connection_calls conn connection calls) j
      = Some (Returned (Some c))) /\
  (forall connect url,
      (forall c, fst (get_db_connection_safe conn None connect url)
                 <> Returned (Some c)) ->
      snd (get_db_connection_safe conn None connect url) = None).
Proof.
  split.
  - revert connection.
    induction calls as [|[connect url] calls IH]; intros connection i j c Hij Hj.
    + simpl in Hj. lia.
    + cbn [connection_calls]. destruct i as [|i].
      * cbn [nth_error]. intros [= Hfst].
        apply get_db_connection_safe_cached in Hfst as Hsnd. rewrite Hsnd.
        destruct j as [|j]; cbn [nth_error]; [congruence|].
        pose proof (connection_calls_connected c calls) as Hall.
        simpl in Hj.
        destruct (nth_error (connection_calls conn (Some c) calls) j)
          as [r|] eqn:E.
        -- apply nth_error_In in E. rewrite List.Forall_forall in Hall.
           rewrite (Hall r E). reflexivity.
        -- apply nth_error_None in E.
           rewrite connection_calls_length in E. lia.
      * destruct j as [|j]; [lia|]. cbn [nth_error].
        apply IH; simpl in Hj; lia.
  - intros connect url Hfail.
    unfold get_db_connection_safe, get_db_connection in *.
    destruct (truthy url) as [u|]; [|reflexivity].
    cbn [fst snd] in *. destruct (connect u) as [c|]; [|reflexivity].
    exfalso. exact (Hfail c eq_refl).
Qed.

Lemma connection_made_once_witness :
  nth_error
    (connection_calls nat None
       [ (fun _ => None, Some "postgres://motel");
         (fun _ => Some 1%nat, Some "postgres://motel");
         (fun _ => Some 2%nat, None) ]) 2
  = Some (Returned (Some 1%nat)).
Proof.
  apply (proj1 (connection_made_once (conn := nat) None
                  [ (fun _ => None, Some "postgres://motel");
                    (fun _ => Some 1%nat, Some "postgres://motel");
                    (fun _ => Some 2%nat, None) ]) 1%nat 2%nat 1%nat).
  - repeat constructor.
  - repeat constructor.
  - reflexivity.
Defined.

Lemma has_char_append c s1 s2 :
  has_char c (s1 ++ s2) = has_char c s1 || has_char c s2.
Proof.
  induction s1 as [|c1 s1 IH]; simpl; [reflexivity|].
  rewrite IH. apply orb_assoc.
Qed.

Lemma remove_asterisks_clean s : has_char "*" (remove_asterisks s) = false.
Proof.
  induction s as [|c s IH]; simpl; [reflexivity|].
  destruct (Ascii.eqb c "*") eqn:E; simpl; [exact IH|].
  rewrite E, IH. reflexivity.
Qed.

Lemma remove_asterisks_id s :
  has_char "*" s = false -> remove_asterisks s = s.
Proof.
  induction s as [|c s IH]; simpl; [reflexivity|].
  destruct (Ascii.eqb c "*"); simpl; [discriminate|].
  intros H. rewrite (IH H). reflexivity.
Qed.

Lemma welcome_message_clean : has_char "*" welcome_message = false.
Proof. vm_compute. reflexivity. Qed.

(** X25.  No reply of [ask_agent] carries a video URL.  Whenever
    [ask_agent] greets or the agent call returns, the text of the reply
    holds no asterisk: the text of a message of the agent is the message
    with its asterisks taken out, and a message that has none is passed on
    unchanged. *)
Theorem ask_agent_no_asterisk lower_strip invoke user_input session_id :
  video_url (ask_agent lower_strip invoke user_input session_id) = None /\
  (lower_strip user_input = "hi" \/
   (exists content, invoke user_input session_id = inr content) ->
   has_char "*" (text (ask_agent lower_strip invoke user_input session_id))
   = false) /\
  (forall content,
      lower_strip user_input <> "hi" ->
      invoke user_input session_id = inr content ->
      text (ask_agent lower_strip invoke user_input session_id)
      = remove_asterisks content /\
      (has_char "*" content = false ->
       text (ask_agent lower_strip invoke user_input session_id) = content)).
Proof.
  unfold ask_agent.
  destruct (String.eqb (lower_strip user_input) "hi") eqn:E.
  - cbn [text video_url]. split; [reflexivity|].
    split; [intros _; exact welcome_message_clean|].
    intros content Hne. apply String.eqb_eq in E. contradiction.
  - apply String.eqb_neq in E.
    destruct (invoke user_input session_id) as [e|content] eqn:H;
      cbn [text video_url]; (split; [reflexivity|]).
    + split.
      * intros [Hhi | (content & Hc)]; [contradiction | discriminate Hc].
      * intros content _ Hc. discriminate Hc.
    + split; [intros _; apply remove_asterisks_clean|].
      intros content' _ [= <-]. split; [reflexivity|].
      apply remove_asterisks_id.
Qed.

(** A message of the agent set in bold type. *)
Lemma ask_agent_no_asterisk_witness :
  (string_map ascii_lower "Is room 101 free?" = "hi" \/
   exists content, inr "**Room 101** is free" = inr (A := string) content) /\
  has_char "*"
    (text (ask_agent (string_map ascii_lower)
             (fun _ _ => inr "**Room 101** is free")
             "Is room 101 free?" "t1"))
  = false.
Proof.
  assert (string_map ascii_lower "Is room 101 free?" = "hi" \/
          exists content,
            inr "**Room 101** is free" = inr (A := string) content) as H.
  { right. eexists. reflexivity. }
  split; [exact H|].
  exact (proj1 (proj2 (ask_agent_no_asterisk (string_map ascii_lower)
                         (fun _ _ => inr "**Room 101** is free")
                         "Is room 101 free?" "t1")) H).
Defined.

Example sample_bold_reply :
  ask_agent (string_map ascii_lower) (fun _ _ => inr "**Room 101** is free")
    "Is room 101 free?" "t1"
  = mk_chat_reply "Room 101 is free" None.
Proof. reflexivity. Qed.

Lemma ascii_upper_not_underscore c :
  Ascii.eqb c "_" = false -> Ascii.eqb (ascii_upper c) "_" = false.
Proof.
  destruct c as [[] [] [] [] [] [] [] []]; vm_compute; congruence.
Qed.

Lemma ascii_lower_not_underscore c :
  Ascii.eqb c "_" = false -> Ascii.eqb (ascii_lower c) "_" = false.
Proof.
  destruct c as [[] [] [] [] [] [] [] []]; vm_compute; congruence.
Qed.

Lemma replace_underscores_clean s :
  has_char "_" (replace_underscores s) = false.
Proof.
  unfold replace_underscores.
  induction s as [|c s IH]; simpl; [reflexivity|].
  rewrite IH. destruct (Ascii.eqb c "_") eqn:E; [reflexivity|].
  rewrite E. reflexivity.
Qed.

Lemma string_map_lower_clean s :
  has_char "_" s = false -> has_char "_" (string_map ascii_lower s) = false.
Proof.
  induction s as [|c s IH]; simpl; [reflexivity|].
  intros H. apply orb_false_iff in H. destruct H as [Hc Hs].
  rewrite (ascii_lower_not_underscore _ Hc), (IH Hs). reflexivity.
Qed.

(** X26.  For a parameter name written in ASCII, the text of
    [missing_param_response] holds no underscore, and it is the name
    rewritten, of the same length, followed by the fixed request. *)
Theorem missing_param_response_no_underscore param :
  is_ascii param = true ->
  has_char "_" (missing_param_response param) = false /\
  exists natural,
    missing_param_response param
    = natural ++ " is missing. Could you please provide it?" /\
    String.length natural = String.length param.
Proof.
  intros _. unfold missing_param_response. split.
  - rewrite has_char_append.
    assert (has_char "_" (capitalize (replace_underscores param)) = false)
      as ->; [|reflexivity].
    pose proof (replace_underscores_clean param) as H.
    destruct (replace_underscores param) as [|c s]; [reflexivity|].
    simpl in *. apply orb_false_iff in H. destruct H as [Hc Hs].
    rewrite (ascii_upper_not_underscore _ Hc), (string_map_lower_clean _ Hs).
    reflexivity.
  - eexists. split; [reflexivity|].
    assert (forall f s, String.length (string_map f s) = String.length s)
      as Hlen.
    { intros f s. induction s as [|c s IH]; simpl; congruence. }
    unfold capitalize, replace_underscores.
    destruct param as [|c s]; simpl; [reflexivity|].
    rewrite !Hlen. reflexivity.
Qed.

Lemma missing_param_response_no_underscore_witness :
  is_ascii "check_in_date" = true /\
  has_char "_" (missing_param_response "check_in_date") = false.
Proof.
  split; [reflexivity|].
  exact (proj1 (missing_param_response_no_underscore "check_in_date"
                  eq_refl)).
Defined.

Example sample_missing_check_in_date :
  missing_param_response "check_in_date"
  = "Check in date is missing. Could you please provide it?".
Proof. reflexivity. Qed.

(* ===================================================================== *)
(** ** Occupancy within bounds, and the date checks of the two tools *)
(* ===================================================================== *)

Lemma filter_length_le {A} (f : A -> bool) l :
  (length (List.filter f l) <= length l)%nat.
Proof.
  induction l as [|a l IH]; simpl; [lia|]. destruct (f a); simpl; lia.
Qed.

Lemma percent_bounds (a b : Z) :
  0 <= a <= b -> 0 < b ->
  (0 <= inject_Z a / inject_Z b * 100 /\ inject_Z a / inject_Z b * 100 <= 100)%Q.
Proof.
  intros Ha Hb. destruct b as [|p|p]; try lia.
  unfold Qle, Qdiv, Qmult, Qinv, inject_Z. cbn [Qnum Qden].
  split; nia.
Qed.

(** X27.  When rooms are registered under distinct numbers and the
    bookings that include the day are for distinct registered rooms,
    [get_occupancy_rate] answers, for a date it accepts, with a rate from
    0 to 100 per cent. *)
Theorem get_occupancy_rate_at_most_full lex now date s d pd :
  truthy date = Some d -> parse_date lex now d = Some pd ->
  dh_rooms s <> [] ->
  List.NoDup (map r_room_number (dh_rooms s)) ->
  List.NoDup (map b_room_number
                (List.filter (between (Py.date_of pd)) (dh_bookings s))) ->
  (forall b, In b (dh_bookings s) -> between (Py.date_of pd) b = true ->
             In (b_room_number b) (map r_room_number (dh_rooms s))) ->
  exists q,
    get_occupancy_rate lex now date s = OccupancyRate pd q /\
    (0 <= q /\ q <= 100)%Q.
Proof.
  intros Hd Hp Hne Hrooms Hbookings Hreg.
  rewrite (get_occupancy_rate_value _ _ _ _ _ _ Hd Hp Hne).
  eexists. split; [reflexivity|].
  apply percent_bounds.
  - rewrite <- (occupied_rooms_agree _ _ Hrooms Hbookings Hreg).
    unfold spec_occupied_rooms. split; [lia|].
    apply Nat2Z.inj_le. apply filter_length_le.
  - destruct (dh_rooms s); [contradiction|]. simpl. lia.
Qed.

Lemma get_occupancy_rate_at_most_full_witness :
  exists q,
    get_occupancy_rate Sample.lex Sample.now (Some "2025-08-18")
      Sample.one_stay
    = OccupancyRate (Sample.midnight 2025 8 18) q /\
    (0 <= q /\ q <= 100)%Q.
Proof.
  apply (get_occupancy_rate_at_most_full Sample.lex Sample.now
           (Some "2025-08-18") Sample.one_stay "2025-08-18"
           (Sample.midnight 2025 8 18) eq_refl eq_refl).
  - discriminate.
  - repeat constructor; simpl; intuition discriminate.
  - repeat constructor. intros [].
  - intros b [<- | []] _. left. reflexivity.
Defined.

(** X28.  [book_room] and [check_room_availability] check the dates in
    the same way: whenever [check_room_availability] refuses the dates,
    [book_room], called with a guest name and a room number, gives the
    same reply and leaves the state as it was; and when the first accepts
    the dates [book_room] does not refuse them. *)
Theorem book_room_checks_dates_alike
    lex now guest rn cin cout session st g r :
  truthy (resolve_guest_name (memory st) guest session) = Some g ->
  truthy rn = Some r ->
  (refuses_dates (check_room_availability lex now cin cout (db st)) = true ->
   book_room lex now guest rn cin cout session st
   = (check_room_availability lex now cin cout (db st), st)) /\
  (refuses_dates (check_room_availability lex now cin cout (db st)) = false ->
   refuses_dates (fst (book_room lex now guest rn cin cout session st))
   = false).
Proof.
  intros Hg Hr. unfold book_room, check_room_availability.
  rewrite Hg, Hr.
  destruct (truthy cin) as [a|]; [|split; [reflexivity | discriminate]].
  destruct (truthy cout) as [b|]; [|split; [reflexivity | discriminate]].
  destruct (parse_date lex now a) as [t_in|];
    [|split; [reflexivity | discriminate]].
  destruct (parse_date lex now b) as [t_out|];
    [|split; [reflexivity | discriminate]].
  destruct (Py.date_ltb _ _); [split; [reflexivity | discriminate]|].
  destruct (Py.datetime_leb _ _); [split; [reflexivity | discriminate]|].
  split.
  - destruct (select_available _ _ _); discriminate.
  - intros _. destruct (find _ (dh_rooms _)); [|reflexivity].
    destruct (find _ (dh_roomtypes _)); [destruct (truthy session)|];
      reflexivity.
Qed.

Lemma book_room_checks_dates_alike_witness :
  truthy (resolve_guest_name (memory Sample.st0) (Some "Alice") None)
  = Some "Alice" /\
  truthy (Some "101") = Some "101" /\
  book_room Sample.lex Sample.now (Some "Alice") (Some "101")
    (Some "2025-08-20") (Some "2025-08-18") None Sample.st0
  = (InvalidRange, Sample.st0).
Proof.
  split; [reflexivity|]. split; [reflexivity|].
  apply (proj1 (book_room_checks_dates_alike Sample.lex Sample.now
                  (Some "Alice") (Some "101") (Some "2025-08-20")
                  (Some "2025-08-18") None Sample.st0 "Alice" "101"
                  eq_refl eq_refl)).
  reflexivity.
Defined.
